(** * potbot: the progression and analytics engine

    A shallow embedding of the XP / level / prestige engine of [potbot.py]
    (configuration, progression calculator, XP award pipeline, leaderboard,
    daily statistics and the snapshot persistence), with the properties of
    its specification stated and proved over it.

    Modelling conventions.
    - Python [int] is [Z]; Python [float] is an exact rational [Q] (the
      constant [1.4] is [7#5]); rounding of IEEE doubles is not modelled,
      and where a result depends on the last digits of a double (the
      thresholds of the level search) the value is left open.
    - A Python [dict] is an association list in insertion order with unique
      keys, since iteration order is visible through the leaderboard.
    - A Python [set] is a [gset].
    - The wall clock ([datetime.now()], [time.time()]) and the random source
      are explicit inputs of the functions that read them. *)

From Stdlib Require Import ZArith QArith Qround Qpower Qfield Lia Lqa.
From Stdlib Require Import Ascii DecimalString DecimalZ.
From stdpp Require Import base decidable option list gmap strings.

Close Scope Q_scope.
Local Open Scope Z_scope.

(** ** Python dictionaries *)

Section Dict.
Context {K V : Type} `{EqDecision K}.

Definition dict := list (K * V).

(** [d.get(k)] *)
Fixpoint dict_get (k : K) (d : dict) : option V :=
  match d with
  | [] => None
  | (k', v) :: d' => if decide (k = k') then Some v else dict_get k d'
  end.

(** [d[k] = v]: an existing key keeps its position, a new key goes last. *)
Fixpoint dict_set (k : K) (v : V) (d : dict) : dict :=
  match d with
  | [] => [(k, v)]
  | (k', v') :: d' =>
      if decide (k = k') then (k', v) :: d' else (k', v') :: dict_set k v d'
  end.

(** [d.pop(k)] for a key known to be present: the dictionary without it. *)
Fixpoint dict_remove (k : K) (d : dict) : dict :=
  match d with
  | [] => []
  | (k', v') :: d' =>
      if decide (k = k') then d' else (k', v') :: dict_remove k d'
  end.

(** [k in d] *)
Definition dict_mem (k : K) (d : dict) : bool :=
  match dict_get k d with Some _ => true | None => false end.

(** [d.get(k, dflt)] *)
Definition dict_get_or (k : K) (dflt : V) (d : dict) : V :=
  match dict_get k d with Some v => v | None => dflt end.

Definition dict_keys (d : dict) : list K := map fst d.

(** Python dictionaries have unique keys. *)
Definition dict_wf (d : dict) : Prop := NoDup (dict_keys d).

(** [dict(items)]: later items win, first occurrence fixes the position. *)
Definition dict_of_items (items : list (K * V)) : dict :=
  fold_left (fun acc kv => dict_set (fst kv) (snd kv) acc) items [].
End Dict.

Arguments dict : clear implicits.

(** ** Configuration ([CONFIG]) *)

Module CONFIG.
Definition antispam_cooldown_sec : Q := 5.
Definition base_message_xp : Q := 2.
Definition bonus_xp_chance : Q := 15 # 100.
Definition bonus_xp_min : Z := 1.
Definition bonus_xp_max : Z := 5.
Definition voice_xp_per_minute : Q := 3 # 10.
Definition daily_bonus_multiplier : Q := 3 # 2.
Definition streak_bonus_days : Z := 7.
Definition streak_bonus_multiplier : Q := 2.
Definition voice_weight_factor : Q := 10.
Definition base_xp_requirement : Q := 15.
Definition xp_multiplier : Q := 7 # 5.
Definition prestige_threshold : Z := 50.
End CONFIG.

(** ** Progression calculator *)

(** [calculate_level_requirement]: XP needed to go from [level - 1] to
    [level].  The floor is the one of the exact power; the source floors a
    double, which gives the same integer for the levels up to
    [prestige_threshold + 1], the ones the engine asks for, and the
    properties of this function are stated for those levels. *)
Definition calculate_level_requirement (level : Z) : Z :=
  if level =? 0 then 0
  else Qfloor (CONFIG.base_xp_requirement
               * CONFIG.xp_multiplier ^ (level - 1))%Q.

(** The quantity [req] of the binary search: the closed-form geometric sum
    for [mid] levels, as an exact rational.  The double that the source
    compares with can differ from it in the last digits; [level_search_by]
    below leaves that value open. *)
Definition closed_form_requirement (mid : Z) : Q :=
  (CONFIG.base_xp_requirement
   * ((CONFIG.xp_multiplier ^ mid - 1) / (CONFIG.xp_multiplier - 1)))%Q.

(** The [while left < right] loop of [calculate_level_from_xp].  [fuel]
    bounds the number of iterations; [None] means the bound was too small. *)
Fixpoint level_search (fuel : nat) (xp : Q) (left right : Z) : option Z :=
  if left <? right then
    match fuel with
    | O => None
    | S fuel' =>
        let mid := (left + right + 1) / 2 in
        let req := closed_form_requirement mid in
        if Qle_bool req xp
        then level_search fuel' xp mid right
        else level_search fuel' xp left (mid - 1)
    end
  else Some left.

(** [calculate_level_from_xp].  The interval [0, threshold] cannot be halved
    more than [threshold] times, see [level_search_terminates]. *)
Definition calculate_level_from_xp (xp : Q) : Z :=
  let threshold := CONFIG.prestige_threshold in
  match level_search (Z.to_nat threshold) xp 0 threshold with
  | Some l => l
  | None => 0
  end.

(** The same loop with the value of [req] left open: [required_xp mid] is
    the number that [base_req * ((multiplier ** mid - 1) / (multiplier - 1))]
    evaluates to at [mid], a function of [mid] alone whatever the rounding
    of the arithmetic; the comparison [req <= xp] is exact.  With
    [closed_form_requirement] for it this is [level_search]. *)
Fixpoint level_search_by (required_xp : Z -> Q) (fuel : nat) (xp : Q)
  (left right : Z) : option Z :=
  if left <? right then
    match fuel with
    | O => None
    | S fuel' =>
        let mid := (left + right + 1) / 2 in
        let req := required_xp mid in
        if Qle_bool req xp
        then level_search_by required_xp fuel' xp mid right
        else level_search_by required_xp fuel' xp left (mid - 1)
    end
  else Some left.

(** [calculate_level_from_xp] over the thresholds [required_xp]. *)
Definition calculate_level_from_xp_by (required_xp : Z -> Q) (xp : Q) : Z :=
  let threshold := CONFIG.prestige_threshold in
  match level_search_by required_xp (Z.to_nat threshold) xp 0 threshold with
  | Some l => l
  | None => 0
  end.

(** [get_total_xp_for_level]: [for i in range(1, level + 1): total += ...] *)
Definition get_total_xp_for_level (level : Z) : Z :=
  fold_left (fun total i => total + calculate_level_requirement i)
            (seqZ 1 level) 0.

(** [get_progress_in_level] *)
Definition get_progress_in_level (xp : Q) (level : Z) : Q * Z :=
  let total_for_current := get_total_xp_for_level level in
  let next_level_req := calculate_level_requirement (level + 1) in
  let progress := (xp - inject_Z total_for_current)%Q in
  (progress, next_level_req).

(** ** Engine state ([BotState]) *)

(** [BotState.daily_stats] *)
Record DailyStats := {
  ds_date : string;
  ds_messages : Z;
  ds_xp_gained : Q;
  ds_voice_time : Q;
  ds_active_users : gset Z;
  ds_level_ups : Z;
  ds_prestiges : Z;
  ds_new_members : Z
}.

(** A value of [BotState.daily_history]: a frozen day, with the active users
    reduced to their number. *)
Record DailyHistoryEntry := {
  dh_messages : Z;
  dh_xp_gained : Q;
  dh_voice_time : Q;
  dh_active_users : Z;
  dh_level_ups : Z;
  dh_prestiges : Z;
  dh_new_members : Z
}.

Record BotState := {
  events_message : string;
  user_xp : dict Z Q;
  user_level : dict Z Z;
  user_prestige : dict Z Z;
  user_last_message : dict Z Q;
  user_daily_streak : dict Z Z;
  user_last_daily : dict Z string;
  user_achievements : dict Z (gset string);
  voice_start_times : dict Z Q;
  user_message_count : dict Z Z;
  user_voice_time : dict Z Q;
  total_server_messages : Z;
  locked_channels : gset Z;
  daily_stats : DailyStats;
  daily_history : dict string DailyHistoryEntry
}.

Definition empty_daily_stats (date : string) : DailyStats :=
  {| ds_date := date; ds_messages := 0; ds_xp_gained := 0; ds_voice_time := 0;
     ds_active_users := ∅; ds_level_ups := 0; ds_prestiges := 0;
     ds_new_members := 0 |}.

(** The class attributes of [BotState] as the module defines them. *)
Definition initial_state : BotState :=
  {| events_message := "No upcoming events.";
     user_xp := []; user_level := []; user_prestige := [];
     user_last_message := []; user_daily_streak := []; user_last_daily := [];
     user_achievements := []; voice_start_times := [];
     user_message_count := []; user_voice_time := [];
     total_server_messages := 0; locked_channels := ∅;
     daily_stats := empty_daily_stats ""; daily_history := [] |}.

(** Assignments to one attribute of [BotState]. *)
Definition set_events_message (x : string) (st : BotState) : BotState :=
  let 'Build_BotState _ b c d e f g h i j k l m n o := st in
  Build_BotState x b c d e f g h i j k l m n o.
Definition set_user_xp (x : dict Z Q) (st : BotState) : BotState :=
  let 'Build_BotState a _ c d e f g h i j k l m n o := st in
  Build_BotState a x c d e f g h i j k l m n o.
Definition set_user_level (x : dict Z Z) (st : BotState) : BotState :=
  let 'Build_BotState a b _ d e f g h i j k l m n o := st in
  Build_BotState a b x d e f g h i j k l m n o.
Definition set_user_prestige (x : dict Z Z) (st : BotState) : BotState :=
  let 'Build_BotState a b c _ e f g h i j k l m n o := st in
  Build_BotState a b c x e f g h i j k l m n o.
Definition set_user_last_message (x : dict Z Q) (st : BotState) : BotState :=
  let 'Build_BotState a b c d _ f g h i j k l m n o := st in
  Build_BotState a b c d x f g h i j k l m n o.
Definition set_user_daily_streak (x : dict Z Z) (st : BotState) : BotState :=
  let 'Build_BotState a b c d e _ g h i j k l m n o := st in
  Build_BotState a b c d e x g h i j k l m n o.
Definition set_user_last_daily (x : dict Z string) (st : BotState) : BotState :=
  let 'Build_BotState a b c d e f _ h i j k l m n o := st in
  Build_BotState a b c d e f x h i j k l m n o.
Definition set_user_achievements (x : dict Z (gset string)) (st : BotState)
  : BotState :=
  let 'Build_BotState a b c d e f g _ i j k l m n o := st in
  Build_BotState a b c d e f g x i j k l m n o.
Definition set_voice_start_times (x : dict Z Q) (st : BotState) : BotState :=
  let 'Build_BotState a b c d e f g h _ j k l m n o := st in
  Build_BotState a b c d e f g h x j k l m n o.
Definition set_user_message_count (x : dict Z Z) (st : BotState) : BotState :=
  let 'Build_BotState a b c d e f g h i _ k l m n o := st in
  Build_BotState a b c d e f g h i x k l m n o.
Definition set_user_voice_time (x : dict Z Q) (st : BotState) : BotState :=
  let 'Build_BotState a b c d e f g h i j _ l m n o := st in
  Build_BotState a b c d e f g h i j x l m n o.
Definition set_total_server_messages (x : Z) (st : BotState) : BotState :=
  let 'Build_BotState a b c d e f g h i j k _ m n o := st in
  Build_BotState a b c d e f g h i j k x m n o.
Definition set_daily_stats (x : DailyStats) (st : BotState) : BotState :=
  let 'Build_BotState a b c d e f g h i j k l m _ o := st in
  Build_BotState a b c d e f g h i j k l m x o.
Definition set_daily_history (x : dict string DailyHistoryEntry)
  (st : BotState) : BotState :=
  let 'Build_BotState a b c d e f g h i j k l m n _ := st in
  Build_BotState a b c d e f g h i j k l m n x.

(** ** Daily statistics *)

(** [reset_daily_stats]; [today] is [datetime.now().strftime('%Y-%m-%d')]. *)
Definition reset_daily_stats (today : string) (st : BotState) : BotState :=
  let ds := daily_stats st in
  let st :=
    if bool_decide (ds_date ds ≠ "") && bool_decide (ds_date ds ≠ today)
    then set_daily_history
           (dict_set (ds_date ds)
              {| dh_messages := ds_messages ds;
                 dh_xp_gained := ds_xp_gained ds;
                 dh_voice_time := ds_voice_time ds;
                 dh_active_users := Z.of_nat (size (ds_active_users ds));
                 dh_level_ups := ds_level_ups ds;
                 dh_prestiges := ds_prestiges ds;
                 dh_new_members := ds_new_members ds |}
              (daily_history st)) st
    else st in
  set_daily_stats (empty_daily_stats today) st.

(** The arguments of [update_daily_stats] after [user_id], with their
    defaults. *)
Record StatsDelta := {
  sd_messages : Z;
  sd_xp : Q;
  sd_voice_time : Q;
  sd_level_up : bool;
  sd_prestige : bool;
  sd_new_member : bool
}.

Definition no_delta : StatsDelta :=
  {| sd_messages := 0; sd_xp := 0; sd_voice_time := 0; sd_level_up := false;
     sd_prestige := false; sd_new_member := false |}.

(** [if user_id:] is false for [None] and for [0]. *)
Definition truthy_user (user_id : option Z) : option Z :=
  match user_id with
  | Some u => if u =? 0 then None else Some u
  | None => None
  end.

(** [update_daily_stats] *)
Definition update_daily_stats (today : string) (user_id : option Z)
  (a : StatsDelta) (st : BotState) : BotState :=
  let st :=
    if bool_decide (ds_date (daily_stats st) ≠ today)
    then reset_daily_stats today st else st in
  let ds := daily_stats st in
  set_daily_stats
    {| ds_date := ds_date ds;
       ds_messages := ds_messages ds + sd_messages a;
       ds_xp_gained := (ds_xp_gained ds + sd_xp a)%Q;
       ds_voice_time := (ds_voice_time ds + sd_voice_time a)%Q;
       ds_active_users :=
         match truthy_user user_id with
         | Some u => {[u]} ∪ ds_active_users ds
         | None => ds_active_users ds
         end;
       ds_level_ups :=
         if sd_level_up a then ds_level_ups ds + 1 else ds_level_ups ds;
       ds_prestiges :=
         if sd_prestige a then ds_prestiges ds + 1 else ds_prestiges ds;
       ds_new_members :=
         if sd_new_member a then ds_new_members ds + 1 else ds_new_members ds
    |} st.

(** [get_stats_comparison] *)
Definition get_stats_comparison (today yesterday : string) (st : BotState)
  : option DailyStats * option DailyHistoryEntry :=
  (if bool_decide (ds_date (daily_stats st) = today)
   then Some (daily_stats st) else None,
   dict_get yesterday (daily_history st)).

(** ** XP award pipeline *)

(** The readings of the clock during one event: [time.time()], today's date
    and yesterday's date as [strftime('%Y-%m-%d')] prints them. *)
Record Clock := {
  current_time : Q;
  today : string;
  yesterday : string
}.

(** The random source during one event: the value of [random.random()] and
    the integer from which [random.randint] draws. *)
Record Random := {
  random_random : Q;
  random_seed : Z
}.

(** [random.randint(a, b)]: some integer of [a..b], here the one the seed
    selects. *)
Definition randint (a b seed : Z) : Z := a + seed mod (b - a + 1).

(** [award_achievement] *)
Definition award_achievement (user_id : Z) (achievement_id : string)
  (st : BotState) : BotState :=
  let st :=
    if dict_mem user_id (user_achievements st) then st
    else set_user_achievements (dict_set user_id ∅ (user_achievements st)) st in
  set_user_achievements
    (dict_set user_id
       ({[achievement_id]} ∪ dict_get_or user_id ∅ (user_achievements st))
       (user_achievements st)) st.

(** [calculate_message_xp]: the XP of one message, and the state with the
    daily date and the streak updated. *)
Definition calculate_message_xp (clk : Clock) (rnd : Random) (user_id : Z)
  (st : BotState) : Q * BotState :=
  let base_xp := CONFIG.base_message_xp in
  let last_daily := dict_get_or user_id "" (user_last_daily st) in
  let '(multiplier, st) :=
    if bool_decide (last_daily ≠ today clk) then
      let st :=
        set_user_last_daily (dict_set user_id (today clk) (user_last_daily st))
          st in
      let st :=
        if bool_decide (last_daily = yesterday clk)
        then set_user_daily_streak
               (dict_set user_id
                  (dict_get_or user_id 0 (user_daily_streak st) + 1)
                  (user_daily_streak st)) st
        else set_user_daily_streak
               (dict_set user_id 1 (user_daily_streak st)) st in
      (CONFIG.daily_bonus_multiplier, st)
    else (1%Q, st) in
  let streak := dict_get_or user_id 0 (user_daily_streak st) in
  let multiplier :=
    if CONFIG.streak_bonus_days <=? streak
    then (multiplier * CONFIG.streak_bonus_multiplier)%Q else multiplier in
  let bonus :=
    if Qlt_le_dec (random_random rnd) CONFIG.bonus_xp_chance
    then randint CONFIG.bonus_xp_min CONFIG.bonus_xp_max (random_seed rnd)
    else 0 in
  ((base_xp * multiplier + inject_Z bonus)%Q, st).

(** [check_achievements].  The membership tests only skip awards that would
    change nothing, each against the set read on entry. *)
Definition check_achievements (user_id : Z) (xp : Q) (level : Z)
  (st : BotState) : BotState :=
  let achievements := dict_get_or user_id ∅ (user_achievements st) in
  let award_if (c : bool) (a : string) (st : BotState) :=
    if c && bool_decide (a ∉ achievements)
    then award_achievement user_id a st else st in
  let st := award_if (Qle_bool 100 xp) "100_xp" st in
  let st := award_if (Qle_bool 1000 xp) "1000_xp" st in
  let st := award_if (10 <=? level) "level_10" st in
  let st := award_if (25 <=? level) "level_25" st in
  let streak := dict_get_or user_id 0 (user_daily_streak st) in
  let st := award_if (10 <=? streak) "10_day_streak" st in
  let voice_time := dict_get_or user_id 0%Q (user_voice_time st) in
  award_if (Qle_bool 60 voice_time) "voice_hour" st.

(** The test of the prestige transition in [add_xp]:
    [new_level >= threshold and old_level < threshold]. *)
Definition prestige_fires (old_level new_level : Z) : bool :=
  (CONFIG.prestige_threshold <=? new_level)
  && (old_level <? CONFIG.prestige_threshold).

(** [add_xp]: returns [(leveled_up, new_level, prestiged)] and the new
    state. *)
Definition add_xp (today : string) (user_id : Z) (amount : Q) (st : BotState)
  : (bool * Z * bool) * BotState :=
  let old_xp := dict_get_or user_id 0%Q (user_xp st) in
  let new_xp := (old_xp + amount)%Q in
  let st := set_user_xp (dict_set user_id new_xp (user_xp st)) st in
  let old_level := dict_get_or user_id 0 (user_level st) in
  let new_level := calculate_level_from_xp new_xp in
  let st := set_user_level (dict_set user_id new_level (user_level st)) st in
  let st := check_achievements user_id new_xp new_level st in
  let '(new_level, prestiged, st) :=
    if prestige_fires old_level new_level
    then
      let st :=
        set_user_prestige
          (dict_set user_id (dict_get_or user_id 0 (user_prestige st) + 1)
             (user_prestige st)) st in
      let st := set_user_xp (dict_set user_id 0%Q (user_xp st)) st in
      let st := set_user_level (dict_set user_id 0 (user_level st)) st in
      let st := award_achievement user_id "first_prestige" st in
      let st :=
        update_daily_stats today (Some user_id)
          {| sd_messages := 0; sd_xp := 0; sd_voice_time := 0;
             sd_level_up := false; sd_prestige := true;
             sd_new_member := false |} st in
      (0, true, st)
    else (new_level, false, st) in
  let leveled_up := (old_level <? new_level) && negb prestiged in
  let st :=
    if leveled_up
    then update_daily_stats today (Some user_id)
           {| sd_messages := 0; sd_xp := 0; sd_voice_time := 0;
              sd_level_up := true; sd_prestige := false;
              sd_new_member := false |} st
    else st in
  ((leveled_up, new_level, prestiged), st).

(** ** Leaderboard *)

(** [get_prestige_bonus_multiplier] *)
Definition get_prestige_bonus_multiplier : Z :=
  get_total_xp_for_level CONFIG.prestige_threshold.

(** [get_leaderboard_score] *)
Definition get_leaderboard_score (user_id : Z) (st : BotState) : Q :=
  let xp := dict_get_or user_id 0%Q (user_xp st) in
  let voice_time := dict_get_or user_id 0%Q (user_voice_time st) in
  let prestige := dict_get_or user_id 0 (user_prestige st) in
  let prestige_bonus :=
    if 0 <? prestige then prestige * get_prestige_bonus_multiplier else 0 in
  (xp + voice_time * CONFIG.voice_weight_factor + inject_Z prestige_bonus)%Q.

(** [sorted(scores, key=lambda x: x[1], reverse=True)]: a stable sort by
    decreasing score, as an insertion sort that keeps equal scores in their
    original order. *)
Fixpoint insert_by_score (x : Z * Q) (l : list (Z * Q)) : list (Z * Q) :=
  match l with
  | [] => [x]
  | y :: l' =>
      if Qlt_le_dec (snd x) (snd y) then y :: insert_by_score x l'
      else x :: y :: l'
  end.

Definition sorted_by_score (l : list (Z * Q)) : list (Z * Q) :=
  foldr insert_by_score [] l.

(** [get_sorted_leaderboard] *)
Definition get_sorted_leaderboard (st : BotState) : list (Z * Q) :=
  let scores :=
    omap (fun user_id =>
            let score := get_leaderboard_score user_id st in
            if Qlt_le_dec 0 score then Some (user_id, score) else None)
         (dict_keys (user_xp st)) in
  sorted_by_score scores.

(** The [for i, (uid, score) in enumerate(leaderboard, 1)] loop of
    [get_user_rank], with its fall-through result [len(leaderboard) + 1]. *)
Fixpoint rank_in (user_id : Z) (i : Z) (leaderboard : list (Z * Q)) : Z :=
  match leaderboard with
  | [] => i
  | (uid, _) :: rest =>
      if decide (uid = user_id) then i else rank_in user_id (i + 1) rest
  end.

(** [get_user_rank] *)
Definition get_user_rank (user_id : Z) (st : BotState) : Z :=
  match user_xp st with
  | [] => 1
  | _ =>
      let leaderboard := get_sorted_leaderboard st in
      rank_in user_id 1 leaderboard
  end.

(** ** Persistence *)

(** [str(k)] of an integer key. *)
Definition py_str (k : Z) : string := NilZero.string_of_int (Z.to_int k).

(** The blanks that [int] skips on both sides of a literal: tab, line feed,
    vertical tab, form feed, carriage return and space. *)
Definition is_blank (c : ascii) : bool :=
  let n := N_of_ascii c in ((9 <=? n) && (n <=? 13) || (n =? 32))%N.

Fixpoint lstrip_blanks (s : string) : string :=
  match s with
  | String c s' => if is_blank c then lstrip_blanks s' else s
  | EmptyString => EmptyString
  end.

Fixpoint rstrip_blanks (s : string) : string :=
  match s with
  | EmptyString => EmptyString
  | String c s' =>
      match rstrip_blanks s' with
      | EmptyString => if is_blank c then EmptyString else String c EmptyString
      | t => String c t
      end
  end.

(** The digits of a literal, in which single underscores may stand between
    digits: the literal without them; [None] for an underscore that comes
    first, last or after another one, and for an empty literal. *)
Fixpoint strip_underscores (after_digit : bool) (s : string) : option string :=
  match s with
  | EmptyString => if after_digit then Some EmptyString else None
  | String c s' =>
      if Ascii.eqb c "_"%char
      then if after_digit then strip_underscores false s' else None
      else String c <$> strip_underscores true s'
  end.

(** [int(k)] of a string key of ASCII characters: blanks on both sides, an
    optional sign, and decimal digits with single underscores between them;
    [None] stands for the [ValueError].  The blanks and digits of Unicode
    beyond ASCII are not modelled. *)
Definition py_int (s : string) : option Z :=
  let s := rstrip_blanks (lstrip_blanks s) in
  let '(negative, digits) :=
    match s with
    | String "-"%char s' => (true, s')
    | String "+"%char s' => (false, s')
    | _ => (false, s)
    end in
  digits ← strip_underscores false digits;
  d ← NilZero.uint_of_string digits;
  Some (Z.of_int (if negative then Decimal.Neg d else Decimal.Pos d)).

(** A string of ASCII characters only. *)
Fixpoint is_ascii (s : string) : bool :=
  match s with
  | EmptyString => true
  | String c s' => (N_of_ascii c <? 128)%N && is_ascii s'
  end.

(** [daily_stats] as the snapshot holds it: the active users as a list. *)
Record DailyStatsJson := {
  js_date : string;
  js_messages : Z;
  js_xp_gained : Q;
  js_voice_time : Q;
  js_active_users : list Z;
  js_level_ups : Z;
  js_prestiges : Z;
  js_new_members : Z
}.

(** The JSON document of [bot_data.json]; a key may be missing. *)
Record Snapshot := {
  snap_user_xp : option (dict string Q);
  snap_user_level : option (dict string Z);
  snap_user_prestige : option (dict string Z);
  snap_user_daily_streak : option (dict string Z);
  snap_user_last_daily : option (dict string string);
  snap_user_message_count : option (dict string Z);
  snap_user_voice_time : option (dict string Q);
  snap_user_achievements : option (dict string (list string));
  snap_events_message : option string;
  snap_total_server_messages : option Z;
  snap_daily_stats : option DailyStatsJson;
  snap_daily_history : option (dict string DailyHistoryEntry)
}.

(** [{str(k): f(v) for k, v in d.items()}] *)
Definition dump_keys {V W : Type} (f : V -> W) (d : dict Z V) : dict string W :=
  dict_of_items (map (fun kv => (py_str (fst kv), f (snd kv))) d).

(** [{int(k): f(v) for k, v in d.items()}]; [None] when some [int(k)]
    raises. *)
Definition load_keys {V W : Type} (f : V -> W) (d : dict string V)
  : option (dict Z W) :=
  dict_of_items <$>
    mapM (fun kv => k ← py_int (fst kv); Some (k, f (snd kv))) d.

(** [save_data]: the document written to the data file. *)
Definition save_data (st : BotState) : Snapshot :=
  {| snap_user_xp := Some (dump_keys id (user_xp st));
     snap_user_level := Some (dump_keys id (user_level st));
     snap_user_prestige := Some (dump_keys id (user_prestige st));
     snap_user_daily_streak := Some (dump_keys id (user_daily_streak st));
     snap_user_last_daily := Some (dump_keys id (user_last_daily st));
     snap_user_message_count := Some (dump_keys id (user_message_count st));
     snap_user_voice_time := Some (dump_keys id (user_voice_time st));
     snap_user_achievements :=
       Some (dump_keys (fun v : gset string => elements v)
               (user_achievements st));
     snap_events_message := Some (events_message st);
     snap_total_server_messages := Some (total_server_messages st);
     snap_daily_stats :=
       (let ds := daily_stats st in
        Some {| js_date := ds_date ds;
                js_messages := ds_messages ds;
                js_xp_gained := ds_xp_gained ds;
                js_voice_time := ds_voice_time ds;
                js_active_users := elements (ds_active_users ds);
                js_level_ups := ds_level_ups ds;
                js_prestiges := ds_prestiges ds;
                js_new_members := ds_new_members ds |});
     snap_daily_history := Some (daily_history st) |}.

(** One assignment of [load_data] inside its [try]: when the right-hand side
    raises, the handler logs the error and the state stays as it is. *)
Definition assign_or_stop {A : Type} (rhs : option A)
  (assign : A -> BotState -> BotState) (rest : BotState -> BotState)
  (st : BotState) : BotState :=
  match rhs with
  | Some a => rest (assign a st)
  | None => st
  end.

(** [load_data]; [file] is the content of the data file, [None] when there
    is no file. *)
Definition load_data (today : string) (file : option Snapshot)
  (st : BotState) : BotState :=
  match file with
  | None => reset_daily_stats today st
  | Some data =>
      let get {A} (field : option A) (dflt : A) :=
        match field with Some x => x | None => dflt end in
      (assign_or_stop (load_keys id (get (snap_user_xp data) []))
         set_user_xp
      (assign_or_stop (load_keys id (get (snap_user_level data) []))
         set_user_level
      (assign_or_stop (load_keys id (get (snap_user_prestige data) []))
         set_user_prestige
      (assign_or_stop (load_keys id (get (snap_user_daily_streak data) []))
         set_user_daily_streak
      (assign_or_stop (load_keys id (get (snap_user_last_daily data) []))
         set_user_last_daily
      (assign_or_stop (load_keys id (get (snap_user_message_count data) []))
         set_user_message_count
      (assign_or_stop (load_keys id (get (snap_user_voice_time data) []))
         set_user_voice_time
      (assign_or_stop
         (load_keys (fun v : list string => list_to_set v : gset string)
            (get (snap_user_achievements data) []))
         set_user_achievements
      (fun st =>
         let st :=
           set_events_message
             (get (snap_events_message data) "No upcoming events.") st in
         let st :=
           set_total_server_messages
             (get (snap_total_server_messages data) 0) st in
         let st :=
           set_daily_stats
             match snap_daily_stats data with
             | Some js =>
                 {| ds_date := js_date js;
                    ds_messages := js_messages js;
                    ds_xp_gained := js_xp_gained js;
                    ds_voice_time := js_voice_time js;
                    ds_active_users := list_to_set (js_active_users js);
                    ds_level_ups := js_level_ups js;
                    ds_prestiges := js_prestiges js;
                    ds_new_members := js_new_members js |}
             | None => empty_daily_stats ""
             end st in
         set_daily_history (get (snap_daily_history data) []) st)))))))))
      st
  end.

(** ** Event handlers *)

(** What [on_message] reads of a message. *)
Record Message := {
  author_id : Z;
  author_is_bot_user : bool;
  channel_id : Z;
  author_can_manage_messages : bool;
  channel_is_dm : bool;
  author_is_admin : bool;
  in_guild : bool
}.

(** [on_message] (the handler registered last), up to its final
    [bot.process_commands]; sending notifications leaves the state alone. *)
Definition on_message (clk : Clock) (rnd : Random) (message : Message)
  (st : BotState) : BotState :=
  if author_is_bot_user message then st
  else if bool_decide (channel_id message ∈ locked_channels st)
          && negb (author_can_manage_messages message) then st
  else if channel_is_dm message && author_is_admin message then st
  else if in_guild message then
    let current_time := current_time clk in
    let user_id := author_id message in
    let last_message_time := dict_get_or user_id 0%Q (user_last_message st) in
    let st := set_total_server_messages (total_server_messages st + 1) st in
    let st :=
      if dict_mem user_id (user_message_count st) then st
      else award_achievement user_id "first_message" st in
    if Qle_bool CONFIG.antispam_cooldown_sec
         (current_time - last_message_time)%Q
    then
      let '(xp_gained, st) := calculate_message_xp clk rnd user_id st in
      let '(_, st) := add_xp (today clk) user_id xp_gained st in
      let st :=
        set_user_message_count
          (dict_set user_id
             (dict_get_or user_id 0 (user_message_count st) + 1)
             (user_message_count st)) st in
      let st :=
        set_user_last_message
          (dict_set user_id current_time (user_last_message st)) st in
      let st :=
        update_daily_stats (today clk) (Some user_id)
          {| sd_messages := 1; sd_xp := xp_gained; sd_voice_time := 0;
             sd_level_up := false; sd_prestige := false;
             sd_new_member := false |} st in
      let rank := get_user_rank user_id st in
      if rank <=? 3 then
        let achievements := dict_get_or user_id ∅ (user_achievements st) in
        if bool_decide ("top_3" ∉ achievements)
        then award_achievement user_id "top_3" st else st
      else st
    else st
  else st.

(** [on_voice_state_update]; [before] and [after] are the voice channels of
    the member before and after the change.  The minutes and the XP of a
    session are the exact quotient and product, where the source stores
    them rounded to doubles. *)
Definition on_voice_state_update (clk : Clock) (user_id : Z)
  (before after : option Z) (st : BotState) : BotState :=
  let current_time := current_time clk in
  match before, after with
  | None, Some _ =>
      set_voice_start_times
        (dict_set user_id current_time (voice_start_times st)) st
  | Some _, None =>
      match dict_get user_id (voice_start_times st) with
      | Some start_time =>
          let st :=
            set_voice_start_times
              (dict_remove user_id (voice_start_times st)) st in
          let duration_minutes := ((current_time - start_time) / 60)%Q in
          if Qle_bool 1 duration_minutes then
            let xp_gained :=
              (duration_minutes * CONFIG.voice_xp_per_minute)%Q in
            let '(_, st) := add_xp (today clk) user_id xp_gained st in
            let st :=
              set_user_voice_time
                (dict_set user_id
                   (dict_get_or user_id 0%Q (user_voice_time st)
                    + duration_minutes)%Q
                   (user_voice_time st)) st in
            update_daily_stats (today clk) (Some user_id)
              {| sd_messages := 0; sd_xp := xp_gained;
                 sd_voice_time := duration_minutes; sd_level_up := false;
                 sd_prestige := false; sd_new_member := false |} st
          else st
      | None => st
      end
  | _, _ => st
  end.

(** [on_member_join] *)
Definition on_member_join (clk : Clock) (st : BotState) : BotState :=
  update_daily_stats (today clk) None
    {| sd_messages := 0; sd_xp := 0; sd_voice_time := 0; sd_level_up := false;
       sd_prestige := false; sd_new_member := true |} st.

(** The events that reach the engine. *)
Inductive Event :=
| MessageEvent (clk : Clock) (rnd : Random) (message : Message)
| VoiceStateEvent (clk : Clock) (user_id : Z) (before after : option Z)
| MemberJoinEvent (clk : Clock).

Definition handle (ev : Event) (st : BotState) : BotState :=
  match ev with
  | MessageEvent clk rnd message => on_message clk rnd message st
  | VoiceStateEvent clk user_id before after =>
      on_voice_state_update clk user_id before after st
  | MemberJoinEvent clk => on_member_join clk st
  end.

(** The state after a sequence of events. *)
Definition run (evs : list Event) (st : BotState) : BotState :=
  fold_left (fun st ev => handle ev st) evs st.

(** Whether [on_message] gets to its XP section: the author is not the bot,
    the message was not deleted in a locked channel, it is not an
    administrator's direct message, and it was sent in a guild. *)
Definition reaches_xp_section (message : Message) (st : BotState) : bool :=
  negb (author_is_bot_user message)
  && negb (bool_decide (channel_id message ∈ locked_channels st)
           && negb (author_can_manage_messages message))
  && negb (channel_is_dm message && author_is_admin message)
  && in_guild message.

(** ** Sample inputs *)

Definition clock_at (t : Q) (day before : string) : Clock :=
  {| current_time := t; today := day; yesterday := before |}.

Definition no_bonus : Random := {| random_random := 1 # 2; random_seed := 0 |}.

Definition guild_message (user_id : Z) : Message :=
  {| author_id := user_id; author_is_bot_user := false; channel_id := 100;
     author_can_manage_messages := false; channel_is_dm := false;
     author_is_admin := false; in_guild := true |}.

(** The dictionaries that [save_data] writes have unique keys. *)
Definition wf_state (st : BotState) : Prop :=
  dict_wf (user_xp st) /\ dict_wf (user_level st)
  /\ dict_wf (user_prestige st) /\ dict_wf (user_daily_streak st)
  /\ dict_wf (user_last_daily st) /\ dict_wf (user_message_count st)
  /\ dict_wf (user_voice_time st) /\ dict_wf (user_achievements st).

(** No user has a negative XP or voice time. *)
Definition nonneg_state (st : BotState) : Prop :=
  forall u, (0 <= dict_get_or u 0 (user_xp st))%Q
            /\ (0 <= dict_get_or u 0 (user_voice_time st))%Q.

(** Every stored level is the level of the stored XP. *)
Definition level_consistent (st : BotState) : Prop :=
  forall u, dict_get_or u 0 (user_level st)
            = calculate_level_from_xp (dict_get_or u 0%Q (user_xp st)).

(** ** Reading one user's progress, with the defaults of [dict.get] *)

Definition xp_of (user_id : Z) (st : BotState) : Q :=
  dict_get_or user_id 0%Q (user_xp st).
Definition level_of (user_id : Z) (st : BotState) : Z :=
  dict_get_or user_id 0 (user_level st).
Definition prestige_of (user_id : Z) (st : BotState) : Z :=
  dict_get_or user_id 0 (user_prestige st).
Definition streak_of (user_id : Z) (st : BotState) : Z :=
  dict_get_or user_id 0 (user_daily_streak st).
Definition last_daily_of (user_id : Z) (st : BotState) : string :=
  dict_get_or user_id "" (user_last_daily st).
Definition voice_time_of (user_id : Z) (st : BotState) : Q :=
  dict_get_or user_id 0%Q (user_voice_time st).
Definition achievements_of (user_id : Z) (st : BotState) : gset string :=
  dict_get_or user_id ∅ (user_achievements st).

(** ** Commands *)

Definition set_locked_channels (x : gset Z) (st : BotState) : BotState :=
  let 'Build_BotState a b c d e f g h i j k l _ n o := st in
  Build_BotState a b c d e f g h i j k l x n o.

(** The [lock] command ([field] relies on the name [lock] being free);
    [manage_messages] is the permission that
    [has_permissions(manage_messages=True)] tests before the body runs. *)
Definition lock_command (manage_messages : bool) (channel : Z) (st : BotState)
  : BotState :=
  if manage_messages
  then set_locked_channels ({[channel]} ∪ locked_channels st) st
  else st.

(** The [unlock] command; [discard] removes the channel when it is
    there. *)
Definition unlock_command (manage_messages : bool) (channel : Z) (st : BotState)
  : BotState :=
  if manage_messages
  then set_locked_channels (locked_channels st ∖ {[channel]}) st
  else st.

(** The progress bar of [profile]: its cells ([true] for a filled one) and
    the percentage shown beside it; [None] when [next_req] is not positive
    and no bar is shown. *)
Definition profile_progress_bar (user_id : Z) (st : BotState)
  : option (list bool * Q) :=
  let xp := dict_get_or user_id 0%Q (user_xp st) in
  let level := dict_get_or user_id 0 (user_level st) in
  let '(progress, next_req) := get_progress_in_level xp level in
  if 0 <? next_req then
    let percent := (progress / inject_Z next_req * 100)%Q in
    let progress_bar_length := 20 in
    let filled_length :=
      Qfloor (inject_Z progress_bar_length * percent / 100)%Q in
    Some (repeat true (Z.to_nat filled_length)
          ++ repeat false (Z.to_nat (progress_bar_length - filled_length)),
          percent)
  else None.

(** [CONFIG["top_talkers_limit"]] *)
Definition top_talkers_limit : nat := 10.

(** The lines of the [leaderboards] command as (position, user, score);
    [is_member] tells whether [ctx.guild.get_member] finds the user; [None]
    when the command answers that there is no data. *)
Definition leaderboards (is_member : Z -> bool) (st : BotState)
  : option (list (Z * (Z * Q))) :=
  match user_xp st with
  | [] => None
  | _ =>
      let user_scores :=
        omap (fun user_id =>
                let score := get_leaderboard_score user_id st in
                if Qlt_le_dec 0 score then Some (user_id, score) else None)
             (dict_keys (user_xp st)) in
      match user_scores with
      | [] => None
      | _ =>
          let sorted_users :=
            take top_talkers_limit (sorted_by_score user_scores) in
          let desc_lines :=
            omap (fun line : Z * (Z * Q) =>
                    if is_member (fst (snd line)) then Some line else None)
                 (zip (seqZ 1 (Z.of_nat (length sorted_users)))
                      sorted_users) in
          match desc_lines with
          | [] => None
          | _ => Some desc_lines
          end
      end
  end.

(** A list of (user, score) in which no entry has a higher score than an
    earlier one. *)
Definition decreasing_scores (l : list (Z * Q)) : Prop :=
  forall (i j : nat) a b,
    (i < j)%nat -> l !! i = Some a -> l !! j = Some b -> (snd b <= snd a)%Q.


(** ** Weather cache *)

Section Weather.
(** [Data] is the decoded JSON of a weather report and [lower] is
    [str.lower]. *)
Context {Data : Type} (lower : string -> string).

Definition CACHE_TTL : Q := 600.

(** What the request of [fetch_weather] comes to: a response with its
    status and the result of [response.json()], or an exception with its
    text. *)
Inductive HttpOutcome :=
| HttpResponse (status : Z) (json : Data + string)
| HttpException (text : string).

(** [fetch_weather]: the report or an error text, and the cache after the
    call. *)
Definition fetch_weather (current_time : Q) (location : string)
  (outcome : HttpOutcome) (weather_cache : dict string (Q * Data))
  : (Data + string) * dict string (Q * Data) :=
  let loc_key := lower location in
  let fetch :=
    match outcome with
    | HttpResponse status json =>
        if status =? 200 then
          match json with
          | inl data =>
              (inl data, dict_set loc_key (current_time, data) weather_cache)
          | inr text => (inr text, weather_cache)
          end
        else
          (inr ("Error: " +:+ py_str status
                +:+ " - Could not fetch weather data"), weather_cache)
    | HttpException text => (inr text, weather_cache)
    end in
  match dict_get loc_key weather_cache with
  | Some cached =>
      if Qlt_le_dec (current_time - fst cached) CACHE_TTL
      then (inl (snd cached), weather_cache)
      else fetch
  | None => fetch
  end.
End Weather.

(** ** Growth of the lifetime records *)

(** From [st] to [st'] no achievement is lost and no prestige, message
    count, voice time or server message counter goes down. *)
Definition grows (st st' : BotState) : Prop :=
  (forall u, dict_get_or u ∅ (user_achievements st)
             ⊆ dict_get_or u ∅ (user_achievements st'))
  /\ (forall u, dict_get_or u 0 (user_prestige st)
                <= dict_get_or u 0 (user_prestige st'))
  /\ (forall u, dict_get_or u 0 (user_message_count st)
                <= dict_get_or u 0 (user_message_count st'))
  /\ (forall u, (dict_get_or u 0 (user_voice_time st)
                 <= dict_get_or u 0 (user_voice_time st'))%Q)
  /\ total_server_messages st <= total_server_messages st'.

(** Every stored level is below the prestige threshold. *)
Definition levels_below_threshold (st : BotState) : Prop :=
  forall u, dict_get_or u 0 (user_level st) < CONFIG.prestige_threshold.

(** ** The hourly statistics task *)

(** [post_daily_stats] up to the point where it builds its embed: the
    statistics the embed is built from, or [None] when the task returns
    before.  [hour] and [minute] are those of [datetime.now()], and
    [stats_channel] tells whether a guild has a channel named
    [CONFIG["stats_channel"]]. *)
Definition post_daily_stats (hour minute : Z) (stats_channel : bool)
  (today yesterday : string) (st : BotState)
  : option (DailyStats * option DailyHistoryEntry) :=
  if negb (hour =? 0) || negb (minute =? 0) then None
  else if negb stats_channel then None
  else
    let '(today_stats, yesterday_stats) :=
      get_stats_comparison today yesterday st in
    match today_stats with
    | None => None
    | Some today_stats => Some (today_stats, yesterday_stats)
    end.

(** The clock readings of an event. *)
Definition event_clock (ev : Event) : Clock :=
  match ev with
  | MessageEvent clk _ _ => clk
  | VoiceStateEvent clk _ _ _ => clk
  | MemberJoinEvent clk => clk
  end.

(** From [st] to [st'] the date of the daily statistics stays or becomes
    one of the dates [D], and the history of every other day, the stored
    one apart, is as it was. *)
Definition stats_follow (D : string -> Prop) (st st' : BotState) : Prop :=
  (ds_date (daily_stats st') = ds_date (daily_stats st)
   \/ D (ds_date (daily_stats st')))
  /\ forall d, d <> ds_date (daily_stats st) -> ~ D d ->
       dict_get d (daily_history st') = dict_get d (daily_history st).

(** * Properties *)

(** ** Dictionary lemmas *)

Section DictFacts.
Context {K V : Type} `{EqDecision K}.
Implicit Types (k : K) (v : V) (d : dict K V).

Lemma dict_get_set_eq k v d : dict_get k (dict_set k v d) = Some v.
Proof.
  induction d as [|[k' v'] d IH]; simpl.
  - by rewrite decide_True.
  - destruct (decide (k = k')) as [->|Hne]; simpl.
    + by rewrite decide_True.
    + by rewrite decide_False.
Qed.

Lemma dict_get_set_ne k k' v d :
  k ≠ k' -> dict_get k' (dict_set k v d) = dict_get k' d.
Proof.
  intros Hne. induction d as [|[k0 v0] d IH]; simpl.
  - by rewrite decide_False.
  - destruct (decide (k = k0)) as [->|Hne0]; simpl.
    + by rewrite !decide_False.
    + by rewrite IH.
Qed.

Lemma dict_get_or_set_eq k v dflt d :
  dict_get_or k dflt (dict_set k v d) = v.
Proof. unfold dict_get_or. by rewrite dict_get_set_eq. Qed.

Lemma dict_get_or_set_ne k k' v dflt d :
  k ≠ k' -> dict_get_or k' dflt (dict_set k v d) = dict_get_or k' dflt d.
Proof. intros. unfold dict_get_or. by rewrite dict_get_set_ne. Qed.

Lemma dict_get_None k d : dict_get k d = None <-> k ∉ dict_keys d.
Proof.
  induction d as [|[k' v'] d IH]; simpl.
  - split; [intros _; apply not_elem_of_nil | done].
  - rewrite not_elem_of_cons. destruct (decide (k = k')) as [->|Hne].
    + split; [done | by intros []].
    + rewrite IH. split; [done | by intros []].
Qed.

Lemma dict_set_fresh k v d :
  k ∉ dict_keys d -> dict_set k v d = d ++ [(k, v)].
Proof.
  induction d as [|[k' v'] d IH]; simpl; [done|].
  rewrite not_elem_of_cons. intros [Hne Hd].
  rewrite decide_False by done. by rewrite IH.
Qed.

Lemma dict_keys_set k v d :
  dict_keys (dict_set k v d)
  = if dict_mem k d then dict_keys d else dict_keys d ++ [k].
Proof.
  unfold dict_mem. induction d as [|[k' v'] d IH]; simpl; [done|].
  destruct (decide (k = k')) as [->|Hne]; simpl; [done|].
  rewrite IH. by destruct (dict_get k d).
Qed.

Lemma dict_wf_set k v d : dict_wf d -> dict_wf (dict_set k v d).
Proof.
  unfold dict_wf. rewrite dict_keys_set. unfold dict_mem.
  destruct (dict_get k d) eqn:Hget; [done|].
  intros Hd. apply NoDup_app. split_and!; [done| |apply NoDup_singleton].
  intros x Hx ->%list_elem_of_singleton. by apply dict_get_None in Hget.
Qed.

(** Building a dictionary from items with distinct keys keeps the items. *)
Lemma dict_of_items_app (acc items : list (K * V)) :
  NoDup (map fst (acc ++ items)) ->
  fold_left (fun acc kv => dict_set (fst kv) (snd kv) acc) items acc
  = acc ++ items.
Proof.
  revert acc. induction items as [|[k v] items IH]; intros acc Hnd; simpl.
  - by rewrite app_nil_r.
  - rewrite dict_set_fresh.
    + rewrite IH; rewrite <- app_assoc; done.
    + rewrite map_app in Hnd. apply NoDup_app in Hnd as (_ & Hnd & _).
      intros Hin. apply (Hnd k Hin). simpl. left.
Qed.

Lemma dict_of_items_wf (items : list (K * V)) :
  NoDup (map fst items) -> dict_of_items items = items.
Proof. intros Hnd. unfold dict_of_items. by rewrite dict_of_items_app. Qed.
End DictFacts.

(** ** Progression calculator *)

Lemma closed_form_requirement_eq mid :
  (closed_form_requirement mid == (75 # 2) * (CONFIG.xp_multiplier ^ mid - 1))%Q.
Proof. unfold closed_form_requirement, CONFIG.base_xp_requirement,
         CONFIG.xp_multiplier. field. Qed.

Lemma closed_form_requirement_mono a b :
  a <= b -> (closed_form_requirement a <= closed_form_requirement b)%Q.
Proof.
  intros Hab. rewrite !closed_form_requirement_eq.
  assert (Hp : (CONFIG.xp_multiplier ^ a <= CONFIG.xp_multiplier ^ b)%Q).
  { apply Qpower_le_compat_l; [done|]. unfold CONFIG.xp_multiplier. lra. }
  lra.
Qed.

Lemma closed_form_requirement_succ n :
  (closed_form_requirement (n + 1)
   == closed_form_requirement n
      + CONFIG.base_xp_requirement * CONFIG.xp_multiplier ^ n)%Q.
Proof.
  rewrite !closed_form_requirement_eq.
  rewrite Qpower_plus by (unfold CONFIG.xp_multiplier; lra).
  unfold CONFIG.base_xp_requirement. change (CONFIG.xp_multiplier ^ 1)%Q with (7 # 5)%Q.
  ring.
Qed.

(** With enough fuel the loop ends through its exit test. *)
Lemma level_search_terminates fuel xp left right :
  (Z.to_nat (right - left) <= fuel)%nat ->
  exists l, level_search fuel xp left right = Some l.
Proof.
  revert left right. induction fuel as [|fuel IH]; intros left right Hfuel;
    simpl; destruct (Z.ltb_spec left right) as [Hlt|Hge]; eauto; try lia.
  assert (left < (left + right + 1) / 2 <= right) as [Hlo Hhi].
  { Z.div_mod_to_equations. lia. }
  destruct (Qle_bool _ xp); apply IH; lia.
Qed.

(** The result stays between the bounds of the search. *)
Lemma level_search_bounds fuel xp left right l :
  left <= right ->
  level_search fuel xp left right = Some l -> left <= l <= right.
Proof.
  revert left right. induction fuel as [|fuel IH]; intros left right Hle;
    simpl; destruct (Z.ltb_spec left right) as [Hlt|Hge];
    try (intros [= <-]; lia); try done.
  assert (left < (left + right + 1) / 2 <= right) as [Hlo Hhi].
  { Z.div_mod_to_equations. lia. }
  destruct (Qle_bool _ xp); intros Hs; apply IH in Hs; lia.
Qed.

(** The result is the lower bound or a level whose requirement is met. *)
Lemma level_search_met fuel xp left right l :
  level_search fuel xp left right = Some l ->
  l = left \/ (closed_form_requirement l <= xp)%Q.
Proof.
  revert left right. induction fuel as [|fuel IH]; intros left right;
    simpl; destruct (Z.ltb_spec left right) as [Hlt|Hge];
    try (intros [= ->]; by constructor 1); try done.
  destruct (Qle_bool _ xp) eqn:Hreq; intros Hs; apply IH in Hs as [->|Hs];
    auto.
  right. by apply Qle_bool_iff.
Qed.

Lemma calculate_level_from_xp_returns xp :
  level_search (Z.to_nat CONFIG.prestige_threshold) xp 0
    CONFIG.prestige_threshold = Some (calculate_level_from_xp xp).
Proof.
  unfold calculate_level_from_xp.
  destruct (level_search_terminates (Z.to_nat CONFIG.prestige_threshold) xp 0
              CONFIG.prestige_threshold) as [l Hl]; [lia|].
  by rewrite Hl.
Qed.

Lemma calculate_level_from_xp_range xp :
  0 <= calculate_level_from_xp xp <= CONFIG.prestige_threshold.
Proof.
  eapply level_search_bounds; [|apply calculate_level_from_xp_returns]; done.
Qed.

Lemma calculate_level_from_xp_below xp level :
  0 < level -> (xp < closed_form_requirement level)%Q ->
  calculate_level_from_xp xp < level.
Proof.
  intros Hpos Hxp.
  destruct (level_search_met _ _ _ _ _ (calculate_level_from_xp_returns xp))
    as [->|Hmet]; [done|].
  destruct (Z.lt_ge_cases (calculate_level_from_xp xp) level) as [|Hge];
    [done|].
  apply closed_form_requirement_mono in Hge. lra.
Qed.

Lemma calculate_level_from_xp_zero : calculate_level_from_xp 0 = 0.
Proof. vm_compute. reflexivity. Qed.

Lemma get_total_xp_for_level_succ n :
  0 <= n ->
  get_total_xp_for_level (n + 1)
  = get_total_xp_for_level n + calculate_level_requirement (n + 1).
Proof.
  intros Hn. unfold get_total_xp_for_level.
  rewrite seqZ_app by lia. rewrite fold_left_app.
  rewrite (seqZ_cons _ 1), (seqZ_nil _ (Z.pred 1)) by lia. simpl.
  by rewrite (Z.add_comm 1 n).
Qed.

(** The floored per-level requirements never add up to more than the closed
    form the binary search compares with. *)
Lemma get_total_xp_for_level_le_closed_form level :
  0 <= level ->
  (inject_Z (get_total_xp_for_level level) <= closed_form_requirement level)%Q.
Proof.
  revert level. apply natlike_ind.
  - vm_compute. discriminate.
  - intros n Hn IH. unfold Z.succ.
    rewrite get_total_xp_for_level_succ, closed_form_requirement_succ by done.
    rewrite inject_Z_plus.
    unfold calculate_level_requirement.
    destruct (Z.eqb_spec (n + 1) 0) as [|_]; [lia|].
    replace (n + 1 - 1) with n by lia.
    pose proof (Qfloor_le (CONFIG.base_xp_requirement * CONFIG.xp_multiplier ^ n)).
    lra.
Qed.

(** The search finds every level of the interval whose requirement is met. *)
Lemma level_search_max fuel xp left right l :
  level_search fuel xp left right = Some l ->
  forall k, left <= k <= right -> (closed_form_requirement k <= xp)%Q -> k <= l.
Proof.
  revert left right. induction fuel as [|fuel IH]; intros left right;
    simpl; destruct (Z.ltb_spec left right) as [Hlt|Hge];
    try (intros [= ->] k Hk _; lia); try done.
  assert (left < (left + right + 1) / 2 <= right) as [Hlo Hhi].
  { Z.div_mod_to_equations. lia. }
  destruct (Qle_bool _ xp) eqn:Hreq; intros Hs k Hk Hmet.
  - destruct (Z.le_gt_cases ((left + right + 1) / 2) k) as [Hmid|Hmid].
    + eapply IH; [apply Hs| |done]. lia.
    + apply level_search_bounds in Hs; lia.
  - eapply IH; [apply Hs| |done].
    destruct (Z.le_gt_cases ((left + right + 1) / 2) k) as [Hmid|Hmid];
      [|lia].
    apply closed_form_requirement_mono in Hmid.
    assert (Hle : Qle_bool (closed_form_requirement ((left + right + 1) / 2)) xp
                  = true) by (apply Qle_bool_iff; lra).
    congruence.
Qed.

Lemma calculate_level_from_xp_threshold xp :
  (closed_form_requirement CONFIG.prestige_threshold <= xp)%Q ->
  calculate_level_from_xp xp = CONFIG.prestige_threshold.
Proof.
  intros Hxp. pose proof (calculate_level_from_xp_range xp) as Hr.
  pose proof (level_search_max _ _ _ _ _ (calculate_level_from_xp_returns xp)
                CONFIG.prestige_threshold) as Hm.
  unfold CONFIG.prestige_threshold in *. specialize (Hm ltac:(lia) Hxp). lia.
Qed.

(** ** Frames: which attributes a function can change *)

Ltac is_state s :=
  lazymatch s with
  | Build_BotState _ _ _ _ _ _ _ _ _ _ _ _ _ _ _ => idtac
  end.

Ltac state_simpl :=
  cbn [set_events_message set_user_xp set_user_level set_user_prestige
       set_user_last_message set_user_daily_streak set_user_last_daily
       set_user_achievements set_voice_start_times set_user_message_count
       set_user_voice_time set_total_server_messages set_daily_stats
       set_daily_history
       events_message user_xp user_level user_prestige user_last_message
       user_daily_streak user_last_daily user_achievements voice_start_times
       user_message_count user_voice_time total_server_messages
       locked_channels daily_stats daily_history fst snd] in *.

Lemma award_achievement_frame user_id a st :
  exists ach,
    award_achievement user_id a st = set_user_achievements ach st
    /\ (dict_wf (user_achievements st) -> dict_wf ach).
Proof.
  unfold award_achievement. destruct st; state_simpl.
  destruct (dict_mem _ _); state_simpl; eexists; split; try reflexivity;
    auto using dict_wf_set.
Qed.

Ltac frame_award :=
  match goal with
  | |- context [award_achievement ?u ?a ?s] =>
      is_state s;
      let E := fresh "E" in
      let W := fresh "Hwf" in
      destruct (award_achievement_frame u a s) as (? & E & W);
      rewrite E; clear E; state_simpl
  end.

Lemma check_achievements_frame user_id xp level st :
  exists ach,
    check_achievements user_id xp level st = set_user_achievements ach st
    /\ (dict_wf (user_achievements st) -> dict_wf ach).
Proof.
  unfold check_achievements. cbv zeta beta. destruct st; state_simpl.
  repeat match goal with
  | |- context [if ?c then award_achievement ?u ?a ?s else ?s] =>
      is_state s; destruct c; [frame_award|]
  end;
  (eexists; split; [reflexivity | tauto]).
Qed.

Lemma reset_daily_stats_frame today st :
  exists ds dh,
    reset_daily_stats today st = set_daily_history dh (set_daily_stats ds st).
Proof.
  unfold reset_daily_stats. destruct st; state_simpl.
  destruct (_ && _); state_simpl; eauto.
Qed.

Lemma update_daily_stats_frame today user_id a st :
  exists ds dh,
    update_daily_stats today user_id a st
    = set_daily_history dh (set_daily_stats ds st).
Proof.
  unfold update_daily_stats.
  destruct (bool_decide _).
  - destruct (reset_daily_stats_frame today st) as (ds & dh & ->).
    destruct st; state_simpl; eauto.
  - destruct st; state_simpl; eauto.
Qed.

Ltac frame_stats :=
  match goal with
  | |- context [update_daily_stats ?t ?u ?d ?s] =>
      is_state s;
      let E := fresh "E" in
      destruct (update_daily_stats_frame t u d s) as (? & ? & E);
      rewrite E; clear E; state_simpl
  end.

Ltac frame_check :=
  match goal with
  | |- context [check_achievements ?u ?x ?l ?s] =>
      is_state s;
      let E := fresh "E" in
      let W := fresh "Hwf" in
      destruct (check_achievements_frame u x l s) as (? & E & W);
      rewrite E; clear E; state_simpl
  end.

(** [add_xp] in one equation: what it returns and what it stores. *)

Lemma add_xp_spec today user_id amount st :
  let old_xp := dict_get_or user_id 0%Q (user_xp st) in
  let new_xp := (old_xp + amount)%Q in
  let old_level := dict_get_or user_id 0 (user_level st) in
  let new_level := calculate_level_from_xp new_xp in
  let p := prestige_fires old_level new_level in
  exists ach ds dh,
    add_xp today user_id amount st
    = (((old_level <? (if p then 0 else new_level)) && negb p,
        if p then 0 else new_level, p),
       set_daily_history dh (set_daily_stats ds (set_user_achievements ach
         (set_user_prestige
            (if p
             then dict_set user_id
                    (dict_get_or user_id 0 (user_prestige st) + 1)
                    (user_prestige st)
             else user_prestige st)
         (set_user_level
            (if p then dict_set user_id 0 (dict_set user_id new_level
                                             (user_level st))
             else dict_set user_id new_level (user_level st))
         (set_user_xp
            (if p then dict_set user_id 0%Q (dict_set user_id new_xp
                                               (user_xp st))
             else dict_set user_id new_xp (user_xp st)) st))))))
    /\ (dict_wf (user_achievements st) -> dict_wf ach).
Proof.
  intros old_xp new_xp old_level new_level p.
  subst p old_level new_level new_xp old_xp. unfold add_xp. cbv zeta.
  destruct st; state_simpl. frame_check.
  destruct (prestige_fires _ _); state_simpl.
  - frame_award. frame_stats.
    rewrite andb_false_r. do 3 eexists. split; [reflexivity | auto].
  - rewrite andb_true_r. destruct (_ <? _).
    + frame_stats. do 3 eexists. split; [reflexivity | auto].
    + do 3 eexists. split; [reflexivity | auto].
Qed.

(** ** The level computed from XP *)

Example level_requirement_samples :
  map calculate_level_requirement [0; 1; 2; 3; 4] = [0; 15; 21; 29; 41].
Proof. reflexivity. Qed.

Example total_xp_samples :
  map get_total_xp_for_level [-1; 0; 1; 2; 3] = [0; 0; 15; 36; 65].
Proof. reflexivity. Qed.

Example level_from_xp_samples :
  map calculate_level_from_xp
    [(-1)%Q; 0%Q; 14%Q; 15%Q; 36%Q; 65%Q; (327 # 5)%Q; (10 ^ 12)%Q]
  = [0; 0; 0; 1; 2; 2; 3; 50].
Proof. vm_compute. reflexivity. Qed.

(** C10: for every XP value the binary search of [calculate_level_from_xp]
    ends through its exit test and returns a level between 0 and the
    prestige threshold, so never a level above 50. *)
Theorem calculate_level_from_xp_in_range (xp : Q) :
  level_search (Z.to_nat CONFIG.prestige_threshold) xp 0
    CONFIG.prestige_threshold = Some (calculate_level_from_xp xp)
  /\ 0 <= calculate_level_from_xp xp <= CONFIG.prestige_threshold
  /\ calculate_level_from_xp xp <= 50.
Proof.
  split; [apply calculate_level_from_xp_returns|].
  pose proof (calculate_level_from_xp_range xp) as Hr.
  unfold CONFIG.prestige_threshold in *. lia.
Qed.

(** C2: the two formulas for the XP of a level disagree.  The floors that
    [get_total_xp_for_level] adds up stay below the closed form that
    [calculate_level_from_xp] compares with from level 3 on (65 against
    65.4), so the total XP of level 3, and of every level from 3 to the
    threshold, is mapped to the level below; the levels 0, 1 and 2 come
    back as they are. *)
Theorem level_boundary_divergence :
  get_total_xp_for_level 3 = 65
  /\ (inject_Z (get_total_xp_for_level 3) < closed_form_requirement 3)%Q
  /\ calculate_level_from_xp (inject_Z (get_total_xp_for_level 3)) = 2
  /\ Forall (fun level =>
               calculate_level_from_xp
                 (inject_Z (get_total_xp_for_level level)) = level)
       [0; 1; 2]
  /\ Forall (fun level =>
               calculate_level_from_xp
                 (inject_Z (get_total_xp_for_level level)) = level - 1)
       (seqZ 3 48).
Proof.
  split_and!; try (vm_compute; reflexivity);
    apply (bool_decide_unpack _); vm_compute; exact I.
Qed.

(** ** The core transition [add_xp] *)

(** C1: after [add_xp] the stored level of the user is
    [calculate_level_from_xp] of the stored XP, also in the prestige branch;
    prestige increments exactly when the call reports a prestige, then XP
    and level are stored as 0, and otherwise the old XP plus the amount and
    its level are stored.  The other users are untouched, so the equation
    between level and XP holds for all users once it held before. *)
Theorem add_xp_level_invariant (today : string) (user_id : Z) (amount : Q)
  (st : BotState) :
  let r := add_xp today user_id amount st in
  let prestiged := snd (fst r) in
  let st' := snd r in
  let new_xp := (xp_of user_id st + amount)%Q in
  (exists xp, dict_get user_id (user_xp st') = Some xp
      /\ dict_get user_id (user_level st')
         = Some (calculate_level_from_xp xp))
  /\ (prestige_of user_id st' = prestige_of user_id st + 1
      <-> prestiged = true)
  /\ (prestiged = true ->
      dict_get user_id (user_xp st') = Some 0%Q
      /\ dict_get user_id (user_level st') = Some 0)
  /\ (prestiged = false ->
      prestige_of user_id st' = prestige_of user_id st
      /\ dict_get user_id (user_xp st') = Some new_xp
      /\ dict_get user_id (user_level st')
         = Some (calculate_level_from_xp new_xp))
  /\ ((forall u, level_of u st = calculate_level_from_xp (xp_of u st)) ->
      forall u, level_of u st' = calculate_level_from_xp (xp_of u st')).
Proof.
  intros r prestiged st' new_xp. subst r prestiged st' new_xp.
  destruct (add_xp_spec today user_id amount st) as (ach & ds & dh & E & _).
  rewrite E. clear E. unfold xp_of, level_of, prestige_of.
  destruct st; state_simpl.
  destruct (prestige_fires _ _); state_simpl.
  - rewrite !dict_get_set_eq, dict_get_or_set_eq.
    split_and!; try done.
    + eexists; split; [done|]. by rewrite calculate_level_from_xp_zero.
    + intros Hinv u. destruct (decide (user_id = u)) as [->|Hne].
      * by rewrite !dict_get_or_set_eq, calculate_level_from_xp_zero.
      * rewrite !dict_get_or_set_ne by done. apply Hinv.
  - rewrite !dict_get_set_eq.
    split_and!; try done; try eauto.
    + split; [lia | done].
    + intros Hinv u. destruct (decide (user_id = u)) as [->|Hne].
      * by rewrite !dict_get_or_set_eq.
      * rewrite !dict_get_or_set_ne by done. apply Hinv.
Qed.

Lemma add_xp_level_invariant_witness :
  let r := add_xp "2024-05-01" 1 (10 ^ 12)%Q initial_state in
  (dict_get 1 (user_xp (snd r)) = Some 0%Q
   /\ dict_get 1 (user_level (snd r)) = Some 0)
  /\ forall u, level_of u (snd r)
               = calculate_level_from_xp (xp_of u (snd r)).
Proof.
  intros r.
  destruct (add_xp_level_invariant "2024-05-01" 1 (10 ^ 12)%Q initial_state)
    as (_ & _ & Hreset & _ & Hall).
  split.
  - apply Hreset. vm_compute. reflexivity.
  - apply Hall. intros u. vm_compute. reflexivity.
Defined.

(** C4: one call of [add_xp] raises the prestige counter by at most one;
    when it does, XP and level are stored as 0 whatever the XP above the
    threshold was, and the call returns [(False, 0, True)]; and it does so
    for every amount that brings a user below the threshold to or beyond the
    XP of the threshold level. *)
Theorem add_xp_prestige_once (today : string) (user_id : Z) (amount : Q)
  (st : BotState) :
  let r := add_xp today user_id amount st in
  let st' := snd r in
  prestige_of user_id st <= prestige_of user_id st'
    <= prestige_of user_id st + 1
  /\ (prestige_of user_id st' = prestige_of user_id st + 1 ->
      fst r = (false, 0, true)
      /\ dict_get user_id (user_xp st') = Some 0%Q
      /\ dict_get user_id (user_level st') = Some 0)
  /\ (level_of user_id st < CONFIG.prestige_threshold ->
      (closed_form_requirement CONFIG.prestige_threshold
       <= xp_of user_id st + amount)%Q ->
      prestige_of user_id st' = prestige_of user_id st + 1).
Proof.
  intros r st'. subst r st'.
  destruct (add_xp_spec today user_id amount st) as (ach & ds & dh & E & _).
  rewrite E. clear E. unfold xp_of, level_of, prestige_of.
  destruct st; state_simpl.
  destruct (prestige_fires _ _) eqn:Hp; state_simpl.
  - rewrite !dict_get_set_eq, dict_get_or_set_eq, andb_false_r.
    split_and!; try done; lia.
  - split_and!; try lia.
    intros Hold Hxp. apply calculate_level_from_xp_threshold in Hxp.
    unfold prestige_fires in Hp. rewrite Hxp in Hp.
    apply andb_false_iff in Hp as [Hp|Hp]; [done|].
    apply Z.ltb_ge in Hp. lia.
Qed.

Lemma add_xp_prestige_once_witness :
  prestige_of 7 (snd (add_xp "2024-05-01" 7 (10 ^ 12)%Q initial_state)) = 1
  /\ fst (add_xp "2024-05-01" 7 (10 ^ 12)%Q initial_state) = (false, 0, true)
  /\ dict_get 7 (user_xp (snd (add_xp "2024-05-01" 7 (10 ^ 12)%Q
                                 initial_state))) = Some 0%Q.
Proof.
  destruct (add_xp_prestige_once "2024-05-01" 7 (10 ^ 12)%Q initial_state)
    as (_ & Hreset & Hfire).
  assert (Hp : prestige_of 7 (snd (add_xp "2024-05-01" 7 (10 ^ 12)%Q
                                     initial_state)) = 1).
  { apply Hfire; vm_compute; [reflexivity | discriminate]. }
  split; [exact Hp|]. destruct (Hreset Hp) as (Hr & Hx & _). by split.
Defined.

(** What [add_xp] leaves alone. *)
Lemma add_xp_other_fields today user_id amount st :
  let st' := snd (add_xp today user_id amount st) in
  events_message st' = events_message st
  /\ user_last_message st' = user_last_message st
  /\ user_daily_streak st' = user_daily_streak st
  /\ user_last_daily st' = user_last_daily st
  /\ voice_start_times st' = voice_start_times st
  /\ user_message_count st' = user_message_count st
  /\ user_voice_time st' = user_voice_time st
  /\ total_server_messages st' = total_server_messages st
  /\ locked_channels st' = locked_channels st.
Proof.
  intros st'. subst st'.
  destruct (add_xp_spec today user_id amount st) as (ach & ds & dh & E & _).
  rewrite E. destruct st. state_simpl. repeat split.
Qed.

(** Without a prestige, [add_xp] stores the sum; it stores 0 otherwise.  The
    XP of the other users stays. *)
Lemma add_xp_xp_of today user_id amount st u :
  xp_of u (snd (add_xp today user_id amount st))
  = if decide (user_id = u)
    then if snd (fst (add_xp today user_id amount st)) then 0%Q
         else (xp_of user_id st + amount)%Q
    else xp_of u st.
Proof.
  destruct (add_xp_spec today user_id amount st) as (ach & ds & dh & E & _).
  rewrite E. clear E. unfold xp_of. destruct st; state_simpl.
  destruct (decide (user_id = u)) as [->|Hne];
    destruct (prestige_fires _ _); state_simpl;
    by rewrite ?dict_get_or_set_eq, ?dict_get_or_set_ne by done.
Qed.

(** ** Leaderboard rank *)

Lemma insert_by_score_length x l :
  length (insert_by_score x l) = S (length l).
Proof.
  induction l as [|y l IH]; simpl; [done|].
  destruct (Qlt_le_dec _ _); simpl; by rewrite ?IH.
Qed.

Lemma insert_by_score_elem x y l :
  y ∈ insert_by_score x l <-> y = x \/ y ∈ l.
Proof.
  induction l as [|z l IH]; simpl.
  - rewrite list_elem_of_singleton, elem_of_nil. tauto.
  - destruct (Qlt_le_dec _ _); rewrite !elem_of_cons, ?IH; tauto.
Qed.

Lemma sorted_by_score_elem y l : y ∈ sorted_by_score l <-> y ∈ l.
Proof.
  induction l as [|x l IH]; simpl; [done|].
  by rewrite insert_by_score_elem, elem_of_cons, IH.
Qed.

(** Only users of the XP map are on the leaderboard. *)
Lemma get_sorted_leaderboard_users user_id score st :
  (user_id, score) ∈ get_sorted_leaderboard st ->
  user_id ∈ dict_keys (user_xp st).
Proof.
  unfold get_sorted_leaderboard. rewrite sorted_by_score_elem.
  rewrite list_elem_of_omap. intros (u & Hu & Hsome).
  destruct (Qlt_le_dec _ _); by simplify_eq.
Qed.

(** A user who is not on the board falls through the loop. *)
Lemma rank_in_absent user_id i leaderboard :
  (forall score, (user_id, score) ∉ leaderboard) ->
  rank_in user_id i leaderboard = i + Z.of_nat (length leaderboard).
Proof.
  revert i. induction leaderboard as [|[uid score] l IH]; intros i Habs;
    simpl; [lia|].
  destruct (decide (uid = user_id)) as [->|Hne].
  - exfalso. apply (Habs score). left.
  - rewrite IH; [lia|]. intros sc Hin. apply (Habs sc). by right.
Qed.

(** C3 fails as stated: after one message of user 1, user 2, who has no
    recorded XP, has rank 2. *)
Lemma rank_without_xp_counterexample :
  let st := on_message (clock_at 1000 "2024-05-01" "2024-04-30") no_bonus
              (guild_message 1) initial_state in
  dict_get 2 (user_xp st) = None /\ get_user_rank 2 st = 2.
Proof. vm_compute. by split. Qed.

(** C3, amended: a user with no entry in the XP map has the rank after the
    last entry of the leaderboard, the number of users with a positive
    score plus one; this is 1 exactly when the leaderboard is empty, as it
    is when the XP map is empty. *)
Theorem rank_without_xp_amended (user_id : Z) (st : BotState) :
  dict_get user_id (user_xp st) = None ->
  get_user_rank user_id st
  = Z.of_nat (length (get_sorted_leaderboard st)) + 1
  /\ (get_user_rank user_id st = 1 <-> get_sorted_leaderboard st = [])
  /\ (user_xp st = [] -> get_user_rank user_id st = 1).
Proof.
  intros Hnone.
  assert (Hrank : get_user_rank user_id st
                  = Z.of_nat (length (get_sorted_leaderboard st)) + 1).
  { unfold get_user_rank. destruct (user_xp st) eqn:Hxp.
    - unfold get_sorted_leaderboard. by rewrite Hxp.
    - rewrite <- Hxp in *. rewrite rank_in_absent; [lia|].
      intros score Hin%get_sorted_leaderboard_users.
      by apply dict_get_None in Hnone. }
  split_and!; [done| |].
  - rewrite Hrank. destruct (get_sorted_leaderboard st); simpl; [done|].
    split; [lia | done].
  - intros Hxp. unfold get_user_rank. by rewrite Hxp.
Qed.

Lemma rank_without_xp_amended_witness :
  let st := on_message (clock_at 1000 "2024-05-01" "2024-04-30") no_bonus
              (guild_message 1) initial_state in
  get_user_rank 2 st = Z.of_nat (length (get_sorted_leaderboard st)) + 1.
Proof.
  intros st. apply (rank_without_xp_amended 2 st). vm_compute. reflexivity.
Defined.

(** ** Messages inside the cooldown *)

Lemma award_achievement_achievements_of user_id a st :
  achievements_of user_id (award_achievement user_id a st)
  = {[a]} ∪ achievements_of user_id st.
Proof.
  unfold achievements_of, award_achievement. destruct st; state_simpl.
  destruct (dict_mem _ _) eqn:Hmem; state_simpl;
    rewrite !dict_get_or_set_eq; [done|].
  unfold dict_mem in Hmem. unfold dict_get_or.
  by destruct (dict_get _ _).
Qed.

Lemma on_message_not_reached clk rnd message st :
  reaches_xp_section message st = false -> on_message clk rnd message st = st.
Proof.
  unfold reaches_xp_section, on_message.
  destruct (author_is_bot_user message); [done|].
  destruct (bool_decide _ && negb _); [done|].
  destruct (channel_is_dm message && author_is_admin message); [done|].
  by destruct (in_guild message).
Qed.

(** Inside the cooldown, a message that reaches the XP section counts as a
    server message and may unlock the first-message achievement, and that is
    all. *)
Lemma on_message_in_cooldown clk rnd message st :
  reaches_xp_section message st = true ->
  (current_time clk
   - dict_get_or (author_id message) 0%Q (user_last_message st)
   < CONFIG.antispam_cooldown_sec)%Q ->
  on_message clk rnd message st
  = let st1 := set_total_server_messages (total_server_messages st + 1) st in
    if dict_mem (author_id message) (user_message_count st) then st1
    else award_achievement (author_id message) "first_message" st1.
Proof.
  unfold reaches_xp_section, on_message. intros Hreach Hcool.
  destruct (author_is_bot_user message); [done|].
  destruct (bool_decide _ && negb _); [done|].
  destruct (channel_is_dm message && author_is_admin message); [done|].
  destruct (in_guild message); [|done]. cbv zeta.
  assert (Hq : Qle_bool CONFIG.antispam_cooldown_sec
                 (current_time clk
                  - dict_get_or (author_id message) 0%Q
                      (user_last_message st))%Q = false).
  { apply not_true_is_false. rewrite Qle_bool_iff. lra. }
  rewrite Hq. destruct st; state_simpl. by destruct (dict_mem _ _).
Qed.




(** ** Daily bonus and streak *)

(** C6: [calculate_message_xp] for a user whose last daily date is not
    today applies the daily-bonus multiplier, sets the daily date to today
    and sets the streak to the old streak plus one when the last daily date
    was yesterday and to 1 otherwise; when the last daily date is today it
    changes nothing, so the streak stays, and no daily bonus is applied. *)
Theorem calculate_message_xp_daily_streak (clk : Clock) (rnd : Random)
  (user_id : Z) (st : BotState) :
  let last_daily := last_daily_of user_id st in
  let r := calculate_message_xp clk rnd user_id st in
  let st' := snd r in
  let streak_multiplier :=
    if CONFIG.streak_bonus_days <=? streak_of user_id st'
    then CONFIG.streak_bonus_multiplier else 1%Q in
  let bonus :=
    if Qlt_le_dec (random_random rnd) CONFIG.bonus_xp_chance
    then randint CONFIG.bonus_xp_min CONFIG.bonus_xp_max (random_seed rnd)
    else 0 in
  (last_daily <> today clk ->
   (fst r == CONFIG.base_message_xp
             * (CONFIG.daily_bonus_multiplier * streak_multiplier)
             + inject_Z bonus)%Q
   /\ streak_of user_id st'
      = (if decide (last_daily = yesterday clk)
         then streak_of user_id st + 1 else 1)
   /\ last_daily_of user_id st' = today clk)
  /\ (last_daily = today clk ->
      (fst r == CONFIG.base_message_xp * streak_multiplier
                + inject_Z bonus)%Q
      /\ st' = st
      /\ streak_of user_id st' = streak_of user_id st).
Proof.
  intros last_daily r st' streak_multiplier bonus.
  subst last_daily r st' streak_multiplier bonus.
  unfold calculate_message_xp, last_daily_of, streak_of. cbv zeta.
  split.
  - intros Hne. rewrite bool_decide_true by done.
    destruct (decide (_ = yesterday clk)) as [Hy|Hy];
      [rewrite (bool_decide_true _ Hy) | rewrite (bool_decide_false _ Hy)];
      destruct st; state_simpl; rewrite !dict_get_or_set_eq;
      (split_and!; [|done|done]);
      destruct (_ <=? _); reflexivity.
  - intros Heq. rewrite bool_decide_false by (by intros []).
    split_and!; [|done|done].
    destruct (_ <=? _); state_simpl; ring.
Qed.

Lemma calculate_message_xp_daily_streak_witness :
  let clk := clock_at 90000 "2024-05-02" "2024-05-01" in
  let st := on_message (clock_at 1000 "2024-05-01" "2024-04-30") no_bonus
              (guild_message 1) initial_state in
  streak_of 1 (snd (calculate_message_xp clk no_bonus 1 st)) = 2
  /\ last_daily_of 1 (snd (calculate_message_xp clk no_bonus 1 st))
     = "2024-05-02".
Proof.
  intros clk st.
  destruct (calculate_message_xp_daily_streak clk no_bonus 1 st)
    as [Hfirst _].
  destruct Hfirst as (_ & Hstreak & Hdate); [vm_compute; discriminate|].
  split; [|exact Hdate]. rewrite Hstreak. vm_compute. reflexivity.
Defined.

(** The scenario of the specification: messages on two consecutive days
    bring the streak to 2, and a message after a skipped day resets it
    to 1. *)
Example streak_scenario :
  let day1 := MessageEvent (clock_at 1000 "2024-05-01" "2024-04-30") no_bonus
                (guild_message 1) in
  let day2 := MessageEvent (clock_at 90000 "2024-05-02" "2024-05-01") no_bonus
                (guild_message 1) in
  let day4 := MessageEvent (clock_at 270000 "2024-05-04" "2024-05-03")
                no_bonus (guild_message 1) in
  streak_of 1 (run [day1] initial_state) = 1
  /\ streak_of 1 (run [day1; day2] initial_state) = 2
  /\ streak_of 1 (run [day1; day2; day4] initial_state) = 1.
Proof. vm_compute. by split_and!. Qed.

(** ** Daily rollover *)

Lemma update_daily_stats_date today user_id a st :
  ds_date (daily_stats (update_daily_stats today user_id a st)) = today.
Proof.
  unfold update_daily_stats, reset_daily_stats.
  destruct (bool_decide (ds_date (daily_stats st) ≠ today)) eqn:Hd.
  - destruct (_ && _); by destruct st.
  - apply bool_decide_eq_false in Hd. destruct st; state_simpl.
    by destruct (decide (ds_date daily_stats0 = today)).
Qed.

(** On the day the statistics carry already, [update_daily_stats] only
    adds. *)
Lemma update_daily_stats_same_day today user_id a st :
  ds_date (daily_stats st) = today ->
  update_daily_stats today user_id a st
  = let ds := daily_stats st in
    set_daily_stats
      {| ds_date := ds_date ds;
         ds_messages := ds_messages ds + sd_messages a;
         ds_xp_gained := (ds_xp_gained ds + sd_xp a)%Q;
       ds_voice_time := (ds_voice_time ds + sd_voice_time a)%Q;
         ds_active_users :=
           match truthy_user user_id with
           | Some u => {[u]} ∪ ds_active_users ds
           | None => ds_active_users ds
           end;
         ds_level_ups :=
           if sd_level_up a then ds_level_ups ds + 1 else ds_level_ups ds;
         ds_prestiges :=
           if sd_prestige a then ds_prestiges ds + 1 else ds_prestiges ds;
         ds_new_members :=
           if sd_new_member a then ds_new_members ds + 1
           else ds_new_members ds |} st.
Proof.
  intros Hd. unfold update_daily_stats.
  by rewrite bool_decide_false by (by intros []).
Qed.

(** The first check of a day writes at most the entry of the stored
    date. *)
Lemma update_daily_stats_history today user_id a st d :
  d <> ds_date (daily_stats st) ->
  dict_get d (daily_history (update_daily_stats today user_id a st))
  = dict_get d (daily_history st).
Proof.
  intros Hd. unfold update_daily_stats, reset_daily_stats.
  destruct (bool_decide (ds_date (daily_stats st) ≠ today)).
  - destruct (_ && _); destruct st; state_simpl; [|done].
    by rewrite dict_get_set_ne.
  - by destruct st.
Qed.

(** [reset_daily_stats] itself compares the dates only for the history
    entry: the date test that keeps the counters of the current day is the
    one of [update_daily_stats], its caller. *)
Remark reset_daily_stats_zeroes today st :
  daily_stats (reset_daily_stats today st) = empty_daily_stats today.
Proof. unfold reset_daily_stats. destruct (_ && _); by destruct st. Qed.

(** C7 fails as stated.  The rollover writes the history entry of the
    stored date by a plain assignment, so an entry frozen earlier under that
    date is replaced: below, after the clock stepped back a day, two checks
    on 2 May take the entry of 1 May from one message to none.  And
    [reset_daily_stats] has no date test for the counters: called again on
    the date the statistics carry, as [load_data] without a file calls it,
    it zeroes the counters of the day and freezes nothing. *)
Lemma daily_rollover_counterexample :
  let day1 := clock_at 1000 "2024-05-01" "2024-04-30" in
  let day2 := clock_at 90000 "2024-05-02" "2024-05-01" in
  let st := run [MessageEvent day1 no_bonus (guild_message 1);
                 MemberJoinEvent day2; MemberJoinEvent day1] initial_state in
  let s2 := update_daily_stats "2024-05-02" None no_delta
              (update_daily_stats "2024-05-02" None no_delta st) in
  let r1 := reset_daily_stats "2024-05-01" initial_state in
  let r2 := on_member_join day1 r1 in
  let r3 := reset_daily_stats "2024-05-01" r2 in
  (dh_messages <$> dict_get "2024-05-01" (daily_history st) = Some 1
   /\ dh_messages <$> dict_get "2024-05-01" (daily_history s2) = Some 0)
  /\ (ds_new_members (daily_stats r2) = 1
      /\ ds_new_members (daily_stats r3) = 0
      /\ daily_history r3 = []
      /\ load_data "2024-05-01" None r2 = r3).
Proof. vm_compute. by split_and!. Qed.

(** C7, amended: two runs of [update_daily_stats] on one date.  The first
    one, when the stored date is another date and not empty, assigns the
    frozen statistics to the history entry of the stored date, whether or
    not there is one already, and changes no other entry; the second one
    writes nothing to the history and adds its arguments to the counters of
    the first: the integer counters grow by exactly the arguments, and no
    counter goes down.  [reset_daily_stats] itself zeroes the counters whenever
    it is called, so that it gives the same run twice in a row as run
    once. *)
Theorem daily_rollover_amended (today : string) (user1 user2 : option Z)
  (a1 a2 : StatsDelta) (st : BotState) :
  let old := daily_stats st in
  let frozen :=
    {| dh_messages := ds_messages old; dh_xp_gained := ds_xp_gained old;
       dh_voice_time := ds_voice_time old;
       dh_active_users := Z.of_nat (size (ds_active_users old));
       dh_level_ups := ds_level_ups old; dh_prestiges := ds_prestiges old;
       dh_new_members := ds_new_members old |} in
  let s1 := update_daily_stats today user1 a1 st in
  let s2 := update_daily_stats today user2 a2 s1 in
  ds_date (daily_stats s1) = today
  /\ ds_date (daily_stats s2) = today
  /\ daily_history s1
     = (if bool_decide (ds_date old <> today)
           && bool_decide (ds_date old <> "")
        then dict_set (ds_date old) frozen (daily_history st)
        else daily_history st)
  /\ (forall d, d <> ds_date old ->
      dict_get d (daily_history s1) = dict_get d (daily_history st))
  /\ (dict_wf (daily_history st) -> dict_wf (daily_history s1))
  /\ daily_history s2 = daily_history s1
  /\ (ds_messages (daily_stats s2)
      = ds_messages (daily_stats s1) + sd_messages a2
      /\ ((0 <= sd_xp a2)%Q ->
          (ds_xp_gained (daily_stats s1) <= ds_xp_gained (daily_stats s2))%Q)
      /\ ((0 <= sd_voice_time a2)%Q ->
          (ds_voice_time (daily_stats s1)
           <= ds_voice_time (daily_stats s2))%Q)
      /\ ds_active_users (daily_stats s1) ⊆ ds_active_users (daily_stats s2)
      /\ ds_level_ups (daily_stats s2)
         = ds_level_ups (daily_stats s1) + (if sd_level_up a2 then 1 else 0)
      /\ ds_prestiges (daily_stats s2)
         = ds_prestiges (daily_stats s1) + (if sd_prestige a2 then 1 else 0)
      /\ ds_new_members (daily_stats s2)
         = ds_new_members (daily_stats s1)
           + (if sd_new_member a2 then 1 else 0))
  /\ daily_stats (reset_daily_stats today st) = empty_daily_stats today
  /\ reset_daily_stats today (reset_daily_stats today st)
     = reset_daily_stats today st.
Proof.
  intros old frozen s1 s2.
  assert (Hd1 : ds_date (daily_stats s1) = today)
    by apply update_daily_stats_date.
  assert (Hh1 : daily_history s1
                = (if bool_decide (ds_date old <> today)
                      && bool_decide (ds_date old <> "")
                   then dict_set (ds_date old) frozen (daily_history st)
                   else daily_history st)).
  { subst s1 frozen old. unfold update_daily_stats, reset_daily_stats.
    destruct (bool_decide (ds_date (daily_stats st) <> today));
      [|by destruct st].
    rewrite andb_true_r, andb_true_l.
    destruct (bool_decide (ds_date (daily_stats st) <> "")); by destruct st. }
  split_and!; try done.
  - apply update_daily_stats_date.
  - intros d Hd. by apply update_daily_stats_history.
  - rewrite Hh1. destruct (_ && _); [apply dict_wf_set | done].
  - subst s2. rewrite update_daily_stats_same_day by done.
    by destruct s1.
  - subst s2. rewrite update_daily_stats_same_day by done.
    by destruct s1.
  - intros Hxp. subst s2. rewrite update_daily_stats_same_day by done.
    destruct s1; state_simpl. simpl. lra.
  - intros Hvoice. subst s2. rewrite update_daily_stats_same_day by done.
    destruct s1; state_simpl. simpl. lra.
  - subst s2. rewrite update_daily_stats_same_day by done.
    destruct s1; state_simpl. destruct (truthy_user user2); set_solver.
  - subst s2. rewrite update_daily_stats_same_day by done.
    destruct s1; state_simpl. destruct (sd_level_up a2); simpl; lia.
  - subst s2. rewrite update_daily_stats_same_day by done.
    destruct s1; state_simpl. destruct (sd_prestige a2); simpl; lia.
  - subst s2. rewrite update_daily_stats_same_day by done.
    destruct s1; state_simpl. destruct (sd_new_member a2); simpl; lia.
  - apply reset_daily_stats_zeroes.
  - clear Hh1 Hd1. clear s2 s1 frozen old.
    unfold reset_daily_stats at 1.
    assert (Hr : ds_date (daily_stats (reset_daily_stats today st)) = today).
    { unfold reset_daily_stats. destruct (_ && _); by destruct st. }
    rewrite Hr.
    rewrite (bool_decide_false (today ≠ today)) by (by intros []).
    rewrite andb_false_r.
    unfold reset_daily_stats. destruct (_ && _); by destruct st.
Qed.

(** A day of activity, the rollover at the first event of the next day, and
    a second check on that day. *)
Example rollover_scenario :
  let day1 := MessageEvent (clock_at 1000 "2024-05-01" "2024-04-30") no_bonus
                (guild_message 1) in
  let join2 := MemberJoinEvent (clock_at 90000 "2024-05-02" "2024-05-01") in
  let s1 := run [day1; join2] initial_state in
  let s2 := run [day1; join2; join2] initial_state in
  dict_keys (daily_history s1) = ["2024-05-01"]
  /\ daily_history s2 = daily_history s1
  /\ ds_new_members (daily_stats s1) = 1
  /\ ds_new_members (daily_stats s2) = 2.
Proof. vm_compute. by split_and!. Qed.

(** ** Snapshot round trip *)

(** On the output of [str], [int] finds nothing to skip. *)
Lemma lstrip_blanks_digits d :
  lstrip_blanks (NilEmpty.string_of_uint d) = NilEmpty.string_of_uint d.
Proof. by destruct d. Qed.

Lemma rstrip_blanks_digits d :
  rstrip_blanks (NilEmpty.string_of_uint d) = NilEmpty.string_of_uint d.
Proof. induction d; simpl; [done|..]; rewrite IHd; by destruct d. Qed.

Lemma strip_underscores_digits d :
  strip_underscores true (NilEmpty.string_of_uint d)
  = Some (NilEmpty.string_of_uint d).
Proof. induction d; simpl; [done|..]; by rewrite IHd. Qed.

Lemma py_int_digits (negative : bool) d :
  d <> Decimal.Nil ->
  py_int ((if negative then String "-"%char else id)
            (NilEmpty.string_of_uint d))
  = Some (Z.of_int (if negative then Decimal.Neg d else Decimal.Pos d)).
Proof.
  intros Hd. pose proof (NilZero.usu d Hd) as Hparse.
  assert (Hs : NilZero.string_of_uint d = NilEmpty.string_of_uint d)
    by (by destruct d).
  rewrite Hs in Hparse. clear Hs.
  pose proof (strip_underscores_digits d) as Hu.
  pose proof (rstrip_blanks_digits d) as Hr.
  unfold py_int. destruct negative; unfold id.
  - change (lstrip_blanks (String "-" (NilEmpty.string_of_uint d)))
      with (String "-"%char (NilEmpty.string_of_uint d)).
    assert (Hr' : rstrip_blanks (String "-" (NilEmpty.string_of_uint d))
                  = String "-"%char (NilEmpty.string_of_uint d)).
    { simpl. rewrite Hr. destruct d; [done|..]; reflexivity. }
    rewrite Hr'.
    assert (Hu' : strip_underscores false (NilEmpty.string_of_uint d)
                  = Some (NilEmpty.string_of_uint d)).
    { destruct d; [done|..]; simpl in *; by rewrite strip_underscores_digits. }
    rewrite Hu'. simpl. by rewrite Hparse.
  - rewrite lstrip_blanks_digits, Hr.
    assert (Hu' : strip_underscores false (NilEmpty.string_of_uint d)
                  = Some (NilEmpty.string_of_uint d)).
    { destruct d; [done|..]; simpl in *; by rewrite strip_underscores_digits. }
    destruct d; [done|..]; simpl in Hu' |- *;
      rewrite strip_underscores_digits in *; simpl; simpl in Hparse;
      by rewrite Hparse.
Qed.

Lemma py_int_py_str k : py_int (py_str k) = Some k.
Proof.
  rewrite <- (DecimalZ.of_to k) at 2. unfold py_str.
  destruct k as [|p|p]; [reflexivity|..]; simpl Z.to_int;
    unfold NilZero.string_of_int.
  - assert (Hd : Pos.to_uint p <> Decimal.Nil)
      by apply DecimalPos.Unsigned.to_uint_nonnil.
    replace (NilZero.string_of_uint (Pos.to_uint p))
      with (NilEmpty.string_of_uint (Pos.to_uint p))
      by (by destruct (Pos.to_uint p)).
    apply (py_int_digits false _ Hd).
  - assert (Hd : Pos.to_uint p <> Decimal.Nil)
      by apply DecimalPos.Unsigned.to_uint_nonnil.
    replace (NilZero.string_of_uint (Pos.to_uint p))
      with (NilEmpty.string_of_uint (Pos.to_uint p))
      by (by destruct (Pos.to_uint p)).
    apply (py_int_digits true _ Hd).
Qed.

Lemma py_str_inj k1 k2 : py_str k1 = py_str k2 -> k1 = k2.
Proof.
  intros Heq. apply (f_equal py_int) in Heq.
  rewrite !py_int_py_str in Heq. by injection Heq.
Qed.

Lemma py_str_keys_NoDup (l : list Z) : NoDup l -> NoDup (map py_str l).
Proof.
  induction 1 as [|k l Hk Hl IH]; simpl; constructor; [|done].
  rewrite list_elem_of_In, in_map_iff. intros (k' & Heq & Hin).
  apply py_str_inj in Heq. subst. by apply Hk, list_elem_of_In.
Qed.

Lemma dump_keys_wf {V W} (f : V -> W) (d : dict Z V) :
  dict_wf d ->
  dump_keys f d = map (fun kv => (py_str (fst kv), f (snd kv))) d.
Proof.
  intros Hwf. unfold dump_keys. apply dict_of_items_wf.
  rewrite map_map. simpl. rewrite <- (map_map fst py_str).
  by apply py_str_keys_NoDup.
Qed.

(** Loading what was dumped gives the dictionary back, with the values sent
    through both conversions. *)
Lemma load_keys_dump_keys {V W} (f : V -> W) (g : W -> V) (d : dict Z V) :
  dict_wf d -> (forall v, g (f v) = v) ->
  load_keys g (dump_keys f d) = Some d.
Proof.
  intros Hwf Hgf. rewrite dump_keys_wf by done. unfold load_keys.
  assert (Hm : mapM (fun kv : string * W =>
                       k ← py_int (fst kv); Some (k, g (snd kv)))
                 (map (fun kv : Z * V => (py_str (fst kv), f (snd kv))) d)
               = Some d).
  { clear Hwf. induction d as [|[k v] d IH]; [done|].
    cbn. cbn in IH. rewrite py_int_py_str. cbn. rewrite IH. cbn.
    by rewrite Hgf. }
  rewrite Hm. cbn. f_equal. by apply dict_of_items_wf.
Qed.

(** C8: [save_data] followed by [load_data] of the written document, into
    any state, gives back every saved attribute of a state whose
    dictionaries have unique keys: XP, level, prestige, streak, daily date,
    message count, voice time and achievement set of every user, the events
    text, the message counter, the daily statistics and the daily history;
    the lists that encode the sets hold no element twice. *)
Theorem save_load_roundtrip (today : string) (st st0 : BotState) :
  wf_state st ->
  let data := save_data st in
  let st' := load_data today (Some data) st0 in
  (user_xp st' = user_xp st
   /\ user_level st' = user_level st
   /\ user_prestige st' = user_prestige st
   /\ user_daily_streak st' = user_daily_streak st
   /\ user_last_daily st' = user_last_daily st
   /\ user_message_count st' = user_message_count st
   /\ user_voice_time st' = user_voice_time st
   /\ user_achievements st' = user_achievements st
   /\ events_message st' = events_message st
   /\ total_server_messages st' = total_server_messages st
   /\ daily_stats st' = daily_stats st
   /\ daily_history st' = daily_history st)
  /\ (forall js, snap_daily_stats data = Some js ->
      NoDup (js_active_users js))
  /\ (forall achs k l, snap_user_achievements data = Some achs ->
      dict_get k achs = Some l -> NoDup l).
Proof.
  intros (Hxp & Hlv & Hpr & Hsk & Hld & Hmc & Hvt & Hac) data st'.
  subst data st'. split_and!.
  13: { intros js [= <-]. simpl. apply NoDup_elements. }
  13: { intros achs k l [= <-]. rewrite dump_keys_wf by done.
        clear Hac. induction (user_achievements st) as [|[k' v'] d IH];
          simpl; [done|].
        destruct (decide _); [intros [= <-]; apply NoDup_elements | done]. }
  all: unfold load_data, save_data; cbn [snap_user_xp snap_user_level
         snap_user_prestige snap_user_daily_streak snap_user_last_daily
         snap_user_message_count snap_user_voice_time snap_user_achievements
         snap_events_message snap_total_server_messages snap_daily_stats
         snap_daily_history];
       rewrite !(load_keys_dump_keys id id) by done;
       rewrite (load_keys_dump_keys (fun v : gset string => elements v)
                  (fun l : list string => list_to_set l : gset string))
         by (done || intros v; apply list_to_set_elements_L);
       unfold assign_or_stop; destruct st0; state_simpl; try done.
  destruct (daily_stats st) as [d m x v a lu p nm]; simpl.
  by rewrite list_to_set_elements_L.
Qed.

(** ** What the event handlers do to the progress of the users *)

Lemma randint_range a b seed : a <= b -> a <= randint a b seed <= b.
Proof.
  intros Hab. unfold randint.
  pose proof (Z.mod_pos_bound seed (b - a + 1)). lia.
Qed.

Lemma calculate_message_xp_frame clk rnd user_id st :
  exists ld sk,
    snd (calculate_message_xp clk rnd user_id st)
    = set_user_daily_streak sk (set_user_last_daily ld st)
    /\ (dict_wf (user_last_daily st) -> dict_wf ld)
    /\ (dict_wf (user_daily_streak st) -> dict_wf sk).
Proof.
  unfold calculate_message_xp. cbv zeta.
  destruct (bool_decide (_ ≠ today clk)).
  - destruct (bool_decide (_ = yesterday clk)); destruct st; state_simpl;
      do 2 eexists; (split_and!; [reflexivity|..]); auto using dict_wf_set.
  - destruct st; state_simpl. do 2 eexists.
    split_and!; [reflexivity|..]; auto.
Qed.

(** A message is worth at least the base XP. *)
Lemma calculate_message_xp_amount clk rnd user_id st :
  (CONFIG.base_message_xp <= fst (calculate_message_xp clk rnd user_id st))%Q.
Proof.
  unfold calculate_message_xp. cbv zeta.
  assert (Hb : (0 <= inject_Z
                  (if Qlt_le_dec (random_random rnd) CONFIG.bonus_xp_chance
                   then randint CONFIG.bonus_xp_min CONFIG.bonus_xp_max
                          (random_seed rnd)
                   else 0))%Q).
  { change 0%Q with (inject_Z 0). rewrite <- Zle_Qle.
    destruct (Qlt_le_dec _ _); [|done].
    pose proof (randint_range CONFIG.bonus_xp_min CONFIG.bonus_xp_max
                  (random_seed rnd)) as Hr.
    unfold CONFIG.bonus_xp_min, CONFIG.bonus_xp_max in *. lia. }
  revert Hb. generalize (inject_Z
    (if Qlt_le_dec (random_random rnd) CONFIG.bonus_xp_chance
     then randint CONFIG.bonus_xp_min CONFIG.bonus_xp_max (random_seed rnd)
     else 0)). intros bonus Hb.
  unfold CONFIG.base_message_xp, CONFIG.daily_bonus_multiplier,
    CONFIG.streak_bonus_multiplier.
  destruct (bool_decide (_ ≠ today clk));
    [destruct (bool_decide (_ = yesterday clk))|];
    state_simpl; destruct (_ <=? _); state_simpl; lra.
Qed.

(** [on_message] either touches only the message counter and the
    achievements, or awards at least the base XP through [add_xp] to a
    state with the same XP, levels, prestige and voice times. *)
Lemma on_message_effect clk rnd message st :
  (exists ach n,
     on_message clk rnd message st
     = set_user_achievements ach (set_total_server_messages n st)
     /\ (dict_wf (user_achievements st) -> dict_wf ach))
  \/ (exists st0 amount mc lm ds dh ach,
        (CONFIG.base_message_xp <= amount)%Q
        /\ user_xp st0 = user_xp st /\ user_level st0 = user_level st
        /\ user_prestige st0 = user_prestige st
        /\ user_voice_time st0 = user_voice_time st
        /\ (wf_state st -> wf_state st0)
        /\ on_message clk rnd message st
           = set_user_achievements ach (set_daily_history dh
               (set_daily_stats ds (set_user_last_message lm
                  (set_user_message_count mc
                     (snd (add_xp (today clk) (author_id message) amount
                             st0))))))
        /\ (dict_wf (user_message_count
                       (snd (add_xp (today clk) (author_id message) amount
                               st0))) -> dict_wf mc)
        /\ (dict_wf (user_achievements
                       (snd (add_xp (today clk) (author_id message) amount
                               st0))) -> dict_wf ach)).
Proof.
  assert (Hid : exists ach n,
            st = set_user_achievements ach (set_total_server_messages n st)
            /\ (dict_wf (user_achievements st) -> dict_wf ach)).
  { exists (user_achievements st), (total_server_messages st).
    by destruct st. }
  unfold on_message.
  destruct (author_is_bot_user message); [by left|].
  destruct (bool_decide _ && negb _); [by left|].
  destruct (channel_is_dm message && author_is_admin message); [by left|].
  destruct (in_guild message); [|by left]. clear Hid. cbv zeta.
  set (user_id := author_id message).
  set (st1 := set_total_server_messages (total_server_messages st + 1) st).
  assert (Hst2 : exists ach2,
            (if dict_mem user_id (user_message_count st1) then st1
             else award_achievement user_id "first_message" st1)
            = set_user_achievements ach2 st1
            /\ (dict_wf (user_achievements st) -> dict_wf ach2)).
  { destruct (dict_mem _ _).
    - exists (user_achievements st). subst st1. by destruct st.
    - destruct (award_achievement_frame user_id "first_message" st1)
        as (ach & E & W). exists ach. split; [done|].
      intros Hwf. apply W. subst st1. by destruct st. }
  destruct Hst2 as (ach2 & -> & Hach2).
  destruct (Qle_bool _ _).
  2: { left. exists ach2, (total_server_messages st + 1). by subst st1. }
  right. set (st2 := set_user_achievements ach2 st1).
  pose proof (calculate_message_xp_amount clk rnd user_id st2) as Hamount.
  destruct (calculate_message_xp_frame clk rnd user_id st2)
    as (ld & sk & Hst3 & Hld & Hsk).
  destruct (calculate_message_xp clk rnd user_id st2) as [xp_gained st3].
  cbn [fst snd] in Hamount, Hst3. subst st3.
  set (st3 := set_user_daily_streak sk (set_user_last_daily ld st2)) in *.
  exists st3, xp_gained.
  destruct (add_xp (today clk) user_id xp_gained st3) as [r st4].
  cbn [snd].
  assert (Htail : forall s : BotState, exists ach,
            (if get_user_rank user_id s <=? 3
             then if bool_decide ("top_3" ∉ dict_get_or user_id ∅
                                               (user_achievements s))
                  then award_achievement user_id "top_3" s else s
             else s) = set_user_achievements ach s
            /\ (dict_wf (user_achievements s) -> dict_wf ach)).
  { intros s. destruct (_ <=? 3); [destruct (bool_decide _)|].
    - apply award_achievement_frame.
    - exists (user_achievements s). by destruct s.
    - exists (user_achievements s). by destruct s. }
  match goal with
  | |- context [get_user_rank user_id ?s] =>
      destruct (Htail s) as (ach & -> & Hach)
  end.
  destruct (update_daily_stats_frame (today clk) (Some user_id)
              {| sd_messages := 1; sd_xp := xp_gained; sd_voice_time := 0;
                 sd_level_up := false; sd_prestige := false;
                 sd_new_member := false |}
              (set_user_last_message
                 (dict_set user_id (current_time clk)
                    (user_last_message
                       (set_user_message_count
                          (dict_set user_id
                             (dict_get_or user_id 0 (user_message_count st4)
                              + 1) (user_message_count st4)) st4)))
                 (set_user_message_count
                    (dict_set user_id
                       (dict_get_or user_id 0 (user_message_count st4) + 1)
                       (user_message_count st4)) st4)))
    as (ds & dh & E).
  rewrite E in *. clear E.
  eexists _, _, ds, dh, ach.
  split_and!; [done|..].
  - subst st3 st2 st1. by destruct st.
  - subst st3 st2 st1. by destruct st.
  - subst st3 st2 st1. by destruct st.
  - subst st3 st2 st1. by destruct st.
  - subst st3 st2 st1. unfold wf_state. destruct st; state_simpl. tauto.
  - by destruct st4.
  - intros Hwf. apply dict_wf_set, Hwf.
  - intros Hwf. apply Hach. by destruct st4.
Qed.

(** [on_voice_state_update] either touches only the open voice sessions, or
    closes a session of at least one minute: it awards the voice XP of the
    duration through [add_xp] and adds the duration to the voice time. *)
Lemma on_voice_state_update_effect clk user_id before after st :
  (exists vs, on_voice_state_update clk user_id before after st
              = set_voice_start_times vs st)
  \/ (exists vs duration ds dh,
        (1 <= duration)%Q
        /\ let st1 := snd (add_xp (today clk) user_id
                             (duration * CONFIG.voice_xp_per_minute)%Q
                             (set_voice_start_times vs st)) in
           on_voice_state_update clk user_id before after st
           = set_daily_history dh (set_daily_stats ds
               (set_user_voice_time
                  (dict_set user_id
                     (dict_get_or user_id 0 (user_voice_time st1)
                      + duration)%Q (user_voice_time st1)) st1))).
Proof.
  assert (Hid : exists vs, st = set_voice_start_times vs st)
    by (exists (voice_start_times st); by destruct st).
  unfold on_voice_state_update. cbv zeta.
  destruct before as [b|], after as [a|]; try (by left); [|left; eauto].
  destruct (dict_get user_id (voice_start_times st)) as [start_time|];
    [|by left].
  destruct (Qle_bool 1 _) eqn:Hd; [|left; eauto].
  right. apply Qle_bool_iff in Hd.
  set (vs := dict_remove user_id (voice_start_times st)).
  set (duration := ((current_time clk - start_time) / 60)%Q) in *.
  exists vs, duration.
  destruct (add_xp (today clk) user_id
              (duration * CONFIG.voice_xp_per_minute)%Q
              (set_voice_start_times vs st)) as [r st1].
  cbn [snd].
  match goal with
  | |- context [update_daily_stats ?t ?u ?d ?s] =>
      destruct (update_daily_stats_frame t u d s) as (ds & dh & ->)
  end.
  exists ds, dh. split; [done|]. by destruct st1.
Qed.

Lemma add_xp_wf today user_id amount st :
  wf_state st -> wf_state (snd (add_xp today user_id amount st)).
Proof.
  destruct (add_xp_spec today user_id amount st) as (ach & ds & dh & E & W).
  rewrite E. clear E. unfold wf_state. destruct st; state_simpl.
  intros (Hxp & Hlv & Hpr & Hsk & Hld & Hmc & Hvt & Hac).
  destruct (prestige_fires _ _); split_and!; auto using dict_wf_set.
Qed.

Lemma add_xp_nonneg today user_id amount st :
  (0 <= amount)%Q -> nonneg_state st ->
  nonneg_state (snd (add_xp today user_id amount st)).
Proof.
  intros Hamount Hst u. split.
  - pose proof (add_xp_xp_of today user_id amount st u) as Hxp.
    unfold xp_of in Hxp. rewrite Hxp.
    destruct (decide (user_id = u)); [|apply Hst].
    destruct (snd (fst _)); [done|].
    destruct (Hst user_id) as [H0 _]. lra.
  - destruct (add_xp_other_fields today user_id amount st)
      as (_ & _ & _ & _ & _ & _ & -> & _).
    apply Hst.
Qed.

Lemma add_xp_level_consistent today user_id amount st :
  level_consistent st ->
  level_consistent (snd (add_xp today user_id amount st)).
Proof.
  intros Hst.
  destruct (add_xp_spec today user_id amount st) as (ach & ds & dh & E & _).
  rewrite E. clear E. revert Hst. unfold level_consistent.
  destruct st; state_simpl. intros Hst u.
  destruct (decide (user_id = u)) as [->|Hne];
    destruct (prestige_fires _ _); state_simpl;
    rewrite ?dict_get_or_set_eq, ?dict_get_or_set_ne by done;
    auto using calculate_level_from_xp_zero.
Qed.

Lemma handle_wf ev st : wf_state st -> wf_state (handle ev st).
Proof.
  intros Hwf. destruct ev as [clk rnd message|clk user_id before after|clk];
    simpl.
  - destruct (on_message_effect clk rnd message st)
      as [(ach & n & -> & Hach)
         |(st0 & amount & mc & lm & ds & dh & ach & _ & _ & _ & _ & _ & Hwf0
           & -> & Hmc & Hach)].
    + revert Hwf Hach. unfold wf_state. destruct st; state_simpl. tauto.
    + specialize (Hwf0 Hwf).
      apply (add_xp_wf (today clk) (author_id message) amount) in Hwf0.
      revert Hwf0 Hmc Hach. unfold wf_state.
      destruct (snd (add_xp _ _ _ _)); state_simpl. tauto.
  - destruct (on_voice_state_update_effect clk user_id before after st)
      as [(vs & ->)|(vs & duration & ds & dh & _ & ->)].
    + revert Hwf. unfold wf_state. by destruct st.
    + assert (Hwf0 : wf_state (set_voice_start_times vs st))
        by (revert Hwf; unfold wf_state; by destruct st).
      apply (add_xp_wf (today clk) user_id
               (duration * CONFIG.voice_xp_per_minute)%Q) in Hwf0.
      revert Hwf0. unfold wf_state.
      destruct (snd (add_xp _ _ _ _)); state_simpl.
      intros (Hxp & Hlv & Hpr & Hsk & Hld & Hmc & Hvt & Hac).
      split_and!; auto using dict_wf_set.
  - unfold on_member_join.
    match goal with
    | |- context [update_daily_stats ?t ?u ?d ?s] =>
        destruct (update_daily_stats_frame t u d s) as (ds & dh & ->)
    end.
    revert Hwf. unfold wf_state. by destruct st.
Qed.

Lemma handle_nonneg ev st : nonneg_state st -> nonneg_state (handle ev st).
Proof.
  intros Hst. destruct ev as [clk rnd message|clk user_id before after|clk];
    simpl.
  - destruct (on_message_effect clk rnd message st)
      as [(ach & n & -> & _)
         |(st0 & amount & mc & lm & ds & dh & ach & Hamount & Hxp & _ & _
           & Hvt & _ & -> & _)].
    + revert Hst. unfold nonneg_state. by destruct st.
    + assert (H0 : nonneg_state st0).
      { intros u. rewrite Hxp, Hvt. apply Hst. }
      apply (add_xp_nonneg (today clk) (author_id message) amount) in H0;
        [|unfold CONFIG.base_message_xp in Hamount; lra].
      revert H0. unfold nonneg_state.
      by destruct (snd (add_xp _ _ _ _)).
  - destruct (on_voice_state_update_effect clk user_id before after st)
      as [(vs & ->)|(vs & duration & ds & dh & Hd & ->)].
    + revert Hst. unfold nonneg_state. by destruct st.
    + assert (H0 : nonneg_state (set_voice_start_times vs st))
        by (revert Hst; unfold nonneg_state; by destruct st).
      apply (add_xp_nonneg (today clk) user_id
               (duration * CONFIG.voice_xp_per_minute)%Q) in H0;
        [|unfold CONFIG.voice_xp_per_minute; lra].
      revert H0. unfold nonneg_state.
      destruct (snd (add_xp _ _ _ _)); state_simpl.
      intros H0 u. split; [apply H0|].
      destruct (decide (user_id = u)) as [->|Hne].
      * rewrite dict_get_or_set_eq. destruct (H0 u) as [_ Hv]. lra.
      * rewrite dict_get_or_set_ne by done. apply H0.
  - unfold on_member_join.
    match goal with
    | |- context [update_daily_stats ?t ?u ?d ?s] =>
        destruct (update_daily_stats_frame t u d s) as (ds & dh & ->)
    end.
    revert Hst. unfold nonneg_state. by destruct st.
Qed.

Lemma handle_level_consistent ev st :
  level_consistent st -> level_consistent (handle ev st).
Proof.
  intros Hst. destruct ev as [clk rnd message|clk user_id before after|clk];
    simpl.
  - destruct (on_message_effect clk rnd message st)
      as [(ach & n & -> & _)
         |(st0 & amount & mc & lm & ds & dh & ach & _ & Hxp & Hlv & _
           & _ & _ & -> & _)].
    + revert Hst. unfold level_consistent. by destruct st.
    + assert (H0 : level_consistent st0).
      { intros u. rewrite Hxp, Hlv. apply Hst. }
      apply (add_xp_level_consistent (today clk) (author_id message) amount)
        in H0.
      revert H0. unfold level_consistent.
      by destruct (snd (add_xp _ _ _ _)).
  - destruct (on_voice_state_update_effect clk user_id before after st)
      as [(vs & ->)|(vs & duration & ds & dh & _ & ->)].
    + revert Hst. unfold level_consistent. by destruct st.
    + assert (H0 : level_consistent (set_voice_start_times vs st))
        by (revert Hst; unfold level_consistent; by destruct st).
      apply (add_xp_level_consistent (today clk) user_id
               (duration * CONFIG.voice_xp_per_minute)%Q) in H0.
      revert H0. unfold level_consistent.
      by destruct (snd (add_xp _ _ _ _)).
  - unfold on_member_join.
    match goal with
    | |- context [update_daily_stats ?t ?u ?d ?s] =>
        destruct (update_daily_stats_frame t u d s) as (ds & dh & ->)
    end.
    revert Hst. unfold level_consistent. by destruct st.
Qed.

(** An invariant of the handlers holds along every sequence of events. *)
Lemma run_invariant (P : BotState -> Prop) :
  (forall ev st, P st -> P (handle ev st)) ->
  forall evs st, P st -> P (run evs st).
Proof.
  intros Hstep evs. unfold run.
  induction evs as [|ev evs IH]; intros st Hst; simpl; [done|].
  apply IH, Hstep, Hst.
Qed.

Lemma initial_state_wf : wf_state initial_state.
Proof. unfold wf_state, dict_wf. simpl. split_and!; constructor. Qed.

Lemma initial_state_nonneg : nonneg_state initial_state.
Proof. intros u. split; discriminate. Qed.

Lemma initial_state_level_consistent : level_consistent initial_state.
Proof. intros u. symmetry. exact calculate_level_from_xp_zero. Qed.

(** The states the engine reaches from its initial state. *)
Lemma reachable_wf evs : wf_state (run evs initial_state).
Proof. apply run_invariant; [apply handle_wf | apply initial_state_wf]. Qed.

Lemma reachable_level_consistent evs :
  level_consistent (run evs initial_state).
Proof.
  apply run_invariant;
    [apply handle_level_consistent | apply initial_state_level_consistent].
Qed.

Lemma save_load_roundtrip_witness :
  let st := run [MessageEvent (clock_at 1000 "2024-05-01" "2024-04-30")
                   no_bonus (guild_message 1);
                 VoiceStateEvent (clock_at 2000 "2024-05-01" "2024-04-30") 2
                   None (Some 5);
                 VoiceStateEvent (clock_at 9200 "2024-05-01" "2024-04-30") 2
                   (Some 5) None] initial_state in
  let st' := load_data "2024-05-02" (Some (save_data st)) initial_state in
  user_xp st' = user_xp st /\ user_achievements st' = user_achievements st
  /\ daily_stats st' = daily_stats st.
Proof.
  intros st st'.
  destruct (save_load_roundtrip "2024-05-02" st initial_state)
    as ((Hxp & _ & _ & _ & _ & _ & _ & Hach & _ & _ & Hds & _) & _).
  { unfold wf_state, dict_wf. vm_compute.
    repeat split; apply (bool_decide_unpack _); vm_compute; exact I. }
  by split_and!.
Defined.

(** ** Negative and zero amounts *)

(** A voice session shorter than one minute is closed and nothing else. *)
Lemma short_voice_session clk user_id channel start_time st :
  dict_get user_id (voice_start_times st) = Some start_time ->
  ((current_time clk - start_time) / 60 < 1)%Q ->
  on_voice_state_update clk user_id (Some channel) None st
  = set_voice_start_times (dict_remove user_id (voice_start_times st)) st.
Proof.
  intros Hstart Hshort. unfold on_voice_state_update. cbv zeta.
  rewrite Hstart.
  assert (Hq : Qle_bool 1 ((current_time clk - start_time) / 60)%Q = false).
  { apply not_true_is_false. rewrite Qle_bool_iff. lra. }
  by rewrite Hq.
Qed.

(** C9 fails as stated: [add_xp] with the amount -5 for a user without XP
    stores -5, which is smaller than before and negative. *)
Lemma negative_amount_counterexample :
  let st' := snd (add_xp "2024-05-01" 1 (-5)%Q initial_state) in
  (-5 <= 0)%Q
  /\ (xp_of 1 st' < xp_of 1 initial_state)%Q
  /\ (xp_of 1 st' < 0)%Q.
Proof. vm_compute. by split_and!. Qed.

(** C9, amended: [add_xp] neither rejects nor clamps an amount.  For an
    amount that is not negative, and a state without negative totals, the
    XP stored is not negative, and it is not smaller than before unless the
    prestige transition stores 0.  The handlers pass positive amounts only:
    every event keeps the XP and the voice time of every user from becoming
    negative, and a voice session shorter than one minute changes neither
    the XP nor the voice times. *)
Theorem nonneg_amounts_amended (today : string) (user_id : Z) (amount : Q)
  (ev : Event) (st : BotState) :
  nonneg_state st -> (0 <= amount)%Q ->
  let r := add_xp today user_id amount st in
  (0 <= xp_of user_id (snd r))%Q
  /\ (snd (fst r) = false -> (xp_of user_id st <= xp_of user_id (snd r))%Q)
  /\ (snd (fst r) = true -> xp_of user_id (snd r) = 0%Q)
  /\ nonneg_state (handle ev st)
  /\ (forall clk channel start_time,
        dict_get user_id (voice_start_times st) = Some start_time ->
        ((current_time clk - start_time) / 60 < 1)%Q ->
        let st' := on_voice_state_update clk user_id (Some channel) None st in
        user_xp st' = user_xp st /\ user_voice_time st' = user_voice_time st).
Proof.
  intros Hst Hamount r. subst r.
  pose proof (add_xp_xp_of today user_id amount st user_id) as Hxp.
  rewrite decide_True in Hxp by done.
  destruct (Hst user_id) as [H0 _]. fold (xp_of user_id st) in H0.
  split_and!.
  - rewrite Hxp. destruct (snd (fst _)); [done | lra].
  - intros Hp. rewrite Hxp, Hp. lra.
  - intros Hp. by rewrite Hxp, Hp.
  - by apply handle_nonneg.
  - intros clk channel start_time Hstart Hshort st'. subst st'.
    rewrite (short_voice_session _ _ _ _ _ Hstart Hshort). by destruct st.
Qed.

Lemma nonneg_amounts_amended_witness :
  let ev := MessageEvent (clock_at 1000 "2024-05-01" "2024-04-30") no_bonus
              (guild_message 1) in
  (0 <= xp_of 1 (snd (add_xp "2024-05-01" 1 3%Q initial_state)))%Q
  /\ nonneg_state (handle ev initial_state).
Proof.
  intros ev.
  destruct (nonneg_amounts_amended "2024-05-01" 1 3%Q ev initial_state)
    as (Hxp & _ & _ & Hev & _).
  - intros u. split; discriminate.
  - discriminate.
  - by split.
Defined.

(** * Further properties of the engine *)

(** ** Levels and requirements *)

(** The binary search over thresholds [required_xp] that are left open. *)
Section LevelSearchBy.
Context (required_xp : Z -> Q).

Lemma level_search_by_terminates fuel xp left right :
  (Z.to_nat (right - left) <= fuel)%nat ->
  exists l, level_search_by required_xp fuel xp left right = Some l.
Proof.
  revert left right. induction fuel as [|fuel IH]; intros left right Hfuel;
    simpl; destruct (Z.ltb_spec left right) as [Hlt|Hge]; eauto; try lia.
  assert (left < (left + right + 1) / 2 <= right) as [Hlo Hhi].
  { Z.div_mod_to_equations. lia. }
  destruct (Qle_bool _ xp); apply IH; lia.
Qed.

Lemma level_search_by_bounds fuel xp left right l :
  left <= right ->
  level_search_by required_xp fuel xp left right = Some l ->
  left <= l <= right.
Proof.
  revert left right. induction fuel as [|fuel IH]; intros left right Hle;
    simpl; destruct (Z.ltb_spec left right) as [Hlt|Hge];
    try (intros [= <-]; lia); try done.
  assert (left < (left + right + 1) / 2 <= right) as [Hlo Hhi].
  { Z.div_mod_to_equations. lia. }
  destruct (Qle_bool _ xp); intros Hs; apply IH in Hs; lia.
Qed.

Lemma level_search_by_met fuel xp left right l :
  level_search_by required_xp fuel xp left right = Some l ->
  l = left \/ (required_xp l <= xp)%Q.
Proof.
  revert left right. induction fuel as [|fuel IH]; intros left right;
    simpl; destruct (Z.ltb_spec left right) as [Hlt|Hge];
    try (intros [= ->]; by constructor 1); try done.
  destruct (Qle_bool _ xp) eqn:Hreq; intros Hs; apply IH in Hs as [->|Hs];
    auto.
  right. by apply Qle_bool_iff.
Qed.

Lemma level_search_by_max fuel xp left right l :
  (forall i j, left < i <= j -> j <= right ->
               (required_xp i <= required_xp j)%Q) ->
  level_search_by required_xp fuel xp left right = Some l ->
  forall k, left <= k <= right -> (required_xp k <= xp)%Q -> k <= l.
Proof.
  revert left right. induction fuel as [|fuel IH]; intros left right Hmono;
    simpl; destruct (Z.ltb_spec left right) as [Hlt|Hge];
    try (intros [= ->] k Hk _; lia); try done.
  assert (left < (left + right + 1) / 2 <= right) as [Hlo Hhi].
  { Z.div_mod_to_equations. lia. }
  destruct (Qle_bool _ xp) eqn:Hreq; intros Hs k Hk Hmet.
  - destruct (Z.le_gt_cases ((left + right + 1) / 2) k) as [Hmid|Hmid].
    + eapply IH; [|apply Hs| |done]; [|lia].
      intros i j Hij Hj. apply Hmono; lia.
    + apply level_search_by_bounds in Hs; lia.
  - eapply IH; [|apply Hs| |done].
    + intros i j Hij Hj. apply Hmono; lia.
    + destruct (Z.le_gt_cases ((left + right + 1) / 2) k) as [Hmid|Hmid];
        [|lia].
      assert (Hle : (required_xp ((left + right + 1) / 2)
                     <= required_xp k)%Q) by (apply Hmono; lia).
      assert (Hb : Qle_bool (required_xp ((left + right + 1) / 2)) xp = true)
        by (apply Qle_bool_iff; lra).
      congruence.
Qed.

Lemma calculate_level_from_xp_by_returns xp :
  level_search_by required_xp (Z.to_nat CONFIG.prestige_threshold) xp 0
    CONFIG.prestige_threshold
  = Some (calculate_level_from_xp_by required_xp xp).
Proof.
  unfold calculate_level_from_xp_by.
  destruct (level_search_by_terminates (Z.to_nat CONFIG.prestige_threshold)
              xp 0 CONFIG.prestige_threshold) as [l Hl]; [lia|].
  by rewrite Hl.
Qed.
End LevelSearchBy.

(** With the exact closed form for the thresholds, the search is the one of
    [calculate_level_from_xp]. *)
Lemma level_search_by_closed_form fuel xp left right :
  level_search_by closed_form_requirement fuel xp left right
  = level_search fuel xp left right.
Proof.
  revert left right. induction fuel as [|fuel IH]; intros left right; simpl;
    [done|].
  by rewrite !IH.
Qed.

Lemma calculate_level_from_xp_by_closed_form xp :
  calculate_level_from_xp_by closed_form_requirement xp
  = calculate_level_from_xp xp.
Proof.
  unfold calculate_level_from_xp_by, calculate_level_from_xp.
  by rewrite level_search_by_closed_form.
Qed.

(** X1: whatever the thresholds that the search compares with, as long as
    they do not decrease over the levels 1 to 50, the computed level is at
    least [k] exactly when the XP meets the threshold of [k]: the search
    ends, and it returns the largest level between 0 and 50 whose threshold
    is met. *)
Theorem level_at_least_iff (required_xp : Z -> Q) (xp : Q) (k : Z) :
  (forall i j, 1 <= i <= j -> j <= CONFIG.prestige_threshold ->
               (required_xp i <= required_xp j)%Q) ->
  1 <= k <= CONFIG.prestige_threshold ->
  level_search_by required_xp (Z.to_nat CONFIG.prestige_threshold) xp 0
    CONFIG.prestige_threshold
  = Some (calculate_level_from_xp_by required_xp xp)
  /\ 0 <= calculate_level_from_xp_by required_xp xp
       <= CONFIG.prestige_threshold
  /\ (k <= calculate_level_from_xp_by required_xp xp
      <-> (required_xp k <= xp)%Q).
Proof.
  intros Hmono Hk.
  pose proof (calculate_level_from_xp_by_returns required_xp xp) as Hret.
  assert (Hrange : 0 <= calculate_level_from_xp_by required_xp xp
                   <= CONFIG.prestige_threshold)
    by (eapply level_search_by_bounds; [|exact Hret]; done).
  split_and!; [done | lia | lia |]. split.
  - intros Hle.
    destruct (level_search_by_met required_xp _ _ _ _ _ Hret) as [H0|Hmet];
      [lia|].
    assert ((required_xp k <= required_xp
               (calculate_level_from_xp_by required_xp xp))%Q)
      by (apply Hmono; lia).
    lra.
  - intros Hmet.
    eapply (level_search_by_max required_xp); [|exact Hret|lia|done].
    intros i j Hij Hj. apply Hmono; lia.
Qed.

Lemma level_at_least_iff_witness :
  3 <= calculate_level_from_xp_by closed_form_requirement (327 # 5)
  <-> (closed_form_requirement 3 <= 327 # 5)%Q.
Proof.
  destruct (level_at_least_iff closed_form_requirement (327 # 5) 3)
    as (_ & _ & Hiff).
  - intros i j Hij _. apply closed_form_requirement_mono. lia.
  - unfold CONFIG.prestige_threshold. lia.
  - exact Hiff.
Defined.

(** X2: more XP never gives a lower level. *)
Theorem calculate_level_from_xp_monotone (xp1 xp2 : Q) :
  (xp1 <= xp2)%Q ->
  calculate_level_from_xp xp1 <= calculate_level_from_xp xp2.
Proof.
  intros Hle.
  pose proof (calculate_level_from_xp_range xp1) as Hr1.
  pose proof (calculate_level_from_xp_range xp2) as Hr2.
  destruct (level_search_met _ _ _ _ _ (calculate_level_from_xp_returns xp1))
    as [H0|Hmet]; [lia|].
  apply (level_search_max _ _ _ _ _ (calculate_level_from_xp_returns xp2));
    [lia | lra].
Qed.

Lemma calculate_level_from_xp_monotone_witness :
  calculate_level_from_xp 20 <= calculate_level_from_xp 40.
Proof. apply calculate_level_from_xp_monotone. discriminate. Defined.

(** X3: below the base requirement, and so for every negative XP, the
    level is 0. *)
Theorem level_zero_below_base (xp : Q) :
  (xp < CONFIG.base_xp_requirement)%Q -> calculate_level_from_xp xp = 0.
Proof.
  intros Hxp. pose proof (calculate_level_from_xp_range xp) as Hr.
  assert (calculate_level_from_xp xp < 1); [|lia].
  apply calculate_level_from_xp_below; [lia|].
  rewrite closed_form_requirement_eq.
  unfold CONFIG.base_xp_requirement, CONFIG.xp_multiplier in *.
  change ((7 # 5) ^ 1)%Q with (7 # 5)%Q. lra.
Qed.

Lemma level_zero_below_base_witness : calculate_level_from_xp (-3) = 0.
Proof. apply level_zero_below_base. reflexivity. Defined.

Lemma calculate_level_requirement_base level :
  1 <= level -> 15 <= calculate_level_requirement level.
Proof.
  intros Hl. unfold calculate_level_requirement.
  destruct (Z.eqb_spec level 0); [lia|].
  change 15 with (Qfloor 15). apply Qfloor_resp_le.
  assert (Hp : (CONFIG.xp_multiplier ^ 0 <= CONFIG.xp_multiplier ^ (level - 1))%Q).
  { apply Qpower_le_compat_l; [lia|]. unfold CONFIG.xp_multiplier. lra. }
  change (CONFIG.xp_multiplier ^ 0)%Q with 1%Q in Hp.
  unfold CONFIG.base_xp_requirement. lra.
Qed.

(** X4: for the levels 1 to 50, every level needs at least 15 XP and no
    less than the level before, and the total XP of a level is the total of
    the level before plus its requirement, so the totals strictly
    increase. *)
Theorem requirements_grow (level : Z) :
  1 <= level <= CONFIG.prestige_threshold ->
  15 <= calculate_level_requirement level
      <= calculate_level_requirement (level + 1)
  /\ get_total_xp_for_level level
     = get_total_xp_for_level (level - 1) + calculate_level_requirement level
  /\ get_total_xp_for_level (level - 1) < get_total_xp_for_level level.
Proof.
  intros [Hl _]. pose proof (calculate_level_requirement_base level Hl) as Hb.
  assert (Ht : get_total_xp_for_level level
               = get_total_xp_for_level (level - 1)
                 + calculate_level_requirement level).
  { replace level with (level - 1 + 1) at 1 3 by lia.
    apply get_total_xp_for_level_succ. lia. }
  split_and!; [done| |done|lia].
  unfold calculate_level_requirement.
  destruct (Z.eqb_spec level 0); [lia|].
  destruct (Z.eqb_spec (level + 1) 0); [lia|].
  apply Qfloor_resp_le.
  assert (Hp : (CONFIG.xp_multiplier ^ (level - 1)
                <= CONFIG.xp_multiplier ^ (level + 1 - 1))%Q).
  { apply Qpower_le_compat_l; [lia|]. unfold CONFIG.xp_multiplier. lra. }
  unfold CONFIG.base_xp_requirement. lra.
Qed.

Lemma requirements_grow_witness :
  get_total_xp_for_level 2 < get_total_xp_for_level 3.
Proof. apply (requirements_grow 3). unfold CONFIG.prestige_threshold. lia. Defined.

(** [get_total_xp_for_level] of a level that is not positive is 0: the loop
    does not run. *)
Lemma get_total_xp_for_level_nonpos level :
  level <= 0 -> get_total_xp_for_level level = 0.
Proof.
  intros Hl. unfold get_total_xp_for_level. by rewrite seqZ_nil.
Qed.

(** X5: for XP that is not negative and the level computed from it,
    [get_progress_in_level] gives a progress that is not negative and a
    requirement for the next level of at least 15, so never 0. *)
Theorem progress_in_level_bounds (xp : Q) :
  (0 <= xp)%Q ->
  let r := get_progress_in_level xp (calculate_level_from_xp xp) in
  (0 <= fst r)%Q /\ 15 <= snd r.
Proof.
  intros Hxp r. subst r. unfold get_progress_in_level. cbn [fst snd].
  pose proof (calculate_level_from_xp_range xp) as Hr.
  split.
  - pose proof (get_total_xp_for_level_le_closed_form
                  (calculate_level_from_xp xp) ltac:(lia)) as Ht.
    destruct (level_search_met _ _ _ _ _
                (calculate_level_from_xp_returns xp)) as [H0|Hmet].
    + rewrite H0. change (inject_Z (get_total_xp_for_level 0)) with 0%Q. lra.
    + lra.
  - apply calculate_level_requirement_base. lia.
Qed.

Lemma progress_in_level_bounds_witness :
  (0 <= fst (get_progress_in_level 70 (calculate_level_from_xp 70)))%Q.
Proof. apply (progress_in_level_bounds 70). discriminate. Defined.

(** ** The progress bar of [profile] *)

(** Below the threshold, the closed form of the next level exceeds the
    floored total of the current one by at most 105% of the next
    requirement (checked level by level). *)
Lemma next_closed_form_bound level :
  0 <= level < CONFIG.prestige_threshold ->
  (closed_form_requirement (level + 1)
   - inject_Z (get_total_xp_for_level level)
   <= (21 # 20) * inject_Z (calculate_level_requirement (level + 1)))%Q.
Proof.
  intros Hl.
  assert (Hall : forallb
            (fun l => Qle_bool
               (closed_form_requirement (l + 1)
                - inject_Z (get_total_xp_for_level l))%Q
               ((21 # 20) * inject_Z (calculate_level_requirement (l + 1)))%Q)
            (seqZ 0 CONFIG.prestige_threshold) = true)
    by (vm_compute; reflexivity).
  rewrite forallb_forall in Hall. apply Qle_bool_iff, Hall.
  apply list_elem_of_In, elem_of_seqZ. lia.
Qed.

(** X6: for a user whose XP is not negative and whose stored level is the
    level of that XP and below the threshold, [profile] shows a progress
    bar, the bar has exactly 20 cells, and the percentage beside it is
    between 0 and 105. *)
Theorem profile_progress_bar_cells (user_id : Z) (st : BotState) :
  (0 <= xp_of user_id st)%Q ->
  level_of user_id st = calculate_level_from_xp (xp_of user_id st) ->
  level_of user_id st < CONFIG.prestige_threshold ->
  exists cells percent,
    profile_progress_bar user_id st = Some (cells, percent)
    /\ length cells = 20%nat
    /\ (0 <= percent < 105)%Q.
Proof.
  unfold xp_of, level_of, profile_progress_bar, get_progress_in_level.
  intros Hxp Hlevel Hbelow.
  set (xp := dict_get_or user_id 0%Q (user_xp st)) in *.
  set (level := dict_get_or user_id 0 (user_level st)) in *.
  pose proof (calculate_level_from_xp_range xp) as Hr.
  pose proof (calculate_level_requirement_base (level + 1) ltac:(lia)) as Hn.
  assert (Hpos : (0 < inject_Z (calculate_level_requirement (level + 1)))%Q).
  { change 0%Q with (inject_Z 0). rewrite <- Zlt_Qlt. lia. }
  assert (Hp0 : (0 <= xp - inject_Z (get_total_xp_for_level level))%Q).
  { pose proof (get_total_xp_for_level_le_closed_form level ltac:(lia)) as Ht.
    destruct (level_search_met _ _ _ _ _
                (calculate_level_from_xp_returns xp)) as [H0|Hmet].
    - rewrite Hlevel, H0.
      change (inject_Z (get_total_xp_for_level 0)) with 0%Q. lra.
    - rewrite <- Hlevel in Hmet. lra. }
  assert (Hp1 : (xp - inject_Z (get_total_xp_for_level level)
                 < (21 # 20)
                   * inject_Z (calculate_level_requirement (level + 1)))%Q).
  { pose proof (next_closed_form_bound level ltac:(lia)) as Hb.
    assert (Hx : (xp < closed_form_requirement (level + 1))%Q); [|lra].
    apply Qnot_le_lt. intros Hmet.
    apply (level_search_max _ _ _ _ _ (calculate_level_from_xp_returns xp))
      in Hmet; lia. }
  set (progress := (xp - inject_Z (get_total_xp_for_level level))%Q) in *.
  set (next_req := calculate_level_requirement (level + 1)) in *.
  assert (Hq0 : (0 <= progress / inject_Z next_req)%Q).
  { apply Qle_shift_div_l; [done | lra]. }
  assert (Hq1 : (progress / inject_Z next_req < 21 # 20)%Q).
  { apply Qlt_shift_div_r; [done | lra]. }
  cbv zeta. destruct (Z.ltb_spec 0 next_req) as [_|]; [|lia].
  do 2 eexists. split_and!; [reflexivity| |lra|lra].
  assert (Hy : (inject_Z 20 * (progress / inject_Z next_req * 100) / 100
                == 20 * (progress / inject_Z next_req))%Q)
    by (change (inject_Z 20) with 20%Q; field; lra).
  revert Hy.
  generalize (inject_Z 20 * (progress / inject_Z next_req * 100) / 100)%Q.
  intros y Hy.
  assert (Hf : 0 <= Qfloor y <= 20).
  { split.
    - change 0 with (Qfloor 0). apply Qfloor_resp_le. lra.
    - apply Z.lt_succ_r. rewrite Zlt_Qlt.
      eapply Qle_lt_trans; [apply Qfloor_le|].
      change (inject_Z (Z.succ 20)) with 21%Q. lra. }
  rewrite length_app, !repeat_length. lia.
Qed.

Lemma profile_progress_bar_cells_witness :
  exists cells percent,
    profile_progress_bar 1
      (on_message (clock_at 1000 "2024-05-01" "2024-04-30") no_bonus
         (guild_message 1) initial_state) = Some (cells, percent)
    /\ length cells = 20%nat /\ (0 <= percent < 105)%Q.
Proof.
  apply profile_progress_bar_cells.
  - vm_compute. discriminate.
  - vm_compute. reflexivity.
  - vm_compute. reflexivity.
Defined.

(** The percentage can exceed 100: at 65.2 XP the level is 2 and the
    progress is 29.2 of 29. *)
Example profile_progress_over_100 :
  let st := set_user_level [(1, 2)] (set_user_xp [(1, (326 # 5)%Q)]
                                       initial_state) in
  level_of 1 st = calculate_level_from_xp (xp_of 1 st)
  /\ exists cells percent,
       profile_progress_bar 1 st = Some (cells, percent)
       /\ (100 < percent)%Q /\ cells = repeat true 20.
Proof.
  split; [vm_compute; reflexivity|].
  do 2 eexists. split; [vm_compute; reflexivity|].
  split; vm_compute; reflexivity.
Qed.

(** ** The sorted leaderboard *)

Lemma decreasing_scores_cons x l :
  decreasing_scores (x :: l)
  <-> (forall b, b ∈ l -> (snd b <= snd x)%Q) /\ decreasing_scores l.
Proof.
  unfold decreasing_scores. split.
  - intros Hs. split.
    + intros b [j Hj]%list_elem_of_lookup.
      apply (Hs 0%nat (S j) x b); [lia|done|done].
    + intros i j a b Hij Ha Hb. apply (Hs (S i) (S j) a b); [lia|done|done].
  - intros [Hx Hl] i j a b Hij Ha Hb.
    destruct j as [|j]; [lia|]. simpl in Hb.
    destruct i as [|i]; simpl in Ha.
    + injection Ha as <-. apply Hx, list_elem_of_lookup. eauto.
    + apply (Hl i j a b); [lia|done|done].
Qed.

Lemma insert_by_score_decreasing x l :
  decreasing_scores l -> decreasing_scores (insert_by_score x l).
Proof.
  induction l as [|y l IH]; simpl.
  - intros _. apply decreasing_scores_cons. split; [|done].
    intros b []%elem_of_nil.
  - intros [Hy Hl]%decreasing_scores_cons.
    destruct (Qlt_le_dec (snd x) (snd y)) as [Hlt|Hle];
      apply decreasing_scores_cons.
    + split; [|by apply IH].
      intros b [->|Hb]%insert_by_score_elem; [lra | by apply Hy].
    + split.
      * intros b [->|Hb]%elem_of_cons; [done|].
        specialize (Hy b Hb). lra.
      * apply decreasing_scores_cons. by split.
Qed.

Lemma sorted_by_score_decreasing l : decreasing_scores (sorted_by_score l).
Proof.
  induction l as [|x l IH]; simpl.
  - intros i j a b _ Ha. by rewrite lookup_nil in Ha.
  - by apply insert_by_score_decreasing.
Qed.

Lemma insert_by_score_perm x l : insert_by_score x l ≡ₚ x :: l.
Proof.
  induction l as [|y l IH]; simpl; [done|].
  destruct (Qlt_le_dec _ _); [|done].
  rewrite IH. apply Permutation_swap.
Qed.

Lemma sorted_by_score_perm l : sorted_by_score l ≡ₚ l.
Proof.
  induction l as [|x l IH]; simpl; [done|].
  by rewrite insert_by_score_perm, IH.
Qed.

(** The entries before sorting: the users of the map with a positive
    score. *)
Lemma leaderboard_scores_elem st u s :
  (u, s) ∈ omap (fun user_id =>
                   let score := get_leaderboard_score user_id st in
                   if Qlt_le_dec 0 score then Some (user_id, score) else None)
                (dict_keys (user_xp st))
  <-> u ∈ dict_keys (user_xp st) /\ s = get_leaderboard_score u st
      /\ (0 < s)%Q.
Proof.
  rewrite list_elem_of_omap. cbv zeta. split.
  - intros (u' & Hu' & Hsome).
    destruct (Qlt_le_dec _ _) as [Hpos|]; [|done].
    injection Hsome as -> <-. done.
  - intros (Hu & -> & Hpos). exists u. split; [done|].
    destruct (Qlt_le_dec _ _) as [|Hle]; [done | lra].
Qed.

Lemma leaderboard_scores_NoDup st :
  dict_wf (user_xp st) ->
  NoDup (map fst
           (omap (fun user_id =>
                    let score := get_leaderboard_score user_id st in
                    if Qlt_le_dec 0 score then Some (user_id, score)
                    else None)
                 (dict_keys (user_xp st)))).
Proof.
  unfold dict_wf. generalize (dict_keys (user_xp st)). cbv zeta.
  induction 1 as [|u l Hu Hl IH]; simpl; [constructor|].
  destruct (Qlt_le_dec _ _); simpl; [|done].
  constructor; [|done].
  rewrite list_elem_of_In, in_map_iff. intros ([u' s] & Heq & Hin).
  simpl in Heq. subst u'. apply list_elem_of_In, list_elem_of_omap in Hin.
  destruct Hin as (u' & Hu' & Hsome).
  destruct (Qlt_le_dec _ _); [|done]. injection Hsome as -> _. done.
Qed.

Lemma length_omap_le {A B} (f : A -> option B) (l : list A) :
  (length (omap f l) <= length l)%nat.
Proof.
  induction l as [|x l IH]; [done|].
  change (omap f (x :: l))
    with (match f x with Some y => y :: omap f l | None => omap f l end).
  destruct (f x); simpl; lia.
Qed.

(** X7: [get_sorted_leaderboard] lists exactly the users of the XP map
    with a positive score, each with its score, and no entry has a higher
    score than an earlier one. *)
Theorem get_sorted_leaderboard_sorted (st : BotState) :
  decreasing_scores (get_sorted_leaderboard st)
  /\ (forall u s,
        (u, s) ∈ get_sorted_leaderboard st
        <-> u ∈ dict_keys (user_xp st)
            /\ s = get_leaderboard_score u st /\ (0 < s)%Q)
  /\ (length (get_sorted_leaderboard st)
      <= length (dict_keys (user_xp st)))%nat.
Proof.
  unfold get_sorted_leaderboard. split_and!.
  - apply sorted_by_score_decreasing.
  - intros u s. rewrite sorted_by_score_elem. apply leaderboard_scores_elem.
  - rewrite sorted_by_score_perm. apply length_omap_le.
Qed.

(** In a list without a repeated user, the loop of [get_user_rank] stops at
    the position of the user. *)
Lemma rank_in_lookup user_id s start (i : nat) l :
  NoDup (map fst l) -> l !! i = Some (user_id, s) ->
  rank_in user_id start l = start + Z.of_nat i.
Proof.
  revert start i. induction l as [|[uid sc] l IH]; intros start i Hnd Hi;
    [by rewrite lookup_nil in Hi|].
  simpl. apply NoDup_cons in Hnd as [Hhd Hnd].
  destruct i as [|i]; simpl in Hi.
  - injection Hi as -> ->. rewrite decide_True by done. lia.
  - destruct (decide (uid = user_id)) as [->|Hne].
    + exfalso. apply Hhd. apply list_elem_of_In, in_map_iff.
      exists (user_id, s). split; [done|].
      apply list_elem_of_In, list_elem_of_lookup. eauto.
    + rewrite (IH (start + 1) i) by done. lia.
Qed.

Lemma get_sorted_leaderboard_NoDup st :
  dict_wf (user_xp st) -> NoDup (map fst (get_sorted_leaderboard st)).
Proof.
  intros Hwf. unfold get_sorted_leaderboard.
  apply (NoDup_Permutation_proper _ _
           (Permutation_map fst (sorted_by_score_perm _))).
  by apply leaderboard_scores_NoDup.
Qed.

Lemma get_user_rank_lookup st (i : nat) user_id s :
  dict_wf (user_xp st) ->
  get_sorted_leaderboard st !! i = Some (user_id, s) ->
  get_user_rank user_id st = Z.of_nat i + 1.
Proof.
  intros Hwf Hi. unfold get_user_rank.
  destruct (user_xp st) eqn:Hxp.
  - unfold get_sorted_leaderboard in Hi. rewrite Hxp in Hi.
    simpl in Hi. by rewrite lookup_nil in Hi.
  - rewrite <- Hxp in *.
    rewrite (rank_in_lookup _ s 1 i); [lia| |done].
    by apply get_sorted_leaderboard_NoDup.
Qed.

Lemma get_sorted_leaderboard_lookup_score st (i : nat) user_id s :
  get_sorted_leaderboard st !! i = Some (user_id, s) ->
  s = get_leaderboard_score user_id st.
Proof.
  intros Hi.
  assert (Hin : (user_id, s) ∈ get_sorted_leaderboard st)
    by (apply list_elem_of_lookup; eauto).
  unfold get_sorted_leaderboard in Hin.
  rewrite sorted_by_score_elem in Hin.
  by apply leaderboard_scores_elem in Hin as (_ & -> & _).
Qed.

(** X8: the rank of a user on the leaderboard is the position of its entry,
    counted from 1, when the XP map has no repeated key. *)
Theorem get_user_rank_position (st : BotState) (i : nat) (user_id : Z)
  (s : Q) :
  dict_wf (user_xp st) ->
  get_sorted_leaderboard st !! i = Some (user_id, s) ->
  get_user_rank user_id st = Z.of_nat i + 1
  /\ s = get_leaderboard_score user_id st.
Proof.
  intros Hwf Hi. split; [by apply (get_user_rank_lookup st i user_id s)|].
  by apply (get_sorted_leaderboard_lookup_score st i).
Qed.

Lemma get_user_rank_position_witness :
  let st := on_message (clock_at 1000 "2024-05-01" "2024-04-30") no_bonus
              (guild_message 1) initial_state in
  get_user_rank 1 st = 1.
Proof.
  intros st.
  destruct (get_user_rank_position st 0 1 (get_leaderboard_score 1 st))
    as [Hrank _].
  - apply (bool_decide_unpack _). vm_compute. exact I.
  - vm_compute. reflexivity.
  - exact Hrank.
Defined.

Lemma insert_by_score_filter (p : Z * Q -> bool) x l :
  (forall a b, p a = true -> p b = true -> (snd a == snd b)%Q) ->
  List.filter p (insert_by_score x l)
  = if p x then x :: List.filter p l else List.filter p l.
Proof.
  intros Hp. induction l as [|y l IH]; simpl; [done|].
  destruct (Qlt_le_dec (snd x) (snd y)) as [Hlt|Hle]; simpl; [|done].
  rewrite IH. destruct (p x) eqn:Hx, (p y) eqn:Hy; try done.
  specialize (Hp x y Hx Hy). lra.
Qed.

Lemma sorted_by_score_filter (p : Z * Q -> bool) l :
  (forall a b, p a = true -> p b = true -> (snd a == snd b)%Q) ->
  List.filter p (sorted_by_score l) = List.filter p l.
Proof.
  intros Hp. induction l as [|x l IH]; simpl; [done|].
  rewrite insert_by_score_filter by done. by rewrite IH.
Qed.

(** X9: the sort of the leaderboard is stable: the entries with one score
    are in the leaderboard in the order in which their users are in the XP
    map. *)
Theorem leaderboard_ties_keep_order (st : BotState) (s : Q) :
  List.filter (fun e => Qeq_bool (snd e) s) (get_sorted_leaderboard st)
  = List.filter (fun e => Qeq_bool (snd e) s)
      (omap (fun user_id =>
               let score := get_leaderboard_score user_id st in
               if Qlt_le_dec 0 score then Some (user_id, score) else None)
            (dict_keys (user_xp st))).
Proof.
  unfold get_sorted_leaderboard. apply sorted_by_score_filter.
  intros a b Ha%Qeq_bool_iff Hb%Qeq_bool_iff. by rewrite Ha, Hb.
Qed.

(** Two users with the same score: the one who came first stays first. *)
Example leaderboard_tie :
  let clk := clock_at 1000 "2024-05-01" "2024-04-30" in
  let st := run [MessageEvent clk no_bonus (guild_message 2);
                 MessageEvent clk no_bonus (guild_message 1)] initial_state in
  map fst (get_sorted_leaderboard st) = [2; 1].
Proof. vm_compute. reflexivity. Qed.

(** X10: the lines of the [leaderboards] command are at most ten, and each
    line shows a member at the position that [get_user_rank] gives the
    user, with the score of [get_leaderboard_score]. *)
Theorem leaderboards_lines (is_member : Z -> bool) (st : BotState)
  (lines : list (Z * (Z * Q))) :
  dict_wf (user_xp st) ->
  leaderboards is_member st = Some lines ->
  (length lines <= 10)%nat
  /\ forall i u s,
       (i, (u, s)) ∈ lines ->
       get_user_rank u st = i /\ 1 <= i <= 10
       /\ is_member u = true /\ s = get_leaderboard_score u st.
Proof.
  intros Hwf. unfold leaderboards.
  destruct (user_xp st) eqn:Hxp; [done|]. rewrite <- Hxp in Hwf |- *.
  clear Hxp. cbv zeta.
  change (sorted_by_score
            (omap (fun user_id =>
                     if Qlt_le_dec 0 (get_leaderboard_score user_id st)
                     then Some (user_id, get_leaderboard_score user_id st)
                     else None) (dict_keys (user_xp st))))
    with (get_sorted_leaderboard st).
  destruct (omap _ (dict_keys (user_xp st))); [done|].
  set (sorted_users := take top_talkers_limit (get_sorted_leaderboard st)).
  assert (Hlen : (length sorted_users <= 10)%nat).
  { subst sorted_users. rewrite length_take. unfold top_talkers_limit. lia. }
  destruct (omap _ (zip _ sorted_users)) as [|line0 rest] eqn:Hlines;
    [done|].
  intros [= <-]. rewrite <- Hlines. clear Hlines. split.
  - etransitivity; [apply length_omap_le|].
    rewrite length_zip_with. lia.
  - intros i u s (line & Hline & Hsome)%list_elem_of_omap.
    destruct (is_member (fst (snd line))) eqn:Hm; [|done].
    injection Hsome as ->. simpl in Hm.
    apply list_elem_of_lookup in Hline as [j Hj].
    apply lookup_zip_with_Some in Hj as (i' & e & Heq & Hi & He).
    injection Heq as <- <-.
    apply lookup_seqZ in Hi as [-> Hj].
    subst sorted_users. apply lookup_take_Some in He as [He Hj10].
    pose proof (get_user_rank_lookup st j u s Hwf He) as Hrank.
    pose proof (get_sorted_leaderboard_lookup_score st j u s He) as Hs.
    unfold top_talkers_limit in Hj10. split_and!; try done; lia.
Qed.

Lemma leaderboards_lines_witness :
  let st := on_message (clock_at 1000 "2024-05-01" "2024-04-30") no_bonus
              (guild_message 1) initial_state in
  leaderboards (fun _ => true) st = Some [(1, (1, (6 # 2)%Q))]
  /\ get_user_rank 1 st = 1
  /\ (6 # 2)%Q = get_leaderboard_score 1 st.
Proof.
  intros st.
  assert (Hlines : leaderboards (fun _ => true) st
                   = Some [(1, (1, (6 # 2)%Q))]) by reflexivity.
  split; [exact Hlines|].
  destruct (leaderboards_lines (fun _ => true) st [(1, (1, (6 # 2)%Q))])
    as [_ Hline].
  - apply (bool_decide_unpack _). vm_compute. exact I.
  - exact Hlines.
  - destruct (Hline 1 1 (6 # 2)%Q) as (Hrank & _ & _ & Hscore).
    + apply list_elem_of_singleton. reflexivity.
    + split; [exact Hrank | exact Hscore].
Defined.

(** ** What is never taken back *)

Lemma grows_refl st : grows st st.
Proof. unfold grows. split_and!; intros; try reflexivity; lra. Qed.

Lemma grows_trans st1 st2 st3 : grows st1 st2 -> grows st2 st3 -> grows st1 st3.
Proof.
  intros (Ha & Hp & Hm & Hv & Ht) (Ha' & Hp' & Hm' & Hv' & Ht').
  split_and!; intros.
  - etransitivity; [apply Ha | apply Ha'].
  - etransitivity; [apply Hp | apply Hp'].
  - etransitivity; [apply Hm | apply Hm'].
  - eapply Qle_trans; [apply Hv | apply Hv'].
  - lia.
Qed.

Ltac grows_base st :=
  destruct st; unfold grows; state_simpl;
  split_and!; intros; try reflexivity; try lia; try apply Qle_refl.

Lemma grows_set_events_message x st : grows st (set_events_message x st).
Proof. grows_base st. Qed.
Lemma grows_set_user_xp x st : grows st (set_user_xp x st).
Proof. grows_base st. Qed.
Lemma grows_set_user_level x st : grows st (set_user_level x st).
Proof. grows_base st. Qed.
Lemma grows_set_user_last_message x st : grows st (set_user_last_message x st).
Proof. grows_base st. Qed.
Lemma grows_set_user_daily_streak x st : grows st (set_user_daily_streak x st).
Proof. grows_base st. Qed.
Lemma grows_set_user_last_daily x st : grows st (set_user_last_daily x st).
Proof. grows_base st. Qed.
Lemma grows_set_voice_start_times x st : grows st (set_voice_start_times x st).
Proof. grows_base st. Qed.
Lemma grows_set_daily_stats x st : grows st (set_daily_stats x st).
Proof. grows_base st. Qed.
Lemma grows_set_daily_history x st : grows st (set_daily_history x st).
Proof. grows_base st. Qed.

Lemma grows_prestige_incr u st :
  grows st (set_user_prestige
              (dict_set u (dict_get_or u 0 (user_prestige st) + 1)
                 (user_prestige st)) st).
Proof.
  grows_base st. destruct (decide (u = u0)) as [->|Hne].
  - rewrite dict_get_or_set_eq. lia.
  - by rewrite dict_get_or_set_ne.
Qed.

Lemma grows_message_count_incr u st :
  grows st (set_user_message_count
              (dict_set u (dict_get_or u 0 (user_message_count st) + 1)
                 (user_message_count st)) st).
Proof.
  grows_base st. destruct (decide (u = u0)) as [->|Hne].
  - rewrite dict_get_or_set_eq. lia.
  - by rewrite dict_get_or_set_ne.
Qed.

Lemma grows_voice_time_add u (d : Q) st :
  (0 <= d)%Q ->
  grows st (set_user_voice_time
              (dict_set u (dict_get_or u 0 (user_voice_time st) + d)%Q
                 (user_voice_time st)) st).
Proof.
  intros Hd. grows_base st. destruct (decide (u = u0)) as [->|Hne].
  - rewrite dict_get_or_set_eq. lra.
  - rewrite dict_get_or_set_ne by done. apply Qle_refl.
Qed.

Lemma grows_total_incr st :
  grows st (set_total_server_messages (total_server_messages st + 1) st).
Proof. grows_base st. Qed.

(** [award_achievement] in one equation. *)
Lemma dict_set_set {K V} `{EqDecision K} (k : K) (v v' : V) (d : dict K V) :
  dict_set k v (dict_set k v' d) = dict_set k v d.
Proof.
  induction d as [|[k0 v0] d IH]; simpl.
  - by rewrite decide_True.
  - destruct (decide (k = k0)) as [->|Hne]; simpl.
    + by rewrite decide_True.
    + by rewrite decide_False, IH.
Qed.

Lemma award_achievement_eq user_id a st :
  award_achievement user_id a st
  = set_user_achievements
      (dict_set user_id
         ({[a]} ∪ dict_get_or user_id ∅ (user_achievements st))
         (user_achievements st)) st.
Proof.
  unfold award_achievement. destruct st; state_simpl.
  destruct (dict_mem _ _) eqn:Hmem; state_simpl; [done|].
  rewrite dict_get_or_set_eq, dict_set_set.
  unfold dict_mem in Hmem. unfold dict_get_or.
  by destruct (dict_get _ _).
Qed.

Lemma grows_award user_id a st : grows st (award_achievement user_id a st).
Proof.
  rewrite award_achievement_eq. grows_base st.
  destruct (decide (user_id = u)) as [->|Hne].
  - rewrite dict_get_or_set_eq. set_solver.
  - by rewrite dict_get_or_set_ne.
Qed.

Lemma grows_update_daily_stats today user_id a st :
  grows st (update_daily_stats today user_id a st).
Proof.
  destruct (update_daily_stats_frame today user_id a st) as (ds & dh & ->).
  eapply grows_trans; [apply grows_set_daily_stats|].
  apply grows_set_daily_history.
Qed.

Ltac grows_tac :=
  lazymatch goal with
  | |- grows ?s ?s => apply grows_refl
  | |- grows ?s (set_events_message _ ?t) =>
      apply (grows_trans s t); [grows_tac | apply grows_set_events_message]
  | |- grows ?s (set_user_xp _ ?t) =>
      apply (grows_trans s t); [grows_tac | apply grows_set_user_xp]
  | |- grows ?s (set_user_level _ ?t) =>
      apply (grows_trans s t); [grows_tac | apply grows_set_user_level]
  | |- grows ?s (set_user_last_message _ ?t) =>
      apply (grows_trans s t); [grows_tac | apply grows_set_user_last_message]
  | |- grows ?s (set_user_daily_streak _ ?t) =>
      apply (grows_trans s t); [grows_tac | apply grows_set_user_daily_streak]
  | |- grows ?s (set_user_last_daily _ ?t) =>
      apply (grows_trans s t); [grows_tac | apply grows_set_user_last_daily]
  | |- grows ?s (set_voice_start_times _ ?t) =>
      apply (grows_trans s t); [grows_tac | apply grows_set_voice_start_times]
  | |- grows ?s (set_daily_stats _ ?t) =>
      apply (grows_trans s t); [grows_tac | apply grows_set_daily_stats]
  | |- grows ?s (set_daily_history _ ?t) =>
      apply (grows_trans s t); [grows_tac | apply grows_set_daily_history]
  | |- grows ?s (set_user_prestige _ ?t) =>
      apply (grows_trans s t); [grows_tac | apply grows_prestige_incr]
  | |- grows ?s (set_user_message_count _ ?t) =>
      apply (grows_trans s t); [grows_tac | apply grows_message_count_incr]
  | |- grows ?s (set_total_server_messages _ ?t) =>
      apply (grows_trans s t); [grows_tac | apply grows_total_incr]
  | |- grows ?s (award_achievement _ _ ?t) =>
      apply (grows_trans s t); [grows_tac | apply grows_award]
  | |- grows ?s (update_daily_stats _ _ _ ?t) =>
      apply (grows_trans s t); [grows_tac | apply grows_update_daily_stats]
  | |- grows ?s (if ?c then award_achievement ?u ?a ?t else ?t) =>
      apply (grows_trans s t);
      [grows_tac | destruct c; [apply grows_award | apply grows_refl]]
  | |- grows ?s (if ?c then update_daily_stats ?d ?u ?a ?t else ?t) =>
      apply (grows_trans s t);
      [grows_tac
      | destruct c; [apply grows_update_daily_stats | apply grows_refl]]
  | |- grows ?s (if ?c then _ else _) => destruct c; grows_tac
  | |- grows ?s ?t =>
      is_var t;
      lazymatch goal with
      | H : grows ?m t |- _ => apply (grows_trans s m t); [grows_tac | exact H]
      end
  end.

Lemma grows_check_achievements user_id xp level st :
  grows st (check_achievements user_id xp level st).
Proof. unfold check_achievements. cbv zeta beta. grows_tac. Qed.

Lemma grows_add_xp today user_id amount st :
  grows st (snd (add_xp today user_id amount st)).
Proof.
  unfold add_xp. cbv zeta.
  pose proof (grows_check_achievements user_id
                (dict_get_or user_id 0%Q (user_xp st) + amount)%Q
                (calculate_level_from_xp
                   (dict_get_or user_id 0%Q (user_xp st) + amount)%Q)
                (set_user_level
                   (dict_set user_id
                      (calculate_level_from_xp
                         (dict_get_or user_id 0%Q (user_xp st) + amount)%Q)
                      (user_level
                         (set_user_xp
                            (dict_set user_id
                               (dict_get_or user_id 0%Q (user_xp st)
                                + amount)%Q (user_xp st)) st)))
                   (set_user_xp
                      (dict_set user_id
                         (dict_get_or user_id 0%Q (user_xp st) + amount)%Q
                         (user_xp st)) st))) as Hc.
  revert Hc.
  generalize (check_achievements user_id
                (dict_get_or user_id 0%Q (user_xp st) + amount)%Q
                (calculate_level_from_xp
                   (dict_get_or user_id 0%Q (user_xp st) + amount)%Q)
                (set_user_level
                   (dict_set user_id
                      (calculate_level_from_xp
                         (dict_get_or user_id 0%Q (user_xp st) + amount)%Q)
                      (user_level
                         (set_user_xp
                            (dict_set user_id
                               (dict_get_or user_id 0%Q (user_xp st)
                                + amount)%Q (user_xp st)) st)))
                   (set_user_xp
                      (dict_set user_id
                         (dict_get_or user_id 0%Q (user_xp st) + amount)%Q
                         (user_xp st)) st))).
  intros st2 Hc.
  assert (H2 : grows st st2).
  { eapply grows_trans; [|exact Hc]. grows_tac. }
  clear Hc.
  destruct (prestige_fires _ _); cbv beta iota; cbn [fst snd]; grows_tac.
Qed.

Lemma grows_calculate_message_xp clk rnd user_id st :
  grows st (snd (calculate_message_xp clk rnd user_id st)).
Proof.
  destruct (calculate_message_xp_frame clk rnd user_id st)
    as (ld & sk & -> & _).
  grows_tac.
Qed.

Lemma grows_on_message clk rnd message st :
  grows st (on_message clk rnd message st).
Proof.
  unfold on_message.
  destruct (author_is_bot_user message); [grows_tac|].
  destruct (bool_decide _ && negb _); [grows_tac|].
  destruct (channel_is_dm message && author_is_admin message); [grows_tac|].
  destruct (in_guild message); [|grows_tac]. cbv zeta.
  destruct (Qle_bool _ _); [|grows_tac].
  match goal with
  | |- context [calculate_message_xp ?c ?r ?u ?s] =>
      pose proof (grows_calculate_message_xp c r u s) as Hc;
      destruct (calculate_message_xp c r u s) as [xp_gained st3]
  end.
  cbn [snd] in Hc. cbv beta iota.
  match goal with
  | |- context [add_xp ?d ?u ?x ?s] =>
      pose proof (grows_add_xp d u x s) as Ha;
      destruct (add_xp d u x s) as [r st4]
  end.
  cbn [snd] in Ha. cbv beta iota.
  grows_tac.
Qed.

Lemma grows_on_voice_state_update clk user_id before after st :
  grows st (on_voice_state_update clk user_id before after st).
Proof.
  unfold on_voice_state_update. cbv zeta.
  destruct before as [b|], after as [a|]; try grows_tac.
  destruct (dict_get user_id (voice_start_times st)) as [start_time|];
    [|grows_tac].
  destruct (Qle_bool 1 _) eqn:Hd; [|grows_tac].
  apply Qle_bool_iff in Hd.
  match goal with
  | |- context [add_xp ?d ?u ?x ?s] =>
      pose proof (grows_add_xp d u x s) as Ha;
      destruct (add_xp d u x s) as [r st4]
  end.
  cbn [snd] in Ha. cbv beta iota.
  eapply grows_trans; [|apply grows_update_daily_stats].
  eapply grows_trans; [|apply grows_voice_time_add; lra].
  grows_tac.
Qed.

Lemma grows_handle ev st : grows st (handle ev st).
Proof.
  destruct ev; simpl.
  - apply grows_on_message.
  - apply grows_on_voice_state_update.
  - apply grows_update_daily_stats.
Qed.

Lemma grows_run evs st : grows st (run evs st).
Proof.
  unfold run. revert st. induction evs as [|ev evs IH]; intros st; simpl.
  - apply grows_refl.
  - eapply grows_trans; [apply grows_handle | apply IH].
Qed.

(** X11: an achievement, once held, is held after every sequence of
    events: no handler removes one. *)
Theorem achievements_never_revoked (evs : list Event) (st : BotState)
  (user_id : Z) (a : string) :
  a ∈ achievements_of user_id st ->
  a ∈ achievements_of user_id (run evs st).
Proof.
  intros Ha. destruct (grows_run evs st) as (Hach & _).
  by apply (Hach user_id).
Qed.

Lemma achievements_never_revoked_witness :
  let day1 := MessageEvent (clock_at 1000 "2024-05-01" "2024-04-30") no_bonus
                (guild_message 1) in
  let leave := VoiceStateEvent (clock_at 9000 "2024-05-01" "2024-04-30") 1
                 (Some 5) None in
  "first_message"
    ∈ achievements_of 1 (run [leave; day1] (run [day1] initial_state)).
Proof.
  intros day1 leave. apply achievements_never_revoked.
  apply (bool_decide_unpack _). vm_compute. exact I.
Defined.


(** ** Achievement rules *)

Lemma award_achievement_other user_id a st u :
  u <> user_id ->
  achievements_of u (award_achievement user_id a st) = achievements_of u st.
Proof.
  intros Hne. rewrite award_achievement_eq. unfold achievements_of.
  destruct st; state_simpl. by rewrite dict_get_or_set_ne.
Qed.

Lemma award_achievement_reads user_id a st :
  user_daily_streak (award_achievement user_id a st) = user_daily_streak st
  /\ user_voice_time (award_achievement user_id a st) = user_voice_time st.
Proof. rewrite award_achievement_eq. by destruct st. Qed.

(** One rule of [check_achievements]: the award is skipped only when it
    would change nothing. *)
Lemma award_rule_step (c : bool) user_id a (achs0 : gset string) st :
  achs0 ⊆ achievements_of user_id st ->
  let st' := if c && bool_decide (a ∉ achs0)
             then award_achievement user_id a st else st in
  achievements_of user_id st'
  = achievements_of user_id st ∪ (if c then {[a]} else ∅)
  /\ (forall u, u <> user_id -> achievements_of u st' = achievements_of u st)
  /\ user_daily_streak st' = user_daily_streak st
  /\ user_voice_time st' = user_voice_time st.
Proof.
  intros Hsub st'. subst st'.
  destruct c; simpl; [destruct (bool_decide_reflect (a ∉ achs0)) as [Hn|Hin]|].
  - rewrite award_achievement_achievements_of.
    destruct (award_achievement_reads user_id a st) as [-> ->].
    split_and!; try done; [set_solver|].
    intros u Hu. by apply award_achievement_other.
  - apply dec_stable in Hin. split_and!; try done. set_solver.
  - split_and!; try done. set_solver.
Qed.

(** X13: [check_achievements] adds to the achievements of the user exactly
    those whose rule holds (100 and 1000 XP, levels 10 and 25, a streak of
    10 days, 60 minutes of voice), keeps what the user had, and leaves the
    other users alone. *)
Theorem check_achievements_awards (user_id : Z) (xp : Q) (level : Z)
  (st : BotState) :
  let st' := check_achievements user_id xp level st in
  achievements_of user_id st'
  = achievements_of user_id st
    ∪ (if Qle_bool 100 xp then {["100_xp"]} else ∅)
    ∪ (if Qle_bool 1000 xp then {["1000_xp"]} else ∅)
    ∪ (if 10 <=? level then {["level_10"]} else ∅)
    ∪ (if 25 <=? level then {["level_25"]} else ∅)
    ∪ (if 10 <=? streak_of user_id st then {["10_day_streak"]} else ∅)
    ∪ (if Qle_bool 60 (voice_time_of user_id st) then {["voice_hour"]}
       else ∅)
  /\ forall u, u <> user_id -> achievements_of u st' = achievements_of u st.
Proof.
  intros st'. subst st'. unfold check_achievements, streak_of, voice_time_of.
  cbv zeta beta.
  change (dict_get_or user_id ∅ (user_achievements st))
    with (achievements_of user_id st).
  set (achs0 := achievements_of user_id st).
  assert (H0 : achs0 ⊆ achievements_of user_id st) by done.
  pose proof (award_rule_step (Qle_bool 100 xp) user_id "100_xp" achs0 st H0)
    as (E1 & O1 & S1 & V1). cbv zeta in E1, O1, S1, V1.
  revert E1 O1 S1 V1.
  generalize (if Qle_bool 100 xp && bool_decide ("100_xp" ∉ achs0)
              then award_achievement user_id "100_xp" st else st).
  intros st1 E1 O1 S1 V1.
  assert (H1 : achs0 ⊆ achievements_of user_id st1) by (rewrite E1; set_solver).
  pose proof (award_rule_step (Qle_bool 1000 xp) user_id "1000_xp" achs0 st1
                H1) as (E2 & O2 & S2 & V2). cbv zeta in E2, O2, S2, V2.
  revert E2 O2 S2 V2.
  generalize (if Qle_bool 1000 xp && bool_decide ("1000_xp" ∉ achs0)
              then award_achievement user_id "1000_xp" st1 else st1).
  intros st2 E2 O2 S2 V2.
  assert (H2 : achs0 ⊆ achievements_of user_id st2) by (rewrite E2; set_solver).
  pose proof (award_rule_step (10 <=? level) user_id "level_10" achs0 st2 H2)
    as (E3 & O3 & S3 & V3). cbv zeta in E3, O3, S3, V3.
  revert E3 O3 S3 V3.
  generalize (if (10 <=? level) && bool_decide ("level_10" ∉ achs0)
              then award_achievement user_id "level_10" st2 else st2).
  intros st3 E3 O3 S3 V3.
  assert (H3 : achs0 ⊆ achievements_of user_id st3) by (rewrite E3; set_solver).
  pose proof (award_rule_step (25 <=? level) user_id "level_25" achs0 st3 H3)
    as (E4 & O4 & S4 & V4). cbv zeta in E4, O4, S4, V4.
  revert E4 O4 S4 V4.
  generalize (if (25 <=? level) && bool_decide ("level_25" ∉ achs0)
              then award_achievement user_id "level_25" st3 else st3).
  intros st4 E4 O4 S4 V4.
  assert (H4 : achs0 ⊆ achievements_of user_id st4) by (rewrite E4; set_solver).
  pose proof (award_rule_step
                (10 <=? dict_get_or user_id 0 (user_daily_streak st4))
                user_id "10_day_streak" achs0 st4 H4)
    as (E5 & O5 & S5 & V5). cbv zeta in E5, O5, S5, V5.
  revert E5 O5 S5 V5.
  generalize (if (10 <=? dict_get_or user_id 0 (user_daily_streak st4))
                 && bool_decide ("10_day_streak" ∉ achs0)
              then award_achievement user_id "10_day_streak" st4 else st4).
  intros st5 E5 O5 S5 V5.
  assert (H5 : achs0 ⊆ achievements_of user_id st5) by (rewrite E5; set_solver).
  pose proof (award_rule_step
                (Qle_bool 60 (dict_get_or user_id 0%Q (user_voice_time st5)))
                user_id "voice_hour" achs0 st5 H5)
    as (E6 & O6 & _ & _). cbv zeta in E6, O6.
  split.
  - rewrite E6, E5, E4, E3, E2, E1.
    by rewrite V5, V4, V3, V2, V1, S4, S3, S2, S1.
  - intros u Hu. by rewrite O6, O5, O4, O3, O2, O1.
Qed.

(** ** What [add_xp] returns *)

(** X14: the level that [add_xp] returns is the level it stores; it never
    reports a level-up together with a prestige; without a prestige it
    reports a level-up exactly when the new level is above the old one; and
    after a prestige the user holds the first-prestige achievement. *)
Theorem add_xp_result (today : string) (user_id : Z) (amount : Q)
  (st : BotState) :
  let r := add_xp today user_id amount st in
  let leveled_up := fst (fst (fst r)) in
  let new_level := snd (fst (fst r)) in
  let prestiged := snd (fst r) in
  dict_get user_id (user_level (snd r)) = Some new_level
  /\ (leveled_up && prestiged = false)
  /\ (prestiged = false ->
      leveled_up = bool_decide (level_of user_id st < new_level))
  /\ (prestiged = true ->
      new_level = 0
      /\ "first_prestige" ∈ achievements_of user_id (snd r)).
Proof.
  intros r leveled_up new_level prestiged.
  subst r leveled_up new_level prestiged.
  split_and!.
  4: { unfold add_xp. cbv zeta.
       destruct (prestige_fires _ _); cbv beta iota; cbn [fst snd];
         [|done].
       intros _. split; [done|]. rewrite andb_false_r.
       match goal with
       | |- context [update_daily_stats ?t ?u ?d ?s] =>
           destruct (update_daily_stats_frame t u d s) as (ds & dh & ->)
       end.
       match goal with
       | |- _ ∈ achievements_of _
                  (set_daily_history _ (set_daily_stats _ ?s)) =>
           assert (E : achievements_of user_id
                         (set_daily_history dh (set_daily_stats ds s))
                       = achievements_of user_id s) by (by destruct s)
       end.
       rewrite E, award_achievement_achievements_of.
       apply elem_of_union. left. by apply elem_of_singleton. }
  all: destruct (add_xp_spec today user_id amount st)
         as (ach & ds & dh & -> & _);
       unfold level_of; destruct st; state_simpl;
       destruct (prestige_fires _ _); state_simpl;
       rewrite ?dict_get_set_eq, ?andb_false_r, ?andb_true_r; try done.
  intros _. destruct (Z.ltb_spec
    (dict_get_or user_id 0 user_level0)
    (calculate_level_from_xp (dict_get_or user_id 0%Q user_xp0 + amount)%Q));
    [by rewrite bool_decide_true | by rewrite bool_decide_false by lia].
Qed.

(** ** Invariants along sequences of events *)

Lemma add_xp_levels_below today user_id amount st :
  levels_below_threshold st ->
  levels_below_threshold (snd (add_xp today user_id amount st)).
Proof.
  intros Hst.
  destruct (add_xp_spec today user_id amount st) as (ach & ds & dh & E & _).
  rewrite E. clear E. revert Hst. unfold levels_below_threshold.
  destruct st; state_simpl. intros Hst u.
  destruct (decide (user_id = u)) as [->|Hne];
    destruct (prestige_fires _ _) eqn:Hp; state_simpl;
    rewrite ?dict_get_or_set_eq, ?dict_get_or_set_ne by done; auto.
  - reflexivity.
  - unfold prestige_fires in Hp. specialize (Hst u).
    apply andb_false_iff in Hp as [Hp|Hp];
      [apply Z.leb_gt in Hp | apply Z.ltb_ge in Hp]; lia.
Qed.

Lemma handle_levels_below ev st :
  levels_below_threshold st -> levels_below_threshold (handle ev st).
Proof.
  intros Hst. destruct ev as [clk rnd message|clk user_id before after|clk];
    simpl.
  - destruct (on_message_effect clk rnd message st)
      as [(ach & n & -> & _)
         |(st0 & amount & mc & lm & ds & dh & ach & _ & _ & Hlv & _
           & _ & _ & -> & _)].
    + revert Hst. unfold levels_below_threshold. by destruct st.
    + assert (H0 : levels_below_threshold st0).
      { intros u. rewrite Hlv. apply Hst. }
      apply (add_xp_levels_below (today clk) (author_id message) amount)
        in H0.
      revert H0. unfold levels_below_threshold.
      by destruct (snd (add_xp _ _ _ _)).
  - destruct (on_voice_state_update_effect clk user_id before after st)
      as [(vs & ->)|(vs & duration & ds & dh & _ & ->)].
    + revert Hst. unfold levels_below_threshold. by destruct st.
    + assert (H0 : levels_below_threshold (set_voice_start_times vs st))
        by (revert Hst; unfold levels_below_threshold; by destruct st).
      apply (add_xp_levels_below (today clk) user_id
               (duration * CONFIG.voice_xp_per_minute)%Q) in H0.
      revert H0. unfold levels_below_threshold.
      by destruct (snd (add_xp _ _ _ _)).
  - unfold on_member_join.
    match goal with
    | |- context [update_daily_stats ?t ?u ?d ?s] =>
        destruct (update_daily_stats_frame t u d s) as (ds & dh & ->)
    end.
    revert Hst. unfold levels_below_threshold. by destruct st.
Qed.

(** X15: no user is ever stored at the prestige threshold: when all stored
    levels are below 50, they are below 50 after every sequence of events,
    because reaching 50 resets the level to 0. *)
Theorem levels_stay_below_threshold (evs : list Event) (st : BotState)
  (user_id : Z) :
  levels_below_threshold st ->
  level_of user_id (run evs st) < CONFIG.prestige_threshold.
Proof.
  intros Hst.
  by apply (run_invariant levels_below_threshold handle_levels_below).
Qed.

Lemma levels_stay_below_threshold_witness :
  level_of 1
    (run [VoiceStateEvent (clock_at 0 "2024-05-01" "2024-04-30") 1 None
            (Some 5);
          VoiceStateEvent (clock_at (10 ^ 12) "2024-05-01" "2024-04-30") 1
            (Some 5) None] initial_state) < CONFIG.prestige_threshold.
Proof.
  apply levels_stay_below_threshold. intros u. reflexivity.
Defined.



(** ** Message XP *)

(** X17: one message is worth between 2 and 11 XP: the base XP, at most
    tripled by the daily and the streak bonus, plus a bonus of at most 5. *)
Theorem calculate_message_xp_bounds (clk : Clock) (rnd : Random)
  (user_id : Z) (st : BotState) :
  (2 <= fst (calculate_message_xp clk rnd user_id st) <= 11)%Q.
Proof.
  split; [apply (calculate_message_xp_amount clk rnd user_id st)|].
  unfold calculate_message_xp. cbv zeta.
  assert (Hb : (inject_Z
                  (if Qlt_le_dec (random_random rnd) CONFIG.bonus_xp_chance
                   then randint CONFIG.bonus_xp_min CONFIG.bonus_xp_max
                          (random_seed rnd)
                   else 0) <= 5)%Q).
  { change 5%Q with (inject_Z 5). rewrite <- Zle_Qle.
    destruct (Qlt_le_dec _ _); [|done].
    pose proof (randint_range CONFIG.bonus_xp_min CONFIG.bonus_xp_max
                  (random_seed rnd)) as Hr.
    unfold CONFIG.bonus_xp_min, CONFIG.bonus_xp_max in *. lia. }
  revert Hb. generalize (inject_Z
    (if Qlt_le_dec (random_random rnd) CONFIG.bonus_xp_chance
     then randint CONFIG.bonus_xp_min CONFIG.bonus_xp_max (random_seed rnd)
     else 0)). intros bonus Hb.
  unfold CONFIG.base_message_xp, CONFIG.daily_bonus_multiplier,
    CONFIG.streak_bonus_multiplier.
  destruct (bool_decide (_ ≠ today clk));
    [destruct (bool_decide (_ = yesterday clk))|];
    state_simpl; destruct (_ <=? _); state_simpl; lra.
Qed.

(** What a message that earns XP records besides the XP. *)
Lemma on_message_award_fields clk rnd message st :
  reaches_xp_section message st = true ->
  (CONFIG.antispam_cooldown_sec
   <= current_time clk
      - dict_get_or (author_id message) 0%Q (user_last_message st))%Q ->
  let st' := on_message clk rnd message st in
  user_last_message st'
  = dict_set (author_id message) (current_time clk) (user_last_message st)
  /\ user_message_count st'
     = dict_set (author_id message)
         (dict_get_or (author_id message) 0 (user_message_count st) + 1)
         (user_message_count st)
  /\ total_server_messages st' = total_server_messages st + 1
  /\ locked_channels st' = locked_channels st.
Proof.
  unfold reaches_xp_section, on_message. intros Hreach Hcool.
  destruct (author_is_bot_user message); [done|].
  destruct (bool_decide _ && negb _); [done|].
  destruct (channel_is_dm message && author_is_admin message); [done|].
  destruct (in_guild message); [|done]. cbv zeta.
  rewrite (proj2 (Qle_bool_iff _ _) Hcool).
  set (user_id := author_id message).
  set (st1 := set_total_server_messages (total_server_messages st + 1) st).
  assert (Hst2 : exists ach2,
            (if dict_mem user_id (user_message_count st1) then st1
             else award_achievement user_id "first_message" st1)
            = set_user_achievements ach2 st1).
  { destruct (dict_mem _ _).
    - exists (user_achievements st). subst st1. by destruct st.
    - destruct (award_achievement_frame user_id "first_message" st1)
        as (ach & E & _). eauto. }
  destruct Hst2 as (ach2 & ->).
  set (st2 := set_user_achievements ach2 st1).
  destruct (calculate_message_xp_frame clk rnd user_id st2)
    as (ld & sk & Hst3 & _).
  destruct (calculate_message_xp clk rnd user_id st2) as [xp_gained st3].
  cbn [snd] in Hst3. subst st3. cbv beta iota.
  set (st3 := set_user_daily_streak sk (set_user_last_daily ld st2)).
  pose proof (add_xp_other_fields (today clk) user_id xp_gained st3) as Hf.
  cbv zeta in Hf.
  destruct (add_xp (today clk) user_id xp_gained st3) as [r st4].
  cbn [snd] in Hf. cbv beta iota.
  destruct Hf as (_ & Hlm & _ & _ & _ & Hmc & _ & Htot & Hlock).
  assert (Htail : forall s : BotState, exists ach,
            (if get_user_rank user_id s <=? 3
             then if bool_decide ("top_3" ∉ dict_get_or user_id ∅
                                               (user_achievements s))
                  then award_achievement user_id "top_3" s else s
             else s) = set_user_achievements ach s).
  { intros s. destruct (_ <=? 3); [destruct (bool_decide _)|].
    - destruct (award_achievement_frame user_id "top_3" s) as (a & E & _).
      eauto.
    - exists (user_achievements s). by destruct s.
    - exists (user_achievements s). by destruct s. }
  match goal with
  | |- context [get_user_rank user_id ?s] => destruct (Htail s) as (ach & ->)
  end.
  match goal with
  | |- context [update_daily_stats ?t ?u ?d ?s] =>
      destruct (update_daily_stats_frame t u d s) as (ds & dh & ->)
  end.
  subst st3 st2 st1. destruct st4, st. state_simpl. subst.
  repeat split.
Qed.

(** X18: a guild message that passes the cooldown raises the message count
    of its sender by one and the server counter by one, and records its
    time as the sender's last message. *)
Theorem message_is_counted (clk : Clock) (rnd : Random) (message : Message)
  (st : BotState) :
  reaches_xp_section message st = true ->
  (CONFIG.antispam_cooldown_sec
   <= current_time clk
      - dict_get_or (author_id message) 0%Q (user_last_message st))%Q ->
  let user_id := author_id message in
  let st' := on_message clk rnd message st in
  dict_get user_id (user_message_count st')
  = Some (dict_get_or user_id 0 (user_message_count st) + 1)
  /\ dict_get user_id (user_last_message st') = Some (current_time clk)
  /\ total_server_messages st' = total_server_messages st + 1.
Proof.
  intros Hreach Hcool user_id st'. subst user_id st'.
  destruct (on_message_award_fields clk rnd message st Hreach Hcool)
    as (-> & -> & -> & _).
  by rewrite !dict_get_set_eq.
Qed.

Lemma message_is_counted_witness :
  let st' := on_message (clock_at 1000 "2024-05-01" "2024-04-30") no_bonus
               (guild_message 1) initial_state in
  dict_get 1 (user_message_count st') = Some 1.
Proof.
  intros st'.
  destruct (message_is_counted (clock_at 1000 "2024-05-01" "2024-04-30")
              no_bonus (guild_message 1) initial_state) as (Hc & _).
  - reflexivity.
  - vm_compute. discriminate.
  - exact Hc.
Defined.

(** X19: of two messages of one user less than five seconds apart, the
    second earns nothing: it changes neither the XP, nor the levels, nor
    the message counts. *)
Theorem second_message_in_cooldown (clk1 clk2 : Clock) (rnd1 rnd2 : Random)
  (message : Message) (st : BotState) :
  reaches_xp_section message st = true ->
  (CONFIG.antispam_cooldown_sec
   <= current_time clk1
      - dict_get_or (author_id message) 0%Q (user_last_message st))%Q ->
  (current_time clk2 - current_time clk1 < CONFIG.antispam_cooldown_sec)%Q ->
  let st1 := on_message clk1 rnd1 message st in
  let st2 := on_message clk2 rnd2 message st1 in
  user_xp st2 = user_xp st1 /\ user_level st2 = user_level st1
  /\ user_message_count st2 = user_message_count st1.
Proof.
  intros Hreach Hcool Hclose st1 st2.
  destruct (on_message_award_fields clk1 rnd1 message st Hreach Hcool)
    as (Hlm & _ & _ & _). fold st1 in Hlm.
  assert (Hlast : dict_get_or (author_id message) 0%Q (user_last_message st1)
                  = current_time clk1)
    by (rewrite Hlm; apply dict_get_or_set_eq).
  subst st2. destruct (reaches_xp_section message st1) eqn:Hreach1.
  - rewrite on_message_in_cooldown by (done || by rewrite Hlast).
    cbv zeta. destruct (dict_mem _ _).
    + by destruct st1.
    + destruct (award_achievement_frame (author_id message) "first_message"
                  (set_total_server_messages (total_server_messages st1 + 1)
                     st1)) as (ach & -> & _).
      by destruct st1.
  - by rewrite on_message_not_reached.
Qed.

Lemma second_message_in_cooldown_witness :
  let st1 := on_message (clock_at 1000 "2024-05-01" "2024-04-30") no_bonus
               (guild_message 1) initial_state in
  let st2 := on_message (clock_at 1003 "2024-05-01" "2024-04-30") no_bonus
               (guild_message 1) st1 in
  user_xp st2 = user_xp st1.
Proof.
  intros st1 st2.
  destruct (second_message_in_cooldown
              (clock_at 1000 "2024-05-01" "2024-04-30")
              (clock_at 1003 "2024-05-01" "2024-04-30") no_bonus no_bonus
              (guild_message 1) initial_state) as (Hxp & _).
  - reflexivity.
  - vm_compute. discriminate.
  - vm_compute. reflexivity.
  - exact Hxp.
Defined.

(** ** Voice sessions *)

Lemma dict_get_remove_eq {K V} `{EqDecision K} (k : K) (d : dict K V) :
  dict_wf d -> dict_get k (dict_remove k d) = None.
Proof.
  unfold dict_wf. induction d as [|[k' v'] d IH]; simpl; [done|].
  intros [Hk Hd]%NoDup_cons.
  destruct (decide (k = k')) as [->|Hne]; simpl.
  - by apply dict_get_None.
  - rewrite decide_False by done. by apply IH.
Qed.

Lemma dict_get_remove_ne {K V} `{EqDecision K} (k k' : K) (d : dict K V) :
  k <> k' -> dict_get k' (dict_remove k d) = dict_get k' d.
Proof.
  intros Hne. induction d as [|[k0 v0] d IH]; simpl; [done|].
  destruct (decide (k = k0)) as [->|Hne0]; simpl.
  - by rewrite decide_False.
  - by rewrite IH.
Qed.

(** The open sessions after a member left all voice channels. *)
Lemma on_voice_leave_sessions clk user_id channel st :
  voice_start_times
    (on_voice_state_update clk user_id (Some channel) None st)
  = match dict_get user_id (voice_start_times st) with
    | Some _ => dict_remove user_id (voice_start_times st)
    | None => voice_start_times st
    end.
Proof.
  unfold on_voice_state_update. cbv zeta.
  destruct (dict_get user_id (voice_start_times st)) as [start_time|];
    [|done].
  destruct (Qle_bool 1 _); [|by destruct st].
  pose proof (add_xp_other_fields (today clk) user_id
                ((current_time clk - start_time) / 60
                 * CONFIG.voice_xp_per_minute)%Q
                (set_voice_start_times
                   (dict_remove user_id (voice_start_times st)) st)) as Hf.
  cbv zeta in Hf. destruct Hf as (_ & _ & _ & _ & Hvs & _).
  destruct (add_xp _ _ _ _) as [r st1]. cbn [snd] in Hvs. cbv beta iota.
  match goal with
  | |- context [update_daily_stats ?t ?u ?d ?s] =>
      destruct (update_daily_stats_frame t u d s) as (ds & dh & ->)
  end.
  destruct st1, st. state_simpl. by subst.
Qed.

(** X20: joining a voice channel records the time of the join, and leaving
    closes the session whether or not XP is granted: afterwards the member
    has no open session, and the sessions of the other members stay. *)
Theorem voice_session_opens_and_closes (clk : Clock) (user_id channel : Z)
  (st : BotState) :
  dict_wf (voice_start_times st) ->
  dict_get user_id
    (voice_start_times
       (on_voice_state_update clk user_id None (Some channel) st))
  = Some (current_time clk)
  /\ dict_get user_id
       (voice_start_times
          (on_voice_state_update clk user_id (Some channel) None st)) = None
  /\ forall u, u <> user_id ->
       dict_get u
         (voice_start_times
            (on_voice_state_update clk user_id (Some channel) None st))
       = dict_get u (voice_start_times st).
Proof.
  intros Hwf. split_and!.
  - unfold on_voice_state_update. destruct st; state_simpl.
    apply dict_get_set_eq.
  - rewrite on_voice_leave_sessions.
    destruct (dict_get user_id (voice_start_times st)) eqn:Hget; [|done].
    by apply dict_get_remove_eq.
  - intros u Hu. rewrite on_voice_leave_sessions.
    destruct (dict_get user_id (voice_start_times st)); [|done].
    by apply dict_get_remove_ne.
Qed.

Lemma voice_session_opens_and_closes_witness :
  let st := on_voice_state_update (clock_at 100 "2024-05-01" "2024-04-30") 1
              None (Some 5) initial_state in
  dict_get 1
    (voice_start_times
       (on_voice_state_update (clock_at 130 "2024-05-01" "2024-04-30") 1
          (Some 5) None st)) = None.
Proof.
  intros st.
  destruct (voice_session_opens_and_closes
              (clock_at 130 "2024-05-01" "2024-04-30") 1 5 st)
    as (_ & Hclosed & _).
  - apply (bool_decide_unpack _). vm_compute. exact I.
  - exact Hclosed.
Defined.

(** ** Daily statistics *)

(** X22: the first update of a new day, for a stored date that is not
    empty, freezes the statistics of the stored date into the history, with
    the number of active users, and starts the counters of the new day from
    the update alone; the comparison then returns the new statistics and
    the frozen day.  With an empty stored date nothing is written to the
    history. *)
Theorem rollover_freezes_previous_day (today : string) (user_id : option Z)
  (a : StatsDelta) (st : BotState) :
  ds_date (daily_stats st) <> today ->
  let old := daily_stats st in
  let st' := update_daily_stats today user_id a st in
  let frozen :=
    {| dh_messages := ds_messages old; dh_xp_gained := ds_xp_gained old;
       dh_voice_time := ds_voice_time old;
       dh_active_users := Z.of_nat (size (ds_active_users old));
       dh_level_ups := ds_level_ups old; dh_prestiges := ds_prestiges old;
       dh_new_members := ds_new_members old |} in
  ds_messages (daily_stats st') = sd_messages a
  /\ ds_level_ups (daily_stats st') = (if sd_level_up a then 1 else 0)
  /\ ds_prestiges (daily_stats st') = (if sd_prestige a then 1 else 0)
  /\ ds_new_members (daily_stats st') = (if sd_new_member a then 1 else 0)
  /\ ds_active_users (daily_stats st')
     = match truthy_user user_id with Some u => {[u]} | None => ∅ end
  /\ (ds_date old <> "" ->
      dict_get (ds_date old) (daily_history st') = Some frozen
      /\ get_stats_comparison today (ds_date old) st'
         = (Some (daily_stats st'), Some frozen))
  /\ (ds_date old = "" -> daily_history st' = daily_history st).
Proof.
  intros Hnew old st' frozen. subst old st' frozen.
  unfold update_daily_stats, reset_daily_stats, get_stats_comparison.
  rewrite (bool_decide_true _ Hnew).
  destruct (decide (ds_date (daily_stats st) = "")) as [Hempty|Hdate].
  - rewrite (bool_decide_false (ds_date (daily_stats st) ≠ "")) by auto.
    destruct st; state_simpl. simpl in *.
    split_and!;
      first [ done
            | by destruct (sd_level_up a)
            | by destruct (sd_prestige a)
            | by destruct (sd_new_member a)
            | by (destruct (truthy_user user_id); set_solver)
            | by intros [] ].
  - rewrite (bool_decide_true (ds_date (daily_stats st) ≠ "")) by done.
    destruct st; state_simpl. simpl in *.
    split_and!;
      first [ done
            | by destruct (sd_level_up a)
            | by destruct (sd_prestige a)
            | by destruct (sd_new_member a)
            | by (destruct (truthy_user user_id); set_solver)
            | idtac ].
    intros _. rewrite dict_get_set_eq. split; [done|].
    by rewrite bool_decide_true.
Qed.

Lemma rollover_freezes_previous_day_witness :
  let st := on_message (clock_at 1000 "2024-05-01" "2024-04-30") no_bonus
              (guild_message 1) initial_state in
  let st' := update_daily_stats "2024-05-02" None no_delta st in
  dh_messages <$> dict_get (ds_date (daily_stats st)) (daily_history st')
  = Some (ds_messages (daily_stats st)).
Proof.
  intros st st'.
  destruct (rollover_freezes_previous_day "2024-05-02" None no_delta st)
    as (_ & _ & _ & _ & _ & Hfrozen & _).
  - vm_compute. discriminate.
  - destruct Hfrozen as [Hget _]; [vm_compute; discriminate|].
    subst st'. by rewrite Hget.
Defined.

(** X23: [update_daily_stats] records a user as active exactly when a user
    id other than 0 is given: after the call the active users are those of
    the day so far and that user, and nobody more. *)
Theorem update_daily_stats_active_users (today : string)
  (user_id : option Z) (a : StatsDelta) (st : BotState) (u : Z) :
  ds_date (daily_stats st) = today ->
  u ∈ ds_active_users (daily_stats (update_daily_stats today user_id a st))
  <-> u ∈ ds_active_users (daily_stats st) \/ (user_id = Some u /\ u <> 0).
Proof.
  intros Hsame. rewrite update_daily_stats_same_day by done. cbv zeta.
  destruct st; state_simpl. simpl. unfold truthy_user.
  destruct user_id as [v|]; [destruct (Z.eqb_spec v 0) as [->|Hv]|].
  - split; [by left | intros [H|[[= <-] H]]; done].
  - rewrite elem_of_union, elem_of_singleton.
    split; [intros [->|H]; [right | left]; done
           |intros [H|[[= <-] _]]; [right | left]; done].
  - split; [by left | intros [H|[[=] _]]; done].
Qed.

Lemma update_daily_stats_active_users_witness :
  7 ∈ ds_active_users
        (daily_stats
           (update_daily_stats "" (Some 7) no_delta initial_state)).
Proof.
  apply (update_daily_stats_active_users "" (Some 7) no_delta initial_state 7).
  - reflexivity.
  - right. split; [reflexivity | discriminate].
Defined.

(** ** Loading a snapshot *)

Lemma load_keys_bad_key {V W} (f : V -> W) (d : dict string V) k v :
  (k, v) ∈ d -> py_int k = None -> load_keys f d = None.
Proof.
  intros Hin Hbad. unfold load_keys.
  assert (Hm : mapM (fun kv : string * V =>
                       k ← py_int (fst kv); Some (k, f (snd kv))) d = None).
  { apply mapM_None, Exists_exists. exists (k, v). split; [done|].
    simpl. by rewrite Hbad. }
  by rewrite Hm.
Qed.

(** X24: a key that [int] rejects stops [load_data] where it is: when the
    XP map of the document loads and the level map has a key of ASCII
    characters that is no integer literal, the XP map is replaced and
    everything else keeps the value it had, the levels included.  (The keys
    of the XP map are short enough for CPython's limit on the digits of a
    conversion, 4300 where it applies.) *)
Theorem load_data_stops_at_bad_key (today : string) (data : Snapshot)
  (st : BotState) (xp_doc : dict string Q) (xp : dict Z Q)
  (level_doc : dict string Z) (k : string) (level : Z) :
  snap_user_xp data = Some xp_doc -> load_keys id xp_doc = Some xp ->
  Forall (fun kv => (String.length (fst kv) <= 4300)%nat) xp_doc ->
  snap_user_level data = Some level_doc ->
  (k, level) ∈ level_doc -> is_ascii k = true -> py_int k = None ->
  load_data today (Some data) st = set_user_xp xp st.
Proof.
  intros Hxp Hload _ Hlevel Hin _ Hbad. unfold load_data.
  rewrite Hxp, Hlevel, Hload.
  rewrite (load_keys_bad_key id level_doc k level Hin Hbad).
  reflexivity.
Qed.

Lemma load_data_stops_at_bad_key_witness :
  let data :=
    {| snap_user_xp := Some [("7", 40%Q)];
       snap_user_level := Some [("7", 2); ("7.0", 3)];
       snap_user_prestige := None; snap_user_daily_streak := None;
       snap_user_last_daily := None; snap_user_message_count := None;
       snap_user_voice_time := None; snap_user_achievements := None;
       snap_events_message := Some "Party"; snap_total_server_messages := None;
       snap_daily_stats := None; snap_daily_history := None |} in
  load_data "2024-05-01" (Some data) initial_state
  = set_user_xp [(7, 40%Q)] initial_state.
Proof.
  intros data.
  apply (load_data_stops_at_bad_key "2024-05-01" data initial_state
           [("7", 40%Q)] [(7, 40%Q)] [("7", 2); ("7.0", 3)] "7.0" 3);
    try reflexivity.
  - apply Forall_cons. split; [simpl; lia | apply Forall_nil; exact I].
  - apply list_elem_of_further, list_elem_of_singleton. reflexivity.
Defined.

(** What [int] accepts and what it rejects, on keys a document can hold. *)
Example py_int_samples :
  map py_int ["7"; " 7"; "7 "; "+7"; "-7"; "1_0"; "007"; "-0"]
  = [Some 7; Some 7; Some 7; Some 7; Some (-7); Some 10; Some 7; Some 0]
  /\ map py_int [""; "-"; "+ 7"; "_7"; "7_"; "1__0"; "7.0"; "0x10"; "seven"]
     = [None; None; None; None; None; None; None; None; None].
Proof. by vm_compute. Qed.



(** ** Locked channels *)

(** X26: after [lock] by a member with the permission, a message in that
    channel from a member without it is dropped: [on_message] records
    nothing, not even the server message counter; [lock] itself changes
    only the locked channels, and after [unlock] the channel is not locked
    any more. *)
Theorem locked_channel_drops_messages (clk : Clock) (rnd : Random)
  (message : Message) (st : BotState) :
  author_can_manage_messages message = false ->
  let st' := lock_command true (channel_id message) st in
  on_message clk rnd message st' = st'
  /\ (exists locked, st' = set_locked_channels locked st)
  /\ channel_id message
     ∉ locked_channels (unlock_command true (channel_id message) st').
Proof.
  intros Hstaff st'. subst st'. unfold lock_command, unlock_command.
  split_and!.
  - unfold on_message. destruct (author_is_bot_user message); [done|].
    assert (Hin : channel_id message
                  ∈ locked_channels
                      (set_locked_channels
                         ({[channel_id message]} ∪ locked_channels st) st))
      by (destruct st; state_simpl; set_solver).
    by rewrite (bool_decide_true _ Hin), Hstaff.
  - eauto.
  - destruct st; state_simpl. simpl. set_solver.
Qed.

Lemma locked_channel_drops_messages_witness :
  let st' := lock_command true 100 initial_state in
  on_message (clock_at 1000 "2024-05-01" "2024-04-30") no_bonus
    (guild_message 1) st' = st'.
Proof.
  intros st'.
  destruct (locked_channel_drops_messages
              (clock_at 1000 "2024-05-01" "2024-04-30") no_bonus
              (guild_message 1) initial_state) as (Hdrop & _).
  - reflexivity.
  - exact Hdrop.
Defined.

(** ** The weather cache *)

Section WeatherFacts.
Context {Data : Type} (lower : string -> string).

(** X27: after a report was fetched from the network and cached, every
    request for a location with the same lower-case name within the next
    600 seconds is answered with that report, whatever the network would
    answer, and leaves the cache as it is. *)
Theorem fetch_weather_cache_hit (now0 now1 : Q) (location0 location1 : string)
  (data : Data) (outcome : HttpOutcome)
  (weather_cache : dict string (Q * Data)) :
  match dict_get (lower location0) weather_cache with
  | Some cached => (CACHE_TTL <= now0 - fst cached)%Q
  | None => True
  end ->
  lower location0 = lower location1 ->
  (now1 - now0 < CACHE_TTL)%Q ->
  let r0 := fetch_weather lower now0 location0 (HttpResponse 200 (inl data))
              weather_cache in
  fst r0 = inl data
  /\ fetch_weather lower now1 location1 outcome (snd r0)
     = (inl data, snd r0).
Proof.
  intros Hmiss Hkey Hfresh r0.
  assert (Hr0 : r0 = (inl data,
                      dict_set (lower location0) (now0, data) weather_cache)).
  { subst r0. unfold fetch_weather. cbv zeta.
    destruct (dict_get (lower location0) weather_cache) as [cached|];
      [|done].
    destruct (Qlt_le_dec _ _) as [Hlt|]; [lra | done]. }
  rewrite Hr0. cbn [fst snd]. split; [done|].
  unfold fetch_weather. cbv zeta.
  rewrite <- Hkey, dict_get_set_eq. cbn [fst snd].
  destruct (Qlt_le_dec _ _) as [|Hle]; [done | lra].
Qed.

(** X28: only a response with status 200 and a decoded report changes the
    cache: after any other outcome, and after every request served from
    the cache, the cache is what it was. *)
Theorem fetch_weather_failure_not_cached (now : Q) (location : string)
  (outcome : HttpOutcome) (weather_cache : dict string (Q * Data)) :
  (forall data, outcome <> HttpResponse 200 (inl data)) ->
  snd (fetch_weather lower now location outcome weather_cache)
  = weather_cache
  /\ (dict_get (lower location) weather_cache = None ->
      exists text,
        fst (fetch_weather lower now location outcome weather_cache)
        = inr text).
Proof.
  intros Hfail. unfold fetch_weather. cbv zeta.
  assert (Hfetch :
    exists text,
      match outcome with
      | HttpResponse status json =>
          if status =? 200
          then match json with
               | inl data =>
                   (inl data,
                    dict_set (lower location) (now, data) weather_cache)
               | inr text => (inr text, weather_cache)
               end
          else (inr ("Error: " +:+ py_str status
                     +:+ " - Could not fetch weather data"), weather_cache)
      | HttpException text => (inr text, weather_cache)
      end = (inr text, weather_cache)).
  { destruct outcome as [status [data|text]|text]; eauto.
    - destruct (Z.eqb_spec status 200) as [->|]; [|eauto].
      by destruct (Hfail data).
    - destruct (status =? 200); eauto. }
  destruct Hfetch as [text ->].
  destruct (dict_get (lower location) weather_cache) as [cached|].
  - split; [|done]. by destruct (Qlt_le_dec _ _).
  - split; [done | eauto].
Qed.
End WeatherFacts.

Lemma fetch_weather_cache_hit_witness :
  fetch_weather id 500 "oslo" (HttpException "down")
    (snd (fetch_weather id 100 "oslo" (HttpResponse 200 (inl 7%Z)) []))
  = (inl 7%Z, snd (fetch_weather id 100 "oslo" (HttpResponse 200 (inl 7%Z))
                     [])).
Proof.
  apply (fetch_weather_cache_hit id 100 500 "oslo" "oslo" 7%Z
           (HttpException "down") []).
  - exact I.
  - reflexivity.
  - reflexivity.
Defined.

Lemma fetch_weather_failure_not_cached_witness :
  snd (fetch_weather id 100 "oslo" (HttpResponse 503 (inl 7%Z)) [])
  = ([] : dict string (Q * Z)).
Proof.
  apply (fetch_weather_failure_not_cached id 100 "oslo"
           (HttpResponse 503 (inl 7%Z)) []).
  intros data. discriminate.
Defined.

(** ** The date of the daily statistics *)

Lemma stats_follow_refl D st : stats_follow D st st.
Proof. split; [by left | done]. Qed.

Lemma stats_follow_trans D st1 st2 st3 :
  stats_follow D st1 st2 -> stats_follow D st2 st3 -> stats_follow D st1 st3.
Proof.
  intros [Hd Hh] [Hd' Hh']. split.
  - destruct Hd' as [->|]; [exact Hd | by right].
  - intros d Hne HD. rewrite Hh'; [by apply Hh | | done].
    intros ->. destruct Hd as [Heq|HD']; [by rewrite Heq in Hne | done].
Qed.

Lemma stats_follow_setter D (f : BotState -> BotState) st :
  (forall s, daily_stats (f s) = daily_stats s) ->
  (forall s, daily_history (f s) = daily_history s) ->
  stats_follow D st (f st).
Proof.
  intros Hs Hh. split.
  - left. by rewrite Hs.
  - intros d _ _. by rewrite Hh.
Qed.

Lemma stats_follow_update (D : string -> Prop) today user_id a st :
  D today -> stats_follow D st (update_daily_stats today user_id a st).
Proof.
  intros HD. split.
  - right. by rewrite update_daily_stats_date.
  - intros d Hne _. by apply update_daily_stats_history.
Qed.

Lemma stats_follow_award D user_id a st :
  stats_follow D st (award_achievement user_id a st).
Proof.
  destruct (award_achievement_frame user_id a st) as (ach & -> & _).
  apply (stats_follow_setter D (set_user_achievements ach));
    intros []; reflexivity.
Qed.

Ltac follow_tac :=
  lazymatch goal with
  | |- stats_follow _ ?s ?s => apply stats_follow_refl
  | |- stats_follow ?D ?s (update_daily_stats _ _ _ ?t) =>
      apply (stats_follow_trans D s t);
      [follow_tac | apply stats_follow_update; assumption]
  | |- stats_follow ?D ?s (award_achievement _ _ ?t) =>
      apply (stats_follow_trans D s t);
      [follow_tac | apply stats_follow_award]
  | |- stats_follow ?D ?s (if ?c then award_achievement ?u ?a ?t else ?t) =>
      apply (stats_follow_trans D s t);
      [follow_tac
      | destruct c; [apply stats_follow_award | apply stats_follow_refl]]
  | |- stats_follow ?D ?s (if ?c then update_daily_stats ?d ?u ?a ?t else ?t) =>
      apply (stats_follow_trans D s t);
      [follow_tac
      | destruct c;
        [apply stats_follow_update; assumption | apply stats_follow_refl]]
  | |- stats_follow ?D ?s (if ?c then _ else _) => destruct c; follow_tac
  | |- stats_follow ?D ?s ?t =>
      first
        [ is_var t;
          lazymatch goal with
          | H : stats_follow D ?m t |- _ =>
              apply (stats_follow_trans D s m t); [follow_tac | exact H]
          end
        | lazymatch t with
          | ?g ?v ?t0 =>
              apply (stats_follow_trans D s t0);
              [follow_tac
              | apply (stats_follow_setter D (g v)); intros []; reflexivity]
          end ]
  end.

Lemma stats_follow_check_achievements D user_id xp level st :
  stats_follow D st (check_achievements user_id xp level st).
Proof. unfold check_achievements. cbv zeta beta. follow_tac. Qed.

Lemma stats_follow_add_xp (D : string -> Prop) today user_id amount st :
  D today -> stats_follow D st (snd (add_xp today user_id amount st)).
Proof.
  intros HD. unfold add_xp. cbv zeta.
  match goal with
  | |- context [check_achievements ?u ?x ?l ?s] =>
      pose proof (stats_follow_check_achievements D u x l s) as Hc;
      assert (H0 : stats_follow D st s) by follow_tac;
      revert Hc; generalize (check_achievements u x l s); intros st2 Hc
  end.
  assert (H2 : stats_follow D st st2)
    by (eapply stats_follow_trans; [exact H0 | exact Hc]).
  clear Hc H0.
  destruct (prestige_fires _ _); cbv beta iota; cbn [fst snd]; follow_tac.
Qed.

Lemma stats_follow_calculate_message_xp D clk rnd user_id st :
  stats_follow D st (snd (calculate_message_xp clk rnd user_id st)).
Proof.
  destruct (calculate_message_xp_frame clk rnd user_id st)
    as (ld & sk & -> & _).
  follow_tac.
Qed.

Lemma stats_follow_on_message (D : string -> Prop) clk rnd message st :
  D (today clk) -> stats_follow D st (on_message clk rnd message st).
Proof.
  intros HD. unfold on_message.
  destruct (author_is_bot_user message); [follow_tac|].
  destruct (bool_decide _ && negb _); [follow_tac|].
  destruct (channel_is_dm message && author_is_admin message); [follow_tac|].
  destruct (in_guild message); [|follow_tac]. cbv zeta.
  destruct (Qle_bool _ _); [|follow_tac].
  match goal with
  | |- context [calculate_message_xp ?c ?r ?u ?s] =>
      pose proof (stats_follow_calculate_message_xp D c r u s) as Hc;
      destruct (calculate_message_xp c r u s) as [xp_gained st3]
  end.
  cbn [snd] in Hc. cbv beta iota.
  match goal with
  | |- context [add_xp ?d ?u ?x ?s] =>
      pose proof (stats_follow_add_xp D d u x s HD) as Ha;
      destruct (add_xp d u x s) as [r st4]
  end.
  cbn [snd] in Ha. cbv beta iota.
  follow_tac.
Qed.

Lemma stats_follow_on_voice_state_update (D : string -> Prop) clk user_id
  before after st :
  D (today clk) ->
  stats_follow D st (on_voice_state_update clk user_id before after st).
Proof.
  intros HD. unfold on_voice_state_update. cbv zeta.
  destruct before as [b|], after as [a|]; try follow_tac.
  destruct (dict_get user_id (voice_start_times st)) as [start_time|];
    [|follow_tac].
  destruct (Qle_bool 1 _); [|follow_tac].
  match goal with
  | |- context [add_xp ?d ?u ?x ?s] =>
      pose proof (stats_follow_add_xp D d u x s HD) as Ha;
      destruct (add_xp d u x s) as [r st4]
  end.
  cbn [snd] in Ha. cbv beta iota.
  follow_tac.
Qed.

Lemma stats_follow_handle (D : string -> Prop) ev st :
  D (today (event_clock ev)) -> stats_follow D st (handle ev st).
Proof.
  destruct ev; simpl; intros HD.
  - by apply stats_follow_on_message.
  - by apply stats_follow_on_voice_state_update.
  - by apply stats_follow_update.
Qed.

Lemma stats_follow_run (D : string -> Prop) evs st :
  Forall (fun ev => D (today (event_clock ev))) evs ->
  stats_follow D st (run evs st).
Proof.
  unfold run. revert st.
  induction evs as [|ev evs IH]; intros st Hevs; simpl.
  - apply stats_follow_refl.
  - apply Forall_cons in Hevs as [Hev Hevs].
    eapply stats_follow_trans; [by apply stats_follow_handle | by apply IH].
Qed.

(** X29: the hourly task posts the statistics only when they are dated
    today.  When the stored statistics are of another day and no event of
    day [day] was handled yet, [post_daily_stats] run on [day] returns
    before it builds anything, at midnight and with a statistics channel
    too. *)
Theorem post_daily_stats_needs_activity (evs : list Event) (st : BotState)
  (hour minute : Z) (stats_channel : bool) (day before : string) :
  ds_date (daily_stats st) <> day ->
  Forall (fun ev => today (event_clock ev) <> day) evs ->
  post_daily_stats hour minute stats_channel day before (run evs st) = None.
Proof.
  intros Hst Hevs.
  destruct (stats_follow_run (fun d => d <> day) evs st Hevs) as [Hdate _].
  assert (Hne : ds_date (daily_stats (run evs st)) <> day).
  { destruct Hdate as [Heq|Hne]; [by rewrite Heq | exact Hne]. }
  unfold post_daily_stats, get_stats_comparison.
  rewrite (bool_decide_false _ Hne).
  destruct (negb (hour =? 0) || negb (minute =? 0)); [done|].
  by destruct (negb stats_channel).
Qed.

Lemma post_daily_stats_needs_activity_witness :
  post_daily_stats 0 0 true "2024-05-02" "2024-05-01"
    (run [MessageEvent (clock_at 1000 "2024-05-01" "2024-04-30") no_bonus
            (guild_message 1)] initial_state) = None.
Proof.
  apply post_daily_stats_needs_activity.
  - apply (bool_decide_unpack _). vm_compute. exact I.
  - apply Forall_cons. split; [|apply Forall_nil; exact I].
    apply (bool_decide_unpack _). vm_compute. exact I.
Defined.

(** A member who joins in the first minute of the day makes the midnight
    run post: the post then shows the new day, one new member, and the day
    before from the history. *)
Example post_daily_stats_after_join :
  let st := run [MessageEvent (clock_at 1000 "2024-05-01" "2024-04-30")
                   no_bonus (guild_message 1);
                 MemberJoinEvent (clock_at 90000 "2024-05-02" "2024-05-01")]
              initial_state in
  exists today_stats yesterday_stats,
    post_daily_stats 0 0 true "2024-05-02" "2024-05-01" st
    = Some (today_stats, Some yesterday_stats)
    /\ ds_messages today_stats = 0 /\ ds_new_members today_stats = 1
    /\ dh_messages yesterday_stats = 1.
Proof. vm_compute. eauto 10. Qed.


